(** * Challenge-progress engine of the writing-challenge dashboard

    Shallow embedding of [calculate_challenge_status] and
    [get_motivation_message] as they are written in [app12.py] and
    [app2.py], together with the parts of the Python runtime and of pandas
    they rely on:

    - [datetime.date] values as proleptic Gregorian ordinals in [Z]
      ([date.toordinal]), built with CPython's [_ymd2ord];
    - Python [float] as IEEE 754 binary64, through the Standard Library's
      [SpecFloat] (round to nearest, ties to even);
    - Python exceptions as an error monad;
    - [str.strip] on sequences of Unicode code points;
    - the boolean-mask selection and [groupby(...).apply(...)] of pandas on
      a frame of (date, text) rows. *)

From Stdlib Require Import ZArith Bool List Lia.
From Stdlib Require Import Floats.SpecFloat.
From stdpp Require Import base list sorting gmap strings pretty.

Local Open Scope Z_scope.

(** ** Python runtime *)

Module Py.

(** *** Exceptions *)

Inductive exn := ZeroDivisionError | OverflowError | ValueError | IndexError.

Inductive result (A : Type) :=
  | Ok (a : A)
  | Raise (e : exn).
Arguments Ok {A} a.
Arguments Raise {A} e.

Definition bind {A B} (m : result A) (k : A -> result B) : result B :=
  match m with
  | Ok a => k a
  | Raise e => Raise e
  end.

#[global] Instance result_ret : MRet result := fun A a => Ok a.
#[global] Instance result_bind : MBind result := fun A B k m => bind m k.

Definition returns {A} (m : result A) : Prop := exists a, m = Ok a.

(** The value of a statement that runs when the module is imported: it
    only has the type of a value when the statement does not raise. *)
Definition at_import {A} (m : result A)
  : match m with Ok _ => A | Raise _ => exn end :=
  match m with
  | Ok a => a
  | Raise e => e
  end.

(** *** list *)

(** [l[i]], with Python's negative indices. *)
Definition getitem {A} (l : list A) (i : Z) : result A :=
  let n := Z.of_nat (length l) in
  let j := if i <? 0 then i + n else i in
  if (0 <=? j) && (j <? n) then
    match l !! Z.to_nat j with
    | Some a => Ok a
    | None => Raise IndexError
    end
  else Raise IndexError.

(** *** datetime.date *)

(** A [date] is its ordinal: 1 is 0001-01-01 and [MAXORDINAL] is
    9999-12-31.  Comparison of dates is comparison of ordinals and
    [(a - b).days] is the difference of ordinals. *)
Definition date_t := Z.

Definition MINORDINAL : Z := 1.
Definition MAXORDINAL : Z := 3652059.

Definition valid_date (d : date_t) : Prop := MINORDINAL <= d <= MAXORDINAL.

Definition is_leap (year : Z) : bool :=
  (year mod 4 =? 0) && (negb (year mod 100 =? 0) || (year mod 400 =? 0)).

Definition days_before_year (year : Z) : Z :=
  let y := year - 1 in
  y * 365 + y / 4 - y / 100 + y / 400.

Definition DAYS_BEFORE_MONTH : list Z :=
  [0; 31; 59; 90; 120; 151; 181; 212; 243; 273; 304; 334].

Definition days_before_month (year month : Z) : Z :=
  nth (Z.to_nat (month - 1)) DAYS_BEFORE_MONTH 0
  + (if (month >? 2) && is_leap year then 1 else 0).

Definition ymd2ord (year month day : Z) : Z :=
  days_before_year year + days_before_month year month + day.

(** [date(year, month, day)] *)
Definition date (year month day : Z) : date_t := ymd2ord year month day.

(** [(a - b).days] *)
Definition days_between (a b : date_t) : Z := a - b.

(** *** float *)

Definition prec : Z := 53.
Definition emax : Z := 1024.

Definition float := spec_float.

(** [float(n)] for an [int]: correctly rounded, [OverflowError] when the
    integer is too large. *)
Definition float_of_int (n : Z) : result float :=
  match binary_normalize prec emax n 0 false with
  | S754_infinity _ => Raise OverflowError
  | f => Ok f
  end.

(** The integer [n] as an unrounded mantissa with exponent 0. *)
Definition int_mantissa (n : Z) : float :=
  match n with
  | Z0 => S754_zero false
  | Zpos p => S754_finite false p 0
  | Zneg p => S754_finite true p 0
  end.

(** [a / b] for two [int]s: the correctly rounded quotient. *)
Definition int_truediv (a b : Z) : result float :=
  if b =? 0 then Raise ZeroDivisionError
  else
    match SFdiv prec emax (int_mantissa a) (int_mantissa b) with
    | S754_infinity _ => Raise OverflowError
    | f => Ok f
    end.

(** [x * y] for two [float]s (no exception: overflow gives [inf]). *)
Definition float_mul (x y : float) : float := SFmul prec emax x y.

(** [x * n] and [n * x] for a [float] and an [int]. *)
Definition float_mul_int (x : float) (n : Z) : result float :=
  y ← float_of_int n; Ok (float_mul x y).

Definition int_mul_float (n : Z) (x : float) : result float :=
  y ← float_of_int n; Ok (float_mul y x).

(** [int(x)]: truncation toward zero. *)
Definition int_of_float (x : float) : result Z :=
  match x with
  | S754_zero _ => Ok 0
  | S754_finite s m e => Ok (cond_Zopp s (Z.shiftl (Zpos m) e))
  | S754_infinity _ => Raise OverflowError
  | S754_nan => Raise ValueError
  end.

(** A number that is an [int] or a [float], as the rates are. *)
Inductive num :=
  | Int (n : Z)
  | Float (x : float).

(** The comparison of a [float] with an [int], which Python decides on
    the exact values; [None] when the float is a NaN. *)
Definition float_cmp_int (x : float) (n : Z) : option comparison :=
  match x with
  | S754_nan => None
  | S754_infinity s => Some (if s then Lt else Gt)
  | S754_zero _ => Some (0 ?= n)
  | S754_finite s m e =>
      let v := cond_Zopp s (Zpos m) in
      Some (if 0 <=? e then v * 2 ^ e ?= n else v ?= n * 2 ^ (- e))
  end.

(** [n < x] *)
Definition int_lt_float (n : Z) (x : float) : bool :=
  match float_cmp_int x n with
  | Some Gt => true
  | _ => false
  end.

(** [n <= x] *)
Definition int_le_float (n : Z) (x : float) : bool :=
  match float_cmp_int x n with
  | Some Gt | Some Eq => true
  | _ => false
  end.

(** [x <= n] *)
Definition float_le_int (x : float) (n : Z) : bool :=
  match float_cmp_int x n with
  | Some Lt | Some Eq => true
  | _ => false
  end.

(** [min(x, n)]: the first argument unless the second is smaller. *)
Definition min_float_int (x : float) (n : Z) : num :=
  if int_lt_float n x then Int n else Float x.

(** [lo <= r <= hi] *)
Definition num_between (lo hi : Z) (r : num) : bool :=
  match r with
  | Int n => (lo <=? n) && (n <=? hi)
  | Float x => int_le_float lo x && float_le_int x hi
  end.

(** [sum(1 for x in l)] *)
Definition sum_ones {A} (l : list A) : Z :=
  fold_left (fun acc _ => acc + 1) l 0.

(** *** str *)

(** A [str] is a sequence of Unicode code points. *)
Definition str := list N.

(** [c.isspace()], CPython's [_PyUnicode_IsWhitespace]. *)
Definition isspace (c : N) : bool :=
  ((9 <=? c) && (c <=? 13) || (28 <=? c) && (c <=? 32)
   || (c =? 133) || (c =? 160) || (c =? 5760)
   || (8192 <=? c) && (c <=? 8202)
   || (c =? 8232) || (c =? 8233) || (c =? 8239) || (c =? 8287)
   || (c =? 12288))%N.

Fixpoint lstrip (s : str) : str :=
  match s with
  | [] => []
  | c :: s' => if isspace c then lstrip s' else s
  end.

Definition rstrip (s : str) : str := rev (lstrip (rev s)).

(** [s.strip()] *)
Definition strip (s : str) : str := rstrip (lstrip s).

(** [s != ''] *)
Definition nonempty (s : str) : bool :=
  match s with
  | [] => false
  | _ :: _ => true
  end.

(** The code points of an ASCII literal. *)
Fixpoint str_of (s : string) : str :=
  match s with
  | EmptyString => []
  | String a s' => Ascii.N_of_ascii a :: str_of s'
  end.

(** *** More of datetime.date, int and str, for the views *)

Definition DI400Y : Z := 146097.
Definition DI100Y : Z := 36524.
Definition DI4Y : Z := 1461.

Definition DAYS_IN_MONTH : list Z :=
  [31; 28; 31; 30; 31; 30; 31; 31; 30; 31; 30; 31].

(** CPython's [_ord2ymd]: the year, month and day of an ordinal. *)
Definition ord2ymd (n : Z) : Z * Z * Z :=
  let n := n - 1 in
  let n400 := n / DI400Y in
  let n := n mod DI400Y in
  let year := n400 * 400 + 1 in
  let n100 := n / DI100Y in
  let n := n mod DI100Y in
  let n4 := n / DI4Y in
  let n := n mod DI4Y in
  let n1 := n / 365 in
  let n := n mod 365 in
  let year := year + n100 * 100 + n4 * 4 + n1 in
  if (n1 =? 4) || (n100 =? 4) then (year - 1, 12, 31)
  else
    let leapyear := (n1 =? 3) && (negb (n4 =? 24) || (n100 =? 3)) in
    let month := Z.shiftr (n + 50) 5 in
    let preceding :=
      nth (Z.to_nat (month - 1)) DAYS_BEFORE_MONTH 0
      + (if (month >? 2) && leapyear then 1 else 0) in
    if preceding >? n then
      let month := month - 1 in
      let preceding :=
        preceding - (nth (Z.to_nat (month - 1)) DAYS_IN_MONTH 0
                     + (if (month =? 2) && leapyear then 1 else 0)) in
      (year, month, n - preceding + 1)
    else (year, month, n - preceding + 1).

(** [d.year], [d.month], [d.day] *)
Definition year_of (d : date_t) : Z := (ord2ymd d).1.1.
Definition month_of (d : date_t) : Z := (ord2ymd d).1.2.
Definition day_of (d : date_t) : Z := (ord2ymd d).2.

(** [d.weekday()]: Monday is 0. *)
Definition weekday (d : date_t) : Z := (d + 6) mod 7.

(** A number in decimal, padded with zeros to [width] digits. *)
Definition zero_padded (width : nat) (n : Z) : string :=
  let digits := pretty n in
  String.concat "" (replicate (width - String.length digits) "0") +:+ digits.

(** [d.strftime('%Y-%m-%d')]: the year as the C library of Linux prints
    it, without padding; the month and the day with two digits. *)
Definition strftime_ymd (d : date_t) : string :=
  pretty (year_of d) +:+ "-" +:+ zero_padded 2 (month_of d)
  +:+ "-" +:+ zero_padded 2 (day_of d).

(** [percentage >= n] for a rate and an [int]. *)
Definition num_ge_int (r : num) (n : Z) : bool :=
  match r with
  | Int m => m >=? n
  | Float x => int_le_float n x
  end.

(** The code points of a UTF-8 encoded literal. *)
Fixpoint utf8_decode (bs : list N) : list N :=
  match bs with
  | [] => []
  | b0 :: r0 =>
      if (b0 <? 128)%N then b0 :: utf8_decode r0
      else
        match r0 with
        | [] => []
        | b1 :: r1 =>
            if (b0 <? 224)%N then
              ((b0 - 192) * 64 + (b1 - 128))%N :: utf8_decode r1
            else
              match r1 with
              | [] => []
              | b2 :: r2 =>
                  if (b0 <? 240)%N then
                    ((b0 - 224) * 4096 + (b1 - 128) * 64 + (b2 - 128))%N
                    :: utf8_decode r2
                  else
                    match r2 with
                    | [] => []
                    | b3 :: r3 =>
                        ((b0 - 240) * 262144 + (b1 - 128) * 4096
                         + (b2 - 128) * 64 + (b3 - 128))%N
                        :: utf8_decode r3
                    end
              end
        end
  end.

(** A [str] literal of the source. *)
Definition lit (s : string) : str := utf8_decode (str_of s).

(** [d + timedelta(days=n)] *)
Definition date_add_days (d : date_t) (n : Z) : result date_t :=
  let o := d + n in
  if (0 <? o) && (o <=? MAXORDINAL) then Ok o else Raise OverflowError.

(** [d.strftime('%m/%d')] *)
Definition strftime_md (d : date_t) : string :=
  zero_padded 2 (month_of d) +:+ "/" +:+ zero_padded 2 (day_of d).

(** The integer nearest to [n / d], ties to the even one ([0 < d]). *)
Definition div_half_even (n d : Z) : Z :=
  let q := n / d in
  let r := n mod d in
  if 2 * r <? d then q
  else if d <? 2 * r then q + 1
  else if Z.even q then q else q + 1.

(** The digits of [tenths / 10] with one decimal. *)
Definition one_decimal (negative : bool) (tenths : Z) : string :=
  (if negative then "-" else "") +:+ pretty (tenths / 10) +:+ "."
  +:+ pretty (tenths mod 10).

(** [f"{r:.1f}"]: the exact value rounded to one decimal, ties to even. *)
Definition format_1f (r : num) : string :=
  match r with
  | Int n => one_decimal (n <? 0) (10 * Z.abs n)
  | Float (S754_zero s) => one_decimal s 0
  | Float (S754_infinity s) => if s then "-inf" else "inf"
  | Float S754_nan => "nan"
  | Float (S754_finite s m e) =>
      one_decimal s
        (if 0 <=? e then 10 * Z.pos m * 2 ^ e
         else div_half_even (10 * Z.pos m) (2 ^ (- e)))
  end.

(** [a < b] for two [str]: lexicographic on the code points. *)
Fixpoint str_lt (a b : str) : bool :=
  match a, b with
  | _, [] => false
  | [], _ :: _ => true
  | x :: a', y :: b' =>
      if (x <? y)%N then true
      else if (y <? x)%N then false
      else str_lt a' b'
  end.

(** [d[key] = value] on a dictionary, which keeps the order of insertion. *)
Fixpoint dict_set {V} (key : string) (value : V) (d : list (string * V))
  : list (string * V) :=
  match d with
  | [] => [(key, value)]
  | (k, v) :: d' =>
      if String.eqb k key then (k, value) :: d'
      else (k, v) :: dict_set key value d'
  end.

(** The dictionary of a display or of a comprehension: its items, set one
    after the other. *)
Definition dict_of {V} (items : list (string * V)) : list (string * V) :=
  fold_left (fun d item => dict_set item.1 item.2 d) items [].

End Py.

(** ** pandas *)

Module Pd.

(** A frame with the two columns the application keeps: the date and the
    text of each entry, one row per entry, in sheet order. *)
Definition frame := list (Py.date_t * Py.str).

(** [df[(df[col] >= lo) & (df[col] <= hi)]] *)
Definition between_mask (lo hi : Py.date_t) (df : frame) : frame :=
  filter (fun row => lo <= row.1 /\ row.1 <= hi) df.

(** Adds a row's value to the group of its key; the groups are kept in
    ascending key order, which is the order [groupby] gives them in. *)
Fixpoint group_add {A} (k : Z) (v : A) (gs : list (Z * list A))
  : list (Z * list A) :=
  match gs with
  | [] => [(k, [v])]
  | (k', vs) :: gs' =>
      if k <? k' then (k, [v]) :: gs
      else if k =? k' then (k', vs ++ [v]) :: gs'
      else (k', vs) :: group_add k v gs'
  end.

(** [df.groupby(key)[col]]: one group per distinct key, keys ascending,
    values in row order. *)
Definition groupby {A} (rows : list (Z * A)) : list (Z * list A) :=
  fold_left (fun gs row => group_add row.1 row.2 gs) rows [].

(** [.apply(f).reset_index(name=...)] *)
Definition apply_reset {A B} (f : list A -> B) (gs : list (Z * list A))
  : list (Z * B) :=
  (fun g => (g.1, f g.2)) <$> gs.

(** [(x.astype(str).str.strip() != '').any()] on one group *)
Definition any_nonblank (x : list Py.str) : bool :=
  existsb (fun s => Py.nonempty (Py.strip s)) x.

(** [df[df[col] == day][text_col]]: the texts of the rows of one day. *)
Definition texts_on (day : Py.date_t) (df : frame) : list Py.str :=
  snd <$> filter (fun row => row.1 = day) df.

(** [pd.date_range(lo, hi, freq='D')], each day as its date. *)
Definition date_range (lo hi : Py.date_t) : list Py.date_t :=
  seqZ lo (hi - lo + 1).

End Pd.

(** ** The dictionaries of the application *)

(** An element of [CHALLENGE_WEEKS]. *)
Record week := {
  w_name : string;
  w_start : Py.date_t;
  w_end : Py.date_t;
  w_goal : Z;
  w_is_challenge : bool
}.

(** An element of [weekly_status]. *)
Record week_status := {
  s_name : string;
  s_start : Py.date_t;
  s_end : Py.date_t;
  s_written : Z;
  s_goal : Z;
  s_rate : Py.num;
  s_is_current : bool;
  s_is_finished : bool;
  s_is_challenge : bool
}.

(** The tuple [calculate_challenge_status] returns. *)
Record challenge_status := {
  weekly_status : list week_status;
  overall_completion_rate : Py.num;
  total_written_challenge : Z;
  total_goal : Z;
  written_dates_set : gset Z;
  written_dates : list Py.date_t
}.

(** What [render_gradient_bar] puts into the bar it draws: the label, the
    text [value일 / max_value일 (percentage%)], the width and the style. *)
Record bar := {
  b_label : string;
  b_text : string;
  b_percentage : Py.num;
  b_style : string
}.

(** What the participant's view draws for one week: a bar for a graded
    week, a line of text for the bonus week. *)
Inductive week_block :=
  | progress_bar (b : bar)
  | info_block (text : string).

(** A value of [calendar_data]. *)
Record day_data := {
  dd_is_written : bool;
  dd_contents : list Py.str
}.

(** What [render_table_calendar] appends to the table body: an empty cell
    [<td class="empty"></td>], the row break [</tr><tr>], or the cell of a
    day with its class, [data-date], [onclick], day number and content. *)
Inductive cell :=
  | empty_cell
  | row_break
  | day_cell (cell_class : string) (data_date : string) (onclick : string)
      (day_num : Z) (day_content : Py.str).

(** A value of the organiser's table: a text, an [int], or a rate. *)
Inductive table_value :=
  | text_value (s : string)
  | int_value (n : Z)
  | num_value (r : Py.num).

(** ** app12.py *)

Module App12.
Import Py.

Definition WEEKLY_GOAL : Z := 5.
Definition TOTAL_CHALLENGE_GOAL : Z := 20.

Definition CHALLENGE_WEEKS : list week := [
  {| w_name := "보너스 주차"; w_start := date 2025 12 3; w_end := date 2025 12 7;
     w_goal := 0; w_is_challenge := false |};
  {| w_name := "1주차"; w_start := date 2025 12 8; w_end := date 2025 12 14;
     w_goal := WEEKLY_GOAL; w_is_challenge := true |};
  {| w_name := "2주차"; w_start := date 2025 12 15; w_end := date 2025 12 21;
     w_goal := WEEKLY_GOAL; w_is_challenge := true |};
  {| w_name := "3주차"; w_start := date 2025 12 22; w_end := date 2025 12 28;
     w_goal := WEEKLY_GOAL; w_is_challenge := true |};
  {| w_name := "4주차"; w_start := date 2025 12 29; w_end := date 2026 1 4;
     w_goal := WEEKLY_GOAL; w_is_challenge := true |}
].

Definition CHALLENGE_START_DATE : date_t :=
  w_start (at_import (getitem CHALLENGE_WEEKS 0)).
Definition CHALLENGE_END_DATE : date_t :=
  w_end (at_import (getitem CHALLENGE_WEEKS (-1))).

Definition msg_achieved (total_goal : Z) : string :=
  "🔥 너무 잘하고 계십니다! 최종 목표(" +:+ pretty total_goal
  +:+ "일)를 이미 달성하셨습니다. 추가 기록은 보너스 포인트!".

Definition msg_on_pace (expected_goal_to_date surplus : Z) : string :=
  "👍 계획대로 잘 진행 중입니다! (기대 목표 " +:+ pretty expected_goal_to_date
  +:+ "일 대비 +" +:+ pretty surplus +:+ "일 초과)".

Definition msg_behind (remaining_to_catch_up : Z) : string :=
  "⏰ 조금 더 속도를 내볼까요? 현재 기대 목표 대비 "
  +:+ pretty remaining_to_catch_up +:+ "일 부족합니다.".

(** [today] is the value of [date.today()]. *)
Definition get_motivation_message (today : date_t)
    (total_written total_goal : Z) : result string :=
  if total_written >=? total_goal then Ok (msg_achieved total_goal)
  else
    first_week ← getitem CHALLENGE_WEEKS 1;
    let elapsed_challenge_days := days_between today (w_start first_week) + 1 in
    last_week ← getitem CHALLENGE_WEEKS (-1);
    first_week ← getitem CHALLENGE_WEEKS 1;
    let main_challenge_days :=
      days_between (w_end last_week) (w_start first_week) + 1 in
    let elapsed_challenge_days :=
      if elapsed_challenge_days <? 0 then 0 else elapsed_challenge_days in
    ratio ← int_truediv elapsed_challenge_days main_challenge_days;
    scaled ← int_mul_float TOTAL_CHALLENGE_GOAL ratio;
    expected_goal_to_date ← int_of_float scaled;
    let expected_goal_to_date := Z.max 0 expected_goal_to_date in
    if total_written >=? expected_goal_to_date then
      Ok (msg_on_pace expected_goal_to_date
            (total_written - expected_goal_to_date))
    else
      let remaining_to_catch_up := expected_goal_to_date - total_written in
      Ok (msg_behind remaining_to_catch_up).

(** The entries of the window, reduced to the days that have a written
    entry: [df_filtered], [df_grouped], [df_written_days], [written_dates]. *)
Definition written_days (df_member : Pd.frame) : list date_t :=
  let df_filtered :=
    Pd.between_mask CHALLENGE_START_DATE CHALLENGE_END_DATE df_member in
  let df_grouped := Pd.apply_reset Pd.any_nonblank (Pd.groupby df_filtered) in
  let df_written_days := filter (fun row => row.2 = true) df_grouped in
  fst <$> df_written_days.

(** One iteration of [for week_data in CHALLENGE_WEEKS]. *)
Definition week_iteration (written_dates : list date_t) (today : date_t)
    (state : list week_status * Z) (week_data : week)
  : result (list week_status * Z) :=
  let '(weekly_status, total_written_challenge) := state in
  let week_start := w_start week_data in
  let week_end := w_end week_data in
  let goal := w_goal week_data in
  let is_challenge := w_is_challenge week_data in
  let effective_week_end := Z.min week_end today in
  let '(written_count, is_current, is_finished) :=
    if week_start >? today then (0, false, false)
    else
      let written_count :=
        sum_ones (filter (fun d => week_start <= d /\ d <= effective_week_end)
                    written_dates) in
      let is_finished := week_end <? today in
      let is_current :=
        (week_start <=? today) && (today <=? week_end) && negb is_finished in
      (written_count, is_current, is_finished) in
  let total_written_challenge :=
    if is_challenge then total_written_challenge + written_count
    else total_written_challenge in
  achievement_rate ←
    (if goal >? 0 then
       ratio ← int_truediv written_count goal;
       percent ← float_mul_int ratio 100;
       Ok (min_float_int percent 100)
     else Ok (Int 0));
  Ok (weekly_status ++ [
        {| s_name := w_name week_data; s_start := week_start;
           s_end := week_end; s_written := written_count; s_goal := goal;
           s_rate := achievement_rate; s_is_current := is_current;
           s_is_finished := is_finished; s_is_challenge := is_challenge |}],
      total_written_challenge).

Fixpoint for_weeks (written_dates : list date_t) (today : date_t)
    (weeks : list week) (state : list week_status * Z)
  : result (list week_status * Z) :=
  match weeks with
  | [] => Ok state
  | week_data :: weeks' =>
      state' ← week_iteration written_dates today state week_data;
      for_weeks written_dates today weeks' state'
  end.

(** [today] is the value of [date.today()]. *)
Definition calculate_challenge_status (today : date_t) (df_member : Pd.frame)
  : result challenge_status :=
  let written_dates := written_days df_member in
  let written_dates_set : gset Z := list_to_set written_dates in
  '(weekly_status, total_written_challenge) ←
    for_weeks written_dates today CHALLENGE_WEEKS ([], 0);
  ratio ← int_truediv total_written_challenge TOTAL_CHALLENGE_GOAL;
  percent ← float_mul_int ratio 100;
  let overall_completion_rate := min_float_int percent 100 in
  Ok {| weekly_status := weekly_status;
        overall_completion_rate := overall_completion_rate;
        total_written_challenge := total_written_challenge;
        total_goal := TOTAL_CHALLENGE_GOAL;
        written_dates_set := written_dates_set;
        written_dates := written_dates |}.

Definition PRIMARY_COLOR : string := "#FF6B35".
Definition ACCENT_COLOR : string := "#3ABBF8".

Definition render_gradient_bar (label : string) (value max_value : Z)
    (is_challenge is_current : bool) : result bar :=
  ratio ← int_truediv value max_value;
  scaled ← float_mul_int ratio 100;
  let percentage := min_float_int scaled 100 in
  let '(bar_gradient, bar_shadow) :=
    if is_challenge then
      if num_ge_int percentage 100 then
        ("linear-gradient(90deg, #10C65A, #1BBF00)",
         "0 0 10px rgba(27, 191, 0, 0.5)")
      else if is_current then
        ("linear-gradient(90deg, " +:+ ACCENT_COLOR +:+ ", #00a4e4)",
         "0 0 8px rgba(58, 187, 248, 0.4)")
      else
        ("linear-gradient(90deg, #FF9966, " +:+ PRIMARY_COLOR +:+ ")",
         "0 0 5px rgba(255, 107, 53, 0.3)")
    else ("linear-gradient(90deg, #C0C0C0, #808080)", "none") in
  let bar_style :=
    "background: " +:+ bar_gradient +:+ "; box-shadow: " +:+ bar_shadow
    +:+ ";" in
  Ok {| b_label := label;
        b_text := pretty value +:+ "일 / " +:+ pretty max_value +:+ "일 ("
                  +:+ format_1f percentage +:+ "%)";
        b_percentage := percentage;
        b_style := bar_style |}.

(** [[str(c).strip() for c in df_day[text_col] if str(c).strip()]] for the
    rows of one day. *)
Definition day_contents (day : date_t) (df_member : Pd.frame) : list str :=
  filter (fun c => nonempty c = true) (strip <$> Pd.texts_on day df_member).

(** The dictionary the pop-up reads. *)
Definition calendar_data (written_dates_set : gset Z) (df_member : Pd.frame)
  : gmap string day_data :=
  fold_left
    (fun calendar_data day_date =>
       let contents := day_contents day_date df_member in
       <[strftime_ymd day_date :=
           {| dd_is_written := bool_decide (day_date ∈ written_dates_set);
              dd_contents := contents |}]> calendar_data)
    (Pd.date_range CHALLENGE_START_DATE CHALLENGE_END_DATE) ∅.

(** The cell the loop writes for [current_day]. *)
Definition calendar_cell (written_dates_set : gset Z) (today : date_t)
    (df_member : Pd.frame) (current_day : date_t) : cell :=
  let day_str := strftime_ymd current_day in
  let is_written :=
    bool_decide (day_str ∈ strftime_ymd <$> elements written_dates_set) in
  let '(cell_class, content_display) :=
    if current_day <? today then
      (if is_written then "complete" else "missed",
       if is_written then lit "기록 완료" else lit "미작성")
    else if current_day =? today then
      (if is_written then "complete" else "encourage",
       if is_written then lit "기록 완료" else lit "오늘의 메모")
    else ("future", lit "") in
  let click_handler :=
    if current_day <=? today then "showModal('" +:+ day_str +:+ "');"
    else "" in
  let content_display :=
    if is_written then
      match day_contents current_day df_member with
      | [] => content_display
      | first :: _ =>
          if (10 <? length first)%nat
          then lit "'" ++ take 10 first ++ lit "...'"
          else first
      end
    else content_display in
  day_cell cell_class day_str click_handler (day_of current_day)
    content_display.

(** [while current_day <= end_date]; [None] when [fuel] iterations did
    not reach the end of the loop. *)
Fixpoint calendar_while (fuel : nat) (written_dates_set : gset Z)
    (today : date_t) (df_member : Pd.frame) (start_weekday : Z)
    (end_date : date_t) (html : list cell) (current_day : date_t)
    (day_counter : Z) : option (result (list cell * Z)) :=
  match fuel with
  | O => None
  | S fuel' =>
      if current_day <=? end_date then
        let html :=
          if (day_counter mod 7 =? 0) && (day_counter >? start_weekday)
          then html ++ [row_break] else html in
        let html :=
          html ++ [calendar_cell written_dates_set today df_member
                     current_day] in
        match date_add_days current_day 1 with
        | Ok current_day =>
            calendar_while fuel' written_dates_set today df_member
              start_weekday end_date html current_day (day_counter + 1)
        | Raise e => Some (Raise e)
        end
      else Some (Ok (html, day_counter))
  end.

(** The table body, from [start_weekday] to the closing of the last row. *)
Definition calendar_table (written_dates_set : gset Z) (today : date_t)
    (df_member : Pd.frame) (start_date end_date : date_t)
  : option (result (list cell)) :=
  let start_weekday := (weekday start_date + 1) mod 7 in
  let current_day := start_date in
  let day_counter := start_weekday in
  let html := replicate (Z.to_nat start_weekday) empty_cell in
  match calendar_while (S (Z.to_nat (end_date - start_date + 1)))
          written_dates_set today df_member start_weekday end_date html
          current_day day_counter with
  | None => None
  | Some (Raise e) => Some (Raise e)
  | Some (Ok (html, day_counter)) =>
      let remaining := 7 - day_counter mod 7 in
      let html :=
        if remaining <? 7
        then html ++ replicate (Z.to_nat remaining) empty_cell
        else html in
      Some (Ok html)
  end.

Definition render_table_calendar (written_dates_set : gset Z)
    (today : date_t) (df_member : Pd.frame)
  : option (result (gmap string day_data * list cell)) :=
  let calendar_data := calendar_data written_dates_set df_member in
  let start_date := CHALLENGE_START_DATE in
  let end_date := CHALLENGE_END_DATE in
  match calendar_table written_dates_set today df_member start_date
          end_date with
  | None => None
  | Some (Raise e) => Some (Raise e)
  | Some (Ok html) => Some (Ok (calendar_data, html))
  end.

(** [week_label] as the participant's view first builds it. *)
Definition week_label (status : week_status) : string :=
  "[" +:+ s_name status +:+ "] " +:+ strftime_md (s_start status) +:+ " ~ "
  +:+ strftime_md (s_end status).

Definition info_text (week_label : string) (status : week_status) : string :=
  week_label +:+ ": 기록 " +:+ pretty (s_written status)
  +:+ "일 (챌린지 적응 기록)".

Definition total_label (total_goal : Z) : string :=
  "총 목표 달성 (본 챌린지 4주, 목표 " +:+ pretty total_goal +:+ "일)".

(** [is_written_today] of the organiser's view. *)
Definition is_written_today (today : date_t) (df : Pd.frame) : bool :=
  Pd.any_nonblank (Pd.texts_on today df).

(** The rate as both views print it: [f"{overall_rate:.1f}%"]. *)
Definition overall_rate_text (today : date_t) (df_member : Pd.frame)
  : result string :=
  status ← calculate_challenge_status today df_member;
  Ok (format_1f (overall_completion_rate status) +:+ "%").

(** One iteration of [for status in weekly_status] of the participant's
    view. *)
Definition render_week (today : date_t) (status : week_status)
  : result week_block :=
  let week_label := week_label status in
  if s_is_challenge status then
    let is_current := s_is_current status in
    let week_label :=
      if s_start status >? today then week_label +:+ " (예정)"
      else if is_current then "**" +:+ week_label +:+ " (현재 주차)**"
      else week_label in
    b ← render_gradient_bar week_label (s_written status) (s_goal status)
          true is_current;
    Ok (progress_bar b)
  else Ok (info_block (info_text week_label status)).

(** The progress card of [challenge_participant_view]: the bar of the
    total, the pacing message and the blocks of the weeks. *)
Definition progress_card (today : date_t) (df_member : Pd.frame)
  : result (bar * string * list week_block) :=
  status ← calculate_challenge_status today df_member;
  let total_written := total_written_challenge status in
  let total_goal := total_goal status in
  total_bar ← render_gradient_bar (total_label total_goal) total_written
                total_goal true false;
  motivation_msg ← get_motivation_message today total_written total_goal;
  weeks ← mapM (render_week today) (weekly_status status);
  Ok (total_bar, motivation_msg, weeks).

(** [weekly_rates] of the organiser's view: the written days of the graded weeks. *)
Definition weekly_rates (weekly_status : list week_status)
  : list (string * table_value) :=
  dict_of ((fun w => (s_name w, int_value (s_written w)))
           <$> filter (fun w => s_is_challenge w = true) weekly_status).

(** [status_entry], the row of a member in the organiser's table. *)
Definition status_entry (member : string) (today : date_t) (df : Pd.frame)
  : result (list (string * table_value)) :=
  status ← calculate_challenge_status today df;
  let total_written := total_written_challenge status in
  let total_goal := total_goal status in
  let overall_rate := overall_completion_rate status in
  let is_written_today := is_written_today today df in
  let weekly_rates := weekly_rates (weekly_status status) in
  Ok (dict_of
        ([("참가자", text_value member);
          ("오늘 작성", text_value (if is_written_today then "✅" else "❌"));
          ("총 목표(" +:+ pretty total_goal +:+ "일)", int_value total_written);
          ("달성률", text_value (format_1f overall_rate +:+ "%"))]
         ++ weekly_rates)).

(** The columns the ranking can be sorted by. *)
Definition week_cols_for_sort : list string :=
  w_name <$> filter (fun w => w_is_challenge w = true) CHALLENGE_WEEKS.

End App12.

(** ** app2.py *)

Module App2.
Import Py.

Definition WEEKLY_GOAL : Z := 5.
Definition TOTAL_CHALLENGE_GOAL : Z := 20.

Definition CHALLENGE_WEEKS : list week := [
  {| w_name := "보너스 주차"; w_start := date 2025 12 3; w_end := date 2025 12 7;
     w_goal := 0; w_is_challenge := false |};
  {| w_name := "1주차"; w_start := date 2025 12 8; w_end := date 2025 12 14;
     w_goal := WEEKLY_GOAL; w_is_challenge := true |};
  {| w_name := "2주차"; w_start := date 2025 12 15; w_end := date 2025 12 21;
     w_goal := WEEKLY_GOAL; w_is_challenge := true |};
  {| w_name := "3주차"; w_start := date 2025 12 22; w_end := date 2025 12 28;
     w_goal := WEEKLY_GOAL; w_is_challenge := true |};
  {| w_name := "4주차"; w_start := date 2025 12 29; w_end := date 2026 1 4;
     w_goal := WEEKLY_GOAL; w_is_challenge := true |}
].

Definition CHALLENGE_START_DATE : date_t :=
  w_start (at_import (getitem CHALLENGE_WEEKS 0)).
Definition CHALLENGE_END_DATE : date_t :=
  w_end (at_import (getitem CHALLENGE_WEEKS (-1))).

Definition msg_achieved (total_goal : Z) : string :=
  "🔥 너무 잘하고 계십니다! 최종 목표(" +:+ pretty total_goal
  +:+ "일)를 이미 달성하셨습니다. 추가 기록은 보너스 포인트!".

Definition msg_on_pace (expected_goal_to_date surplus : Z) : string :=
  "👍 계획대로 잘 진행 중입니다! (기대 목표 " +:+ pretty expected_goal_to_date
  +:+ "일 대비 +" +:+ pretty surplus +:+ "일 초과)".

Definition msg_behind (remaining_to_catch_up : Z) : string :=
  "⏰ 조금 더 속도를 내볼까요? 현재 기대 목표 대비 "
  +:+ pretty remaining_to_catch_up +:+ "일 부족합니다.".

(** [today] is the value of [date.today()]. *)
Definition get_motivation_message (today : date_t)
    (total_written total_goal : Z) : result string :=
  if total_written >=? total_goal then Ok (msg_achieved total_goal)
  else
    let elapsed_days := days_between today CHALLENGE_START_DATE + 1 in
    let total_challenge_days :=
      days_between CHALLENGE_END_DATE CHALLENGE_START_DATE + 1 in
    ratio ← int_truediv elapsed_days total_challenge_days;
    scaled ← int_mul_float total_goal ratio;
    expected_goal_to_date ← int_of_float scaled;
    if total_written >=? expected_goal_to_date then
      Ok (msg_on_pace expected_goal_to_date
            (total_written - expected_goal_to_date))
    else
      let remaining_to_catch_up := expected_goal_to_date - total_written in
      Ok (msg_behind remaining_to_catch_up).

(** The entries of the window, reduced to the days that have a written
    entry: [df_filtered], [df_grouped], [df_written_days], [written_dates]. *)
Definition written_days (df_member : Pd.frame) : list date_t :=
  let df_filtered :=
    Pd.between_mask CHALLENGE_START_DATE CHALLENGE_END_DATE df_member in
  let df_grouped := Pd.apply_reset Pd.any_nonblank (Pd.groupby df_filtered) in
  let df_written_days := filter (fun row => row.2 = true) df_grouped in
  fst <$> df_written_days.

(** One iteration of [for week_data in CHALLENGE_WEEKS]. *)
Definition week_iteration (written_dates : list date_t) (today : date_t)
    (state : list week_status * Z) (week_data : week)
  : result (list week_status * Z) :=
  let '(weekly_status, total_written_challenge) := state in
  let week_start := w_start week_data in
  let week_end := w_end week_data in
  let goal := w_goal week_data in
  let is_challenge := w_is_challenge week_data in
  let effective_week_end := Z.min week_end today in
  let '(written_count, is_current, is_finished) :=
    if week_start >? today then (0, false, false)
    else
      let written_count :=
        sum_ones (filter (fun d => week_start <= d /\ d <= effective_week_end)
                    written_dates) in
      let is_finished := week_end <? today in
      let is_current :=
        (week_start <=? today) && (today <=? week_end) && negb is_finished in
      (written_count, is_current, is_finished) in
  let total_written_challenge :=
    if is_challenge then total_written_challenge + written_count
    else total_written_challenge in
  achievement_rate ←
    (if goal >? 0 then
       ratio ← int_truediv written_count goal;
       percent ← float_mul_int ratio 100;
       Ok (min_float_int percent 100)
     else Ok (Int 0));
  Ok (weekly_status ++ [
        {| s_name := w_name week_data; s_start := week_start;
           s_end := week_end; s_written := written_count; s_goal := goal;
           s_rate := achievement_rate; s_is_current := is_current;
           s_is_finished := is_finished; s_is_challenge := is_challenge |}],
      total_written_challenge).

Fixpoint for_weeks (written_dates : list date_t) (today : date_t)
    (weeks : list week) (state : list week_status * Z)
  : result (list week_status * Z) :=
  match weeks with
  | [] => Ok state
  | week_data :: weeks' =>
      state' ← week_iteration written_dates today state week_data;
      for_weeks written_dates today weeks' state'
  end.

(** [today] is the value of [date.today()]. *)
Definition calculate_challenge_status (today : date_t) (df_member : Pd.frame)
  : result challenge_status :=
  let written_dates := written_days df_member in
  let written_dates_set : gset Z := list_to_set written_dates in
  '(weekly_status, total_written_challenge) ←
    for_weeks written_dates today CHALLENGE_WEEKS ([], 0);
  ratio ← int_truediv total_written_challenge TOTAL_CHALLENGE_GOAL;
  percent ← float_mul_int ratio 100;
  let overall_completion_rate := min_float_int percent 100 in
  Ok {| weekly_status := weekly_status;
        overall_completion_rate := overall_completion_rate;
        total_written_challenge := total_written_challenge;
        total_goal := TOTAL_CHALLENGE_GOAL;
        written_dates_set := written_dates_set;
        written_dates := written_dates |}.

Definition PRIMARY_COLOR : string := "#FF6B35".

Definition render_gradient_bar (label : string) (value max_value : Z)
  : result bar :=
  ratio ← int_truediv value max_value;
  scaled ← float_mul_int ratio 100;
  let percentage := min_float_int scaled 100 in
  let gradient :=
    "linear-gradient(90deg, #FF9966, " +:+ PRIMARY_COLOR +:+ ")" in
  let bar_style :=
    if num_ge_int percentage 100 then
      "background-color: " +:+ PRIMARY_COLOR
      +:+ "; box-shadow: 0 0 10px rgba(255, 107, 53, 0.7);"
    else "background: " +:+ gradient +:+ ";" in
  Ok {| b_label := label;
        b_text := pretty value +:+ "일 / " +:+ pretty max_value +:+ "일 ("
                  +:+ format_1f percentage +:+ "%)";
        b_percentage := percentage;
        b_style := bar_style |}.

(** [[str(c).strip() for c in df_day[text_col] if str(c).strip()]] for the
    rows of one day. *)
Definition day_contents (day : date_t) (df_member : Pd.frame) : list str :=
  filter (fun c => nonempty c = true) (strip <$> Pd.texts_on day df_member).

(** The dictionary the pop-up reads. *)
Definition calendar_data (written_dates_set : gset Z) (df_member : Pd.frame)
  : gmap string day_data :=
  fold_left
    (fun calendar_data day_date =>
       let contents := day_contents day_date df_member in
       <[strftime_ymd day_date :=
           {| dd_is_written := bool_decide (day_date ∈ written_dates_set);
              dd_contents := contents |}]> calendar_data)
    (Pd.date_range CHALLENGE_START_DATE CHALLENGE_END_DATE) ∅.

(** The cell the loop writes for [current_day]. *)
Definition calendar_cell (written_dates_set : gset Z) (today : date_t)
    (df_member : Pd.frame) (current_day : date_t) : cell :=
  let day_str := strftime_ymd current_day in
  let is_written :=
    bool_decide (day_str ∈ strftime_ymd <$> elements written_dates_set) in
  let '(cell_class, content_display) :=
    if current_day <? today then
      (if is_written then "complete" else "missed",
       if is_written then lit "기록 완료" else lit "미작성")
    else if current_day =? today then
      (if is_written then "complete" else "encourage",
       if is_written then lit "기록 완료" else lit "오늘의 메모")
    else ("future", lit "") in
  let click_handler :=
    if current_day <=? today then "showModal('" +:+ day_str +:+ "');"
    else "" in
  let content_display :=
    if is_written then
      match day_contents current_day df_member with
      | [] => content_display
      | first :: _ =>
          if (10 <? length first)%nat
          then lit "'" ++ take 10 first ++ lit "...'"
          else first
      end
    else content_display in
  day_cell cell_class day_str click_handler (day_of current_day)
    content_display.

(** [while current_day <= end_date]; [None] when [fuel] iterations did
    not reach the end of the loop. *)
Fixpoint calendar_while (fuel : nat) (written_dates_set : gset Z)
    (today : date_t) (df_member : Pd.frame) (start_weekday : Z)
    (end_date : date_t) (html : list cell) (current_day : date_t)
    (day_counter : Z) : option (result (list cell * Z)) :=
  match fuel with
  | O => None
  | S fuel' =>
      if current_day <=? end_date then
        let html :=
          if (day_counter mod 7 =? 0) && (day_counter >? start_weekday)
          then html ++ [row_break] else html in
        let html :=
          html ++ [calendar_cell written_dates_set today df_member
                     current_day] in
        match date_add_days current_day 1 with
        | Ok current_day =>
            calendar_while fuel' written_dates_set today df_member
              start_weekday end_date html current_day (day_counter + 1)
        | Raise e => Some (Raise e)
        end
      else Some (Ok (html, day_counter))
  end.

(** The table body, from [start_weekday] to the closing of the last row. *)
Definition calendar_table (written_dates_set : gset Z) (today : date_t)
    (df_member : Pd.frame) (start_date end_date : date_t)
  : option (result (list cell)) :=
  let start_weekday := (weekday start_date + 1) mod 7 in
  let current_day := start_date in
  let day_counter := start_weekday in
  let html := replicate (Z.to_nat start_weekday) empty_cell in
  match calendar_while (S (Z.to_nat (end_date - start_date + 1)))
          written_dates_set today df_member start_weekday end_date html
          current_day day_counter with
  | None => None
  | Some (Raise e) => Some (Raise e)
  | Some (Ok (html, day_counter)) =>
      let remaining := 7 - day_counter mod 7 in
      let html :=
        if remaining <? 7
        then html ++ replicate (Z.to_nat remaining) empty_cell
        else html in
      Some (Ok html)
  end.

Definition render_table_calendar (written_dates_set : gset Z)
    (today : date_t) (df_member : Pd.frame)
  : option (result (gmap string day_data * list cell)) :=
  let calendar_data := calendar_data written_dates_set df_member in
  let start_date := CHALLENGE_START_DATE in
  let end_date := CHALLENGE_END_DATE in
  match calendar_table written_dates_set today df_member start_date
          end_date with
  | None => None
  | Some (Raise e) => Some (Raise e)
  | Some (Ok html) => Some (Ok (calendar_data, html))
  end.

(** [week_label] as the participant's view first builds it. *)
Definition week_label (status : week_status) : string :=
  "[" +:+ s_name status +:+ "] " +:+ strftime_md (s_start status) +:+ " ~ "
  +:+ strftime_md (s_end status).

Definition info_text (week_label : string) (status : week_status) : string :=
  week_label +:+ ": 기록 " +:+ pretty (s_written status)
  +:+ "일 (챌린지 적응 기록)".

Definition total_label (total_goal : Z) : string :=
  "총 목표 달성 (본 챌린지 4주, 목표 " +:+ pretty total_goal +:+ "일)".

(** [is_written_today] of the organiser's view. *)
Definition is_written_today (today : date_t) (df : Pd.frame) : bool :=
  Pd.any_nonblank (Pd.texts_on today df).

(** The rate as both views print it: [f"{overall_rate:.1f}%"]. *)
Definition overall_rate_text (today : date_t) (df_member : Pd.frame)
  : result string :=
  status ← calculate_challenge_status today df_member;
  Ok (format_1f (overall_completion_rate status) +:+ "%").

(** One iteration of [for status in weekly_status] of the participant's
    view. *)
Definition render_week (today : date_t) (status : week_status)
  : result week_block :=
  let week_label := week_label status in
  let week_label :=
    if s_start status >? today then week_label +:+ " (예정)"
    else week_label in
  let week_label :=
    if s_is_current status then week_label +:+ " (현재 주차)"
    else week_label in
  if s_is_challenge status then
    b ← render_gradient_bar week_label (s_written status) (s_goal status);
    Ok (progress_bar b)
  else Ok (info_block (info_text week_label status)).

(** The progress card of [challenge_participant_view]: the bar of the
    total and the blocks of the weeks. *)
Definition progress_card (today : date_t) (df_member : Pd.frame)
  : result (bar * list week_block) :=
  status ← calculate_challenge_status today df_member;
  let total_written := total_written_challenge status in
  let total_goal := total_goal status in
  total_bar ← render_gradient_bar (total_label total_goal) total_written
                total_goal;
  weeks ← mapM (render_week today) (weekly_status status);
  Ok (total_bar, weeks).

(** [weekly_rates] of the organiser's view: the rates of the graded weeks. *)
Definition weekly_rates (weekly_status : list week_status)
  : list (string * table_value) :=
  dict_of ((fun w => (s_name w, num_value (s_rate w)))
           <$> filter (fun w => s_is_challenge w = true) weekly_status).

(** [status_entry], the row of a member in the organiser's table. *)
Definition status_entry (member : string) (today : date_t) (df : Pd.frame)
  : result (list (string * table_value)) :=
  status ← calculate_challenge_status today df;
  let total_written := total_written_challenge status in
  let total_goal := total_goal status in
  let overall_rate := overall_completion_rate status in
  let is_written_today := is_written_today today df in
  let weekly_rates := weekly_rates (weekly_status status) in
  Ok (dict_of
        ([("참가자", text_value member);
          ("오늘 작성", text_value (if is_written_today then "✅" else "❌"));
          ("총 목표(" +:+ pretty total_goal +:+ "일)", int_value total_written);
          ("달성률", text_value (format_1f overall_rate +:+ "%"))]
         ++ weekly_rates)).

(** The columns the ranking can be sorted by. *)
Definition week_cols_for_sort : list string :=
  w_name <$> filter (fun w => w_is_challenge w = true) CHALLENGE_WEEKS.

End App2.

(** ** Vocabulary of the statements *)

(** [min(count / goal * 100, 100)], the formula of a rate. *)
Definition capped_percentage (count goal : Z) : Py.result Py.num :=
  ratio ← Py.int_truediv count goal;
  percent ← Py.float_mul_int ratio 100;
  Py.Ok (Py.min_float_int percent 100).

(** The groups [gs] are those of the rows [rows]: ascending distinct keys,
    each with exactly the values of its rows. *)
Definition grouped {A} (gs : list (Z * list A)) (rows : list (Z * A)) : Prop :=
  StronglySorted Z.lt gs.*1
  /\ (forall k vs, (k, vs) ∈ gs -> forall v, v ∈ vs <-> (k, v) ∈ rows)
  /\ (forall k v, (k, v) ∈ rows -> k ∈ gs.*1).

(** A float that is a zero or finite, of sign [s], with a mantissa below
    [2^K] and an exponent between [lo] and [hi]. *)
Definition bounded_float (s : bool) (K lo hi : Z) (x : Py.float) : Prop :=
  x = S754_zero s
  \/ exists m e, x = S754_finite s m e /\ Z.pos m < 2 ^ K /\ lo <= e <= hi.

(** What one iteration of the loop over the weeks records for the week
    [w], given the list of written days and today's date. *)
Definition iteration_result (written_dates : list Py.date_t)
    (today : Py.date_t) (w : week) (s : week_status) : Prop :=
  s_name s = w_name w /\ s_start s = w_start w /\ s_end s = w_end w
  /\ s_goal s = w_goal w /\ s_is_challenge s = w_is_challenge w
  /\ s_written s =
       (if w_start w >? today then 0
        else Z.of_nat (length (filter
               (fun d => w_start w <= d /\ d <= Z.min (w_end w) today)
               written_dates)))
  /\ s_is_finished s =
       (if w_start w >? today then false else w_end w <? today)
  /\ s_is_current s =
       (if w_start w >? today then false
        else (w_start w <=? today) && (today <=? w_end w)
             && negb (w_end w <? today))
  /\ (if w_goal w >? 0 then capped_percentage (s_written s) (w_goal w)
      else Py.Ok (Py.Int 0)) = Py.Ok (s_rate s).

(** The written days counted toward the overall total: those of the
    graded weeks. *)
Definition graded_total (statuses : list week_status) : Z :=
  foldr (fun s acc => (if s_is_challenge s then s_written s else 0) + acc)
    0 statuses.

(** The number of weeks marked current. *)
Definition current_weeks (statuses : list week_status) : nat :=
  length (filter (fun s => s_is_current s = true) statuses).

(** The spec's count of a week: the written days [d] of the set with
    [start <= d <= min(end, today)]. *)
Definition days_in_week (written : gset Z) (today : Py.date_t) (w : week) : Z :=
  Z.of_nat (size (filter
    (fun d => w_start w <= d /\ d <= Z.min (w_end w) today) written)).

Definition exactly_one (A B C : Prop) : Prop :=
  (A /\ ~ B /\ ~ C) \/ (~ A /\ B /\ ~ C) \/ (~ A /\ ~ B /\ C).

Definition spec_week_status (written : gset Z) (today : Py.date_t)
    (w : week) (s : week_status) : Prop :=
  (if decide (w_start w > today) then
     s_written s = 0 /\ s_is_current s = false /\ s_is_finished s = false
   else
     s_written s = days_in_week written today w
     /\ s_is_finished s = bool_decide (w_end w < today)
     /\ s_is_current s
        = bool_decide (w_start w <= today <= w_end w) && negb (s_is_finished s))
  /\ (s_is_finished s = true <-> w_end w < today).

Definition is_float (n : Z) (r : Py.num) : Prop :=
  exists x, Py.float_of_int n = Py.Ok x /\ r = Py.Float x.

Definition scenario_df : Pd.frame := [
  (Py.date 2025 12 9, Py.str_of "first entry");
  (Py.date 2025 12 10, Py.str_of "second entry");
  (Py.date 2025 12 11, Py.str_of "third entry");
  (Py.date 2025 12 16, Py.str_of "fourth entry") ].

(** ** Vocabulary of the further properties *)

#[global] Instance spec_float_eq_dec : EqDecision spec_float.
Proof. solve_decision. Defined.
#[global] Instance num_eq_dec : EqDecision Py.num.
Proof. solve_decision. Defined.
#[global] Instance exn_eq_dec : EqDecision Py.exn.
Proof. solve_decision. Defined.
#[global] Instance result_num_eq_dec : EqDecision (Py.result Py.num).
Proof. solve_decision. Defined.

(** The rate of [count] out of [goal] when it is exact: the float
    [100 * count / goal] up to the goal and the integer 100 beyond. *)
Definition exact_rate (count goal : Z) : Py.result Py.num :=
  if count <=? goal then
    x ← Py.float_of_int (100 * count / goal); Py.Ok (Py.Float x)
  else Py.Ok (Py.Int 100).

(** *** The views *)

Definition exact_percent (value max_value : Z) : string :=
  pretty (Z.min 100 (100 * value / max_value)) +:+ ".0".

Definition bar_check (goal c : Z) : bool :=
  match capped_percentage c goal with
  | Py.Ok p =>
      bool_decide (Py.num_ge_int p 100 = (goal <=? c))
      && bool_decide (Py.format_1f p = exact_percent c goal)
  | Py.Raise _ => false
  end.

Definition bar_text (value max_value : Z) : string :=
  pretty value +:+ "일 / " +:+ pretty max_value +:+ "일 ("
  +:+ exact_percent value max_value +:+ "%)".

Definition success_style12 : string :=
  "background: linear-gradient(90deg, #10C65A, #1BBF00); box-shadow: 0 0 10px rgba(27, 191, 0, 0.5);".
Definition current_style12 : string :=
  "background: linear-gradient(90deg, #3ABBF8, #00a4e4); box-shadow: 0 0 8px rgba(58, 187, 248, 0.4);".
Definition plain_style12 : string :=
  "background: linear-gradient(90deg, #FF9966, #FF6B35); box-shadow: 0 0 5px rgba(255, 107, 53, 0.3);".
Definition success_style2 : string :=
  "background-color: #FF6B35; box-shadow: 0 0 10px rgba(255, 107, 53, 0.7);".
Definition plain_style2 : string :=
  "background: linear-gradient(90deg, #FF9966, #FF6B35);".

(** The bar of [written] days out of [goal], as app12.py draws it. *)
Definition drawn_bar12 (label : string) (written goal : Z) (rate : Py.num)
    (is_current : bool) : bar :=
  {| b_label := label;
     b_text := bar_text written goal;
     b_percentage := rate;
     b_style := if goal <=? written then success_style12
                else if is_current then current_style12
                else plain_style12 |}.

Definition drawn_bar2 (label : string) (written goal : Z) (rate : Py.num)
  : bar :=
  {| b_label := label;
     b_text := bar_text written goal;
     b_percentage := rate;
     b_style := if goal <=? written then success_style2 else plain_style2 |}.

(** The mark a week's label carries. *)
Definition label_mark12 (today : Py.date_t) (s : week_status) (label : string)
  : string :=
  if s_start s >? today then label +:+ " (예정)"
  else if s_is_current s then "**" +:+ label +:+ " (현재 주차)**"
  else label.

Definition label_mark2 (today : Py.date_t) (s : week_status) (label : string)
  : string :=
  if s_start s >? today then label +:+ " (예정)"
  else if s_is_current s then label +:+ " (현재 주차)"
  else label.

Definition drawn_week12 (today : Py.date_t) (s : week_status) : week_block :=
  if s_is_challenge s then
    progress_bar (drawn_bar12 (label_mark12 today s (App12.week_label s))
                    (s_written s) (s_goal s) (s_rate s) (s_is_current s))
  else info_block (App12.info_text (App12.week_label s) s).

Definition drawn_week2 (today : Py.date_t) (s : week_status) : week_block :=
  if s_is_challenge s then
    progress_bar (drawn_bar2 (label_mark2 today s (App2.week_label s))
                    (s_written s) (s_goal s) (s_rate s))
  else info_block (App2.info_text (label_mark2 today s (App2.week_label s)) s).

(** The block drawn for a week shows the week's rate: a bar for a graded
    week, whose goal is positive, text for the bonus week, whose goal is 0. *)
Definition shows_rate (s : week_status) (blk : week_block) : Prop :=
  match blk with
  | progress_bar b =>
      s_is_challenge s = true /\ 0 < s_goal s /\ b_percentage b = s_rate s
  | info_block _ => s_is_challenge s = false /\ s_goal s = 0
  end.

Definition styled12 (written goal : Z) (is_current : bool) (b : bar) : Prop :=
  (b_style b = success_style12 <-> goal <= written)
  /\ (b_style b = current_style12 <-> written < goal /\ is_current = true)
  /\ (b_style b = plain_style12 <-> written < goal /\ is_current = false).

Definition styled2 (written goal : Z) (b : bar) : Prop :=
  (b_style b = success_style2 <-> goal <= written)
  /\ (b_style b = plain_style2 <-> written < goal).

Definition bar_of (blk : week_block) : option bar :=
  match blk with
  | progress_bar b => Some b
  | info_block _ => None
  end.

(** A label with the mark of [today]'s place with respect to the week:
    before it, in it (between [opening] and [closing]), or after it. *)
Definition marked (today : Py.date_t) (s : week_status)
    (opening closing label : string) : string :=
  if decide (today < s_start s) then label +:+ " (예정)"
  else if decide (today <= s_end s)
       then opening +:+ label +:+ " (현재 주차)" +:+ closing
       else label.

Definition labelled12 (today : Py.date_t) (s : week_status)
    (blk : week_block) : Prop :=
  match blk with
  | progress_bar b =>
      b_label b = marked today s "**" "**" (App12.week_label s)
  | info_block text => text = App12.info_text (App12.week_label s) s
  end.

Definition labelled2 (today : Py.date_t) (s : week_status)
    (blk : week_block) : Prop :=
  match blk with
  | progress_bar b => b_label b = marked today s "" "" (App2.week_label s)
  | info_block text =>
      text = App2.info_text (marked today s "" "" (App2.week_label s)) s
  end.

(** The rows of a table body: the cells between two row breaks. *)
Fixpoint rows (html : list cell) : list (list cell) :=
  match html with
  | [] => [[]]
  | row_break :: html' => [] :: rows html'
  | c :: html' =>
      match rows html' with
      | r :: rs => (c :: r) :: rs
      | [] => [[c]]
      end
  end.

Definition is_day_cell (c : cell) : bool :=
  match c with
  | day_cell _ _ _ _ _ => true
  | _ => false
  end.

(** The cells of the days, in the order of the table. *)
Definition day_cells (html : list cell) : list cell :=
  filter (fun c => is_day_cell c = true) html.

(** The first entry of a day as its cell shows it. *)
Definition preview (first : Py.str) : Py.str :=
  if (10 <? length first)%nat
  then Py.lit "'" ++ take 10 first ++ Py.lit "...'"
  else first.

(** The days of the window have distinct [%Y-%m-%d] texts. *)
Definition distinct_day_texts (days : list Z) : bool :=
  forallb (fun a => forallb (fun b =>
     implb (bool_decide (Py.strftime_ymd a = Py.strftime_ymd b)) (a =? b)) days)
    days.

(** The number of cells of the open row after the cells [html], when the
    rows closed before had seven cells each. *)
Fixpoint row_scan (k : nat) (html : list cell) : option nat :=
  match html with
  | [] => Some k
  | row_break :: html' => if (k =? 7)%nat then row_scan 0 html' else None
  | _ :: html' => row_scan (S k) html'
  end.

(** The number of cells of the open row when the counter of the loop is
    [dc]: nothing but the empty cells before the first day, and between one
    and seven cells afterwards. *)
Definition open_row (sw dc : Z) (k : nat) : Prop :=
  (dc = sw /\ Z.of_nat k = sw) \/ (sw < dc /\ Z.of_nat k = (dc - 1) mod 7 + 1).

(** The place of the text of the rate of [total] written days out of 20
    among the texts of the rates, in the order of the texts. *)
Definition text_rank (total : Z) : Z :=
  if total =? 0 then 0
  else if total =? 2 then 1
  else if 20 <=? total then 2
  else if total =? 1 then 10
  else if total <=? 9 then total
  else total + 1.

Definition rank_check (t1 t2 : Z) : bool :=
  Bool.eqb
    (Py.str_lt (Py.lit (exact_percent t1 20 +:+ "%"))
       (Py.lit (exact_percent t2 20 +:+ "%")))
    (text_rank t1 <? text_rank t2).

(** * Properties *)

(** ** Python runtime *)

Section runtime_facts.
Import Py.

Lemma bind_Ok {A B} (m : result A) (k : A -> result B) a :
  m = Ok a -> (m ≫= k) = k a.
Proof. intros ->. reflexivity. Qed.

Lemma sum_ones_length {A} (l : list A) : sum_ones l = Z.of_nat (length l).
Proof.
  unfold sum_ones.
  assert (G : forall acc, fold_left (fun a _ => a + 1) l acc
                          = acc + Z.of_nat (length l)).
  { induction l as [|x l IH]; intros acc; simpl.
    - lia.
    - rewrite IH. lia. }
  apply G.
Qed.

Lemma lstrip_nil s : lstrip s = [] <-> Forall (fun c => isspace c = true) s.
Proof.
  induction s as [|c s IH]; simpl.
  - split; auto.
  - destruct (isspace c) eqn:E.
    + rewrite IH. split.
      * intros H. constructor; assumption.
      * intros H. inversion H; assumption.
    + split; [discriminate|].
      intros H. inversion H; congruence.
Qed.

Lemma lstrip_head s c t : lstrip s = c :: t -> isspace c = false.
Proof.
  induction s as [|a s IH]; simpl; [discriminate|].
  destruct (isspace a) eqn:E; [exact IH|].
  intros [= -> _]. exact E.
Qed.

Lemma lstrip_suffix s : exists p, s = p ++ lstrip s.
Proof.
  induction s as [|a s [p IH]]; simpl.
  - exists []. reflexivity.
  - destruct (isspace a).
    + exists (a :: p). simpl. congruence.
    + exists []. reflexivity.
Qed.

Lemma rstrip_nil s : rstrip s = [] <-> Forall (fun c => isspace c = true) s.
Proof.
  unfold rstrip.
  assert (R : Forall (fun c => isspace c = true) (rev s)
              <-> Forall (fun c => isspace c = true) s).
  { rewrite !Forall_forall. split; intros H c Hc; apply H.
    - apply list_elem_of_In, in_rev. rewrite rev_involutive.
      apply list_elem_of_In. exact Hc.
    - apply list_elem_of_In, in_rev, list_elem_of_In. exact Hc. }
  rewrite <- R, <- lstrip_nil. split.
  - intros H. apply (f_equal (@rev N)) in H.
    rewrite rev_involutive in H. exact H.
  - intros ->. reflexivity.
Qed.

(** A text is blank after [strip] exactly when it is made of whitespace. *)
Lemma strip_nil s : strip s = [] <-> Forall (fun c => isspace c = true) s.
Proof.
  unfold strip. rewrite rstrip_nil. split.
  - intros H. destruct (lstrip s) as [|c t] eqn:E.
    + apply lstrip_nil. exact E.
    + apply lstrip_head in E. inversion H; congruence.
  - intros H. destruct (lstrip_suffix s) as [p Hp].
    rewrite Hp in H. apply Forall_app in H. tauto.
Qed.

Lemma nonempty_strip s :
  nonempty (strip s) = true <-> exists c, c ∈ s /\ isspace c = false.
Proof.
  split.
  - intros H. destruct (decide (Forall (fun c => isspace c = true) s)) as [F|F].
    + apply strip_nil in F. rewrite F in H. discriminate.
    + apply not_Forall_Exists in F; [|intros c; apply _].
      apply Exists_exists in F. destruct F as [c [Hc Hs]].
      exists c. split; [exact Hc|]. apply not_true_is_false. exact Hs.
  - intros [c [Hc Hs]]. destruct (strip s) eqn:E; [|reflexivity].
    apply strip_nil in E. rewrite Forall_forall in E.
    apply E in Hc. congruence.
Qed.

End runtime_facts.

(** ** pandas *)

Section groupby_facts.
Context {A : Type}.
Implicit Types (gs : list (Z * list A)) (rows : list (Z * A)).

Lemma group_add_keys k v gs k' :
  k' ∈ (Pd.group_add k v gs).*1 <-> k' = k \/ k' ∈ gs.*1.
Proof.
  induction gs as [|[k0 vs] gs IH]; simpl.
  - rewrite list_elem_of_singleton. rewrite elem_of_nil. tauto.
  - destruct (k <? k0) eqn:E1; [|destruct (k =? k0) eqn:E2]; simpl.
    + rewrite !elem_of_cons. tauto.
    + apply Z.eqb_eq in E2. subst k0. rewrite !elem_of_cons. tauto.
    + rewrite !elem_of_cons, IH. tauto.
Qed.

Lemma group_add_sorted k v gs :
  StronglySorted Z.lt gs.*1 -> StronglySorted Z.lt (Pd.group_add k v gs).*1.
Proof.
  induction gs as [|[k0 vs] gs IH]; simpl; intros S.
  - repeat constructor.
  - apply StronglySorted_inv in S. destruct S as [S F].
    destruct (k <? k0) eqn:E1; [|destruct (k =? k0) eqn:E2]; simpl.
    + apply Z.ltb_lt in E1. constructor.
      * constructor; assumption.
      * constructor; [exact E1|].
        eapply Forall_impl; [exact F|]. simpl. intros; lia.
    + constructor; assumption.
    + apply Z.ltb_ge in E1. apply Z.eqb_neq in E2.
      constructor; [apply IH; exact S|].
      apply Forall_forall. intros x Hx. apply group_add_keys in Hx.
      destruct Hx as [->|Hx]; [lia|].
      rewrite Forall_forall in F. apply F. exact Hx.
Qed.

(** The groups after one more row. *)
Lemma group_add_elem k v gs k' vs' :
  StronglySorted Z.lt gs.*1 ->
  (k', vs') ∈ Pd.group_add k v gs <->
  (k' = k /\ ((exists vs, (k, vs) ∈ gs /\ vs' = vs ++ [v])
              \/ ((k ∉ gs.*1) /\ vs' = [v])))
  \/ (k' <> k /\ (k', vs') ∈ gs).
Proof.
  induction gs as [|[k0 vs0] gs IH]; simpl; intros S.
  - rewrite list_elem_of_singleton. split.
    + intros [= -> ->]. left. split; [reflexivity|]. right.
      split; [apply not_elem_of_nil|reflexivity].
    + intros [[-> [[vs [H _]]|[_ ->]]]|[_ H]].
      * apply elem_of_nil in H. destruct H.
      * reflexivity.
      * apply elem_of_nil in H. destruct H.
  - apply StronglySorted_inv in S. destruct S as [S F].
    rewrite Forall_forall in F.
    assert (K : forall x vs, (x, vs) ∈ gs -> k0 < x).
    { intros x vs H. apply F. apply list_elem_of_fmap. exists (x, vs). auto. }
    destruct (k <? k0) eqn:E1; [|destruct (k =? k0) eqn:E2]; simpl.
    + apply Z.ltb_lt in E1. repeat setoid_rewrite elem_of_cons. split.
      * intros [[= -> ->]|[[= -> ->]|H]].
        -- left. split; [reflexivity|]. right. split; [|reflexivity].
           intros [->|H]; [lia|]. apply F in H. lia.
        -- right. split; [lia|]. left. reflexivity.
        -- right. split; [|right; exact H]. apply K in H. lia.
      * intros [[-> [[vs [[[= <- <-]|H] ->]]|[N ->]]]|[N [[= -> ->]|H]]].
        -- lia.
        -- apply K in H. lia.
        -- left. reflexivity.
        -- right. left. reflexivity.
        -- right. right. exact H.
    + apply Z.eqb_eq in E2. subst k0. repeat setoid_rewrite elem_of_cons. split.
      * intros [[= -> ->]|H].
        -- left. split; [reflexivity|]. left. exists vs0.
           split; [left; reflexivity|reflexivity].
        -- right. split; [|right; exact H]. apply K in H. lia.
      * intros [[-> [[vs [[[= <-]|H] ->]]|[N ->]]]|[N [[= -> ->]|H]]].
        -- left. reflexivity.
        -- apply K in H. lia.
        -- exfalso. apply N. left. reflexivity.
        -- lia.
        -- right. exact H.
    + apply Z.ltb_ge in E1. apply Z.eqb_neq in E2.
      repeat setoid_rewrite elem_of_cons. rewrite (IH S). split.
      * intros [[= -> ->]|[[-> [[vs [H ->]]|[N ->]]]|[N H]]].
        -- right. split; [lia|]. left. reflexivity.
        -- left. split; [reflexivity|]. left. exists vs.
           split; [right; exact H|reflexivity].
        -- left. split; [reflexivity|]. right. split; [|reflexivity].
           intros [->|H]; [lia|]. exact (N H).
        -- right. split; [exact N|]. right. exact H.
      * intros [[-> [[vs [[[= <- <-]|H] ->]]|[N ->]]]|[N [[= -> ->]|H]]].
        -- lia.
        -- right. left. split; [reflexivity|]. left. exists vs. auto.
        -- right. left. split; [reflexivity|]. right. split; [|reflexivity].
           intros H. apply N. right. exact H.
        -- left. reflexivity.
        -- right. right. split; [exact N|exact H].
Qed.

Lemma grouped_add gs rows k v :
  grouped gs rows -> grouped (Pd.group_add k v gs) (rows ++ [(k, v)]).
Proof.
  intros (S & V & K). split; [|split].
  - apply group_add_sorted. exact S.
  - intros k' vs' H x. apply (group_add_elem _ _ _ _ _ S) in H.
    rewrite elem_of_app, list_elem_of_singleton.
    destruct H as [[-> [[vs [H ->]]|[N ->]]]|[N H]].
    + rewrite elem_of_app, list_elem_of_singleton, (V _ _ H).
      split; [intros [? | ->]; auto|intros [?|[= ->]]; auto].
    + rewrite list_elem_of_singleton. split; [intros ->; auto|].
      intros [H|[= ->]]; [|reflexivity]. apply K in H. contradiction.
    + rewrite (V _ _ H). split; [auto|]. intros [?|[= -> _]]; [auto|congruence].
  - intros k' x. rewrite elem_of_app, list_elem_of_singleton, group_add_keys.
    intros [H|[= -> ->]]; [right; eapply K; exact H|left; reflexivity].
Qed.

Lemma groupby_grouped rows : grouped (Pd.groupby rows) rows.
Proof.
  unfold Pd.groupby. induction rows as [|[k v] rows IH] using rev_ind.
  - simpl. split; [constructor|]. split.
    + intros k vs H. apply elem_of_nil in H. destruct H.
    + intros k v H. apply elem_of_nil in H. destruct H.
  - rewrite fold_left_app. simpl. apply grouped_add. exact IH.
Qed.

End groupby_facts.

Section written_days_facts.
Import Py.

Lemma sorted_fst_filter {B} (P : Z * B -> Prop) `{!forall x, Decision (P x)}
    (l : list (Z * B)) :
  StronglySorted Z.lt l.*1 -> StronglySorted Z.lt (filter P l).*1.
Proof.
  induction l as [|x l IH]; simpl; intros S; [constructor|].
  apply StronglySorted_inv in S. destruct S as [S F].
  rewrite filter_cons. destruct (decide (P x)); [|apply IH; exact S].
  simpl. constructor; [apply IH; exact S|].
  rewrite Forall_forall in *. intros y Hy. apply F.
  apply list_elem_of_fmap in Hy. destruct Hy as [z [-> Hz]].
  apply list_elem_of_filter in Hz. apply list_elem_of_fmap_2. tauto.
Qed.

Lemma sorted_lt_NoDup (l : list Z) : StronglySorted Z.lt l -> NoDup l.
Proof.
  induction 1 as [|x l S IH F]; constructor; [|exact IH].
  intros Hx. rewrite Forall_forall in F. apply F in Hx. lia.
Qed.

Lemma apply_reset_keys {A B} (f : list A -> B) (gs : list (Z * list A)) :
  (Pd.apply_reset f gs).*1 = gs.*1.
Proof.
  unfold Pd.apply_reset. rewrite <- list_fmap_compose.
  apply list_fmap_ext. intros i [k vs] _. reflexivity.
Qed.

Lemma any_nonblank_true x :
  Pd.any_nonblank x = true <-> exists s, s ∈ x /\ nonempty (strip s) = true.
Proof.
  unfold Pd.any_nonblank. rewrite existsb_exists.
  split; intros [s [H1 H2]]; exists s; split; try assumption;
    apply list_elem_of_In; assumption.
Qed.

(** The days kept by the aggregation of a frame between two dates. *)
Lemma aggregated_days_elem lo hi (df : Pd.frame) d :
  d ∈ (filter (fun row => row.2 = true)
         (Pd.apply_reset Pd.any_nonblank
            (Pd.groupby (Pd.between_mask lo hi df)))).*1
  <-> lo <= d <= hi
      /\ exists s, (d, s) ∈ df /\ nonempty (strip s) = true.
Proof.
  destruct (groupby_grouped (Pd.between_mask lo hi df)) as (S & V & K).
  unfold Pd.between_mask in *. split.
  - intros H. apply list_elem_of_fmap in H. destruct H as [[k b] [-> H]].
    apply list_elem_of_filter in H. destruct H as [Hb H]. simpl in *. subst b.
    apply list_elem_of_fmap in H. destruct H as [[k' vs] [[= -> Hv] H]].
    simpl in *. symmetry in Hv. apply any_nonblank_true in Hv.
    destruct Hv as [s [Hs Hn]]. apply (V _ _ H) in Hs.
    apply list_elem_of_filter in Hs. simpl in Hs.
    split; [lia|]. exists s. tauto.
  - intros [Hd [s [Hs Hn]]].
    assert (M : (d, s) ∈ filter (fun row : Z * str => lo <= row.1 /\ row.1 <= hi) df).
    { apply list_elem_of_filter. simpl. split; [lia|exact Hs]. }
    pose proof (K _ _ M) as Hk. apply list_elem_of_fmap in Hk.
    destruct Hk as [[k vs] [Hk Hg]]. simpl in Hk. subst k.
    apply list_elem_of_fmap. exists (d, true). split; [reflexivity|].
    apply list_elem_of_filter. split; [reflexivity|].
    apply list_elem_of_fmap. exists (d, vs). split; [|exact Hg].
    simpl. f_equal. symmetry. apply any_nonblank_true.
    exists s. split; [|exact Hn]. apply (V _ _ Hg). exact M.
Qed.

Lemma aggregated_days_sorted lo hi (df : Pd.frame) :
  StronglySorted Z.lt
    (filter (fun row => row.2 = true)
       (Pd.apply_reset Pd.any_nonblank
          (Pd.groupby (Pd.between_mask lo hi df)))).*1.
Proof.
  apply sorted_fst_filter. rewrite apply_reset_keys.
  apply groupby_grouped.
Qed.

Lemma written_days_elem df d :
  d ∈ App12.written_days df
  <-> App12.CHALLENGE_START_DATE <= d <= App12.CHALLENGE_END_DATE
      /\ exists s, (d, s) ∈ df /\ nonempty (strip s) = true.
Proof. apply aggregated_days_elem. Qed.

Lemma written_days_sorted df : StronglySorted Z.lt (App12.written_days df).
Proof. apply aggregated_days_sorted. Qed.

Lemma written_days_NoDup df : NoDup (App12.written_days df).
Proof. apply sorted_lt_NoDup, written_days_sorted. Qed.

End written_days_facts.

(** ** Floats *)

Section float_facts.
Import Py.

Lemma digits2_pos_size p : digits2_pos p = Pos.size p.
Proof. induction p; simpl; congruence. Qed.

Lemma Zdigits2_log2 m : 0 < m -> Zdigits2 m = Z.log2 m + 1.
Proof.
  destruct m as [|p|p]; try lia. intros _. simpl Zdigits2.
  rewrite digits2_pos_size.
  destruct p; simpl; rewrite ?Pos2Z.inj_succ; lia.
Qed.

Lemma Zdigits2_lt m k : 0 <= m -> 0 <= k -> m < 2 ^ k -> Zdigits2 m <= k.
Proof.
  intros Hm Hk H. destruct (Z.eq_dec m 0) as [->|N]; [simpl; lia|].
  rewrite Zdigits2_log2 by lia.
  assert (Z.log2 m < k); [|lia].
  apply Z.log2_lt_pow2; lia.
Qed.

Lemma Zdigits2_nonneg m : 0 <= Zdigits2 m.
Proof. destruct m; simpl; lia. Qed.

Lemma iter_pos_nat {A} (f : A -> A) p x :
  SpecFloat.iter_pos f p x = Nat.iter (Pos.to_nat p) f x.
Proof.
  revert x. induction p as [p IH|p IH|]; intros x; cbn [SpecFloat.iter_pos].
  - rewrite !IH, Pos2Nat.inj_xI. replace (S (2 * Pos.to_nat p))%nat
      with (Pos.to_nat p + S (Pos.to_nat p))%nat by lia.
    rewrite Nat.iter_add, Nat.iter_succ_r. reflexivity.
  - rewrite !IH, Pos2Nat.inj_xO. replace (2 * Pos.to_nat p)%nat
      with (Pos.to_nat p + Pos.to_nat p)%nat by lia.
    rewrite Nat.iter_add. reflexivity.
  - reflexivity.
Qed.

Lemma shr_1_m mrs : 0 <= shr_m mrs -> shr_m (shr_1 mrs) = shr_m mrs / 2.
Proof.
  destruct mrs as [m r s]. cbn [shr_m shr_1]. intros H.
  destruct m as [|[p|p|]|p]; cbn [shr_m]; try lia; try reflexivity.
  - apply Z.div_unique with 1; lia.
  - apply Z.div_unique with 0; lia.
Qed.

Lemma shr_1_exact mrs :
  0 <= shr_m mrs -> shr_m mrs mod 2 = 0 ->
  shr_r mrs = false -> shr_s mrs = false ->
  shr_r (shr_1 mrs) = false /\ shr_s (shr_1 mrs) = false.
Proof.
  destruct mrs as [m r s]. cbn [shr_m shr_r shr_s shr_1]. intros H E -> ->.
  destruct m as [|[p|p|]|p]; cbn [shr_r shr_s orb]; try lia; auto.
  - exfalso. assert (Z.pos p~1 mod 2 = 1); [|lia].
    symmetry. apply Z.mod_unique with (Z.pos p); lia.
  - discriminate.
Qed.

Lemma iter_shr_m n mrs :
  0 <= shr_m mrs ->
  shr_m (Nat.iter n shr_1 mrs) = shr_m mrs / 2 ^ Z.of_nat n.
Proof.
  intros H. induction n as [|n IH].
  - simpl. rewrite Z.div_1_r. reflexivity.
  - rewrite Nat.iter_succ, shr_1_m, IH.
    + rewrite Nat2Z.inj_succ, Z.pow_succ_r by lia.
      rewrite Z.div_div by lia. f_equal. lia.
    + rewrite IH. apply Z.div_pos; lia.
Qed.

Lemma iter_shr_exact n mrs :
  0 <= shr_m mrs -> shr_m mrs mod 2 ^ Z.of_nat n = 0 ->
  shr_r mrs = false -> shr_s mrs = false ->
  shr_r (Nat.iter n shr_1 mrs) = false /\ shr_s (Nat.iter n shr_1 mrs) = false.
Proof.
  intros H. induction n as [|n IH]; intros E R S.
  - simpl. auto.
  - rewrite Nat2Z.inj_succ, Z.pow_succ_r in E by lia.
    assert (E1 : shr_m mrs mod 2 ^ Z.of_nat n = 0).
    { apply Z.mod_divide in E; [|lia]. apply Z.mod_divide; [lia|].
      destruct E as [c Hc]. exists (c * 2). lia. }
    destruct (IH E1 R S) as [R' S'].
    rewrite Nat.iter_succ. apply shr_1_exact; try assumption.
    + rewrite iter_shr_m by assumption. apply Z.div_pos; lia.
    + rewrite iter_shr_m by assumption.
      apply Z.mod_divide in E; [|lia]. destruct E as [c Hc].
      rewrite Hc. replace (c * (2 * 2 ^ Z.of_nat n)) with ((c * 2) * 2 ^ Z.of_nat n) by lia.
      rewrite Z.div_mul by lia. rewrite Z.mul_comm, Z.mul_comm, Z.mod_mul; lia.
Qed.

Lemma round_nearest_even_bounds m l :
  m <= round_nearest_even m l <= m + 1.
Proof.
  destruct l as [|[]]; simpl; try lia. destruct (Z.even m); lia.
Qed.

(** Shifting the mantissa [m] with location [l] right by [fexp]. *)
Lemma shr_fexp_spec m e l :
  0 <= m ->
  let n := Z.max 0 (fexp prec emax (Zdigits2 m + e) - e) in
  let res := shr_fexp prec emax m e l in
  shr_m res.1 = m / 2 ^ n /\ res.2 = e + n
  /\ (l = loc_Exact -> m mod 2 ^ n = 0 ->
      loc_of_shr_record res.1 = loc_Exact).
Proof.
  intros Hm n res. subst n res. unfold shr_fexp, shr.
  assert (M : shr_m (shr_record_of_loc m l) = m).
  { destruct l as [|[]]; reflexivity. }
  destruct (fexp prec emax (Zdigits2 m + e) - e) as [|p|p] eqn:E; simpl fst; simpl snd.
  - rewrite M. simpl. rewrite Z.div_1_r. split; [reflexivity|].
    split; [lia|]. intros -> _. reflexivity.
  - rewrite iter_pos_nat, iter_shr_m by (rewrite M; exact Hm).
    rewrite M, positive_nat_Z. rewrite Z.max_r by lia.
    split; [reflexivity|]. split; [reflexivity|]. intros -> D.
    destruct (iter_shr_exact (Pos.to_nat p) (shr_record_of_loc m loc_Exact))
      as [R S]; simpl; try assumption; try reflexivity.
    { rewrite positive_nat_Z. exact D. }
    destruct (Nat.iter _ _ _) as [m' r' s']. simpl in *. subst. reflexivity.
  - rewrite M. simpl. rewrite Z.div_1_r. split; [reflexivity|].
    split; [lia|]. intros -> _. reflexivity.
Qed.

(** The shape of a rounded result. *)
Lemma binary_round_aux_spec s m e l :
  0 <= m ->
  let n1 := Z.max 0 (fexp prec emax (Zdigits2 m + e) - e) in
  exists mr,
    m / 2 ^ n1 <= mr <= m / 2 ^ n1 + 1
    /\ (l = loc_Exact -> m mod 2 ^ n1 = 0 -> mr = m / 2 ^ n1)
    /\ let n2 := Z.max 0 (fexp prec emax (Zdigits2 mr + (e + n1)) - (e + n1)) in
       binary_round_aux prec emax s m e l =
       match mr / 2 ^ n2 with
       | Z0 => S754_zero s
       | Zpos p =>
           if e + n1 + n2 <=? emax - prec then S754_finite s p (e + n1 + n2)
           else S754_infinity s
       | Zneg _ => S754_nan
       end.
Proof.
  intros Hm n1. unfold binary_round_aux.
  destruct (shr_fexp_spec m e l Hm) as (A1 & A2 & A3).
  fold n1 in A1, A2, A3.
  destruct (shr_fexp prec emax m e l) as [mrs' e'] eqn:E1. simpl in A1, A2, A3.
  set (mr := round_nearest_even (shr_m mrs') (loc_of_shr_record mrs')).
  exists mr.
  pose proof (round_nearest_even_bounds (shr_m mrs') (loc_of_shr_record mrs')) as B.
  fold mr in B. rewrite A1 in B. split; [exact B|]. split.
  - intros L D. subst mr. rewrite (A3 L D). simpl. exact A1.
  - set (n2 := Z.max 0 (fexp prec emax (Zdigits2 mr + (e + n1)) - (e + n1))).
    assert (Hr : 0 <= mr).
    { assert (0 <= m / 2 ^ n1) by (apply Z.div_pos; lia). lia. }
    destruct (shr_fexp_spec mr e' loc_Exact Hr) as (C1 & C2 & _).
    subst e'. fold n2 in C1, C2.
    destruct (shr_fexp prec emax mr (e + n1) loc_Exact) as [mrs'' e''] eqn:E2.
    simpl in C1, C2. rewrite C1, C2. reflexivity.
Qed.


Lemma fexp_eq x : fexp prec emax x = Z.max (x - 53) (-1074).
Proof. reflexivity. Qed.

Lemma div_pow2_le m n : 0 <= m -> 0 <= n -> 0 <= m / 2 ^ n <= m.
Proof.
  intros Hm Hn. assert (0 < 2 ^ n) by lia. split.
  - apply Z.div_pos; lia.
  - apply Z.div_le_upper_bound; nia.
Qed.

Lemma binary_round_aux_bounded s m e l K :
  0 <= m < 2 ^ K -> 0 <= K -> -1074 <= e -> e + 2 * K + 1 <= 971 ->
  bounded_float s (K + 1) e (e + 2 * K + 1)
    (binary_round_aux prec emax s m e l).
Proof.
  intros Hm HK He Hhi.
  destruct (binary_round_aux_spec s m e l) as (mr & B & _ & ->); [lia|].
  rewrite !fexp_eq in *.
  pose proof (Zdigits2_lt m K) as D1. pose proof (Zdigits2_nonneg m) as D0.
  set (n1 := Z.max 0 (Z.max (Zdigits2 m + e - 53) (-1074) - e)) in *.
  assert (N1 : 0 <= n1 <= K) by lia.
  pose proof (div_pow2_le m n1) as Q1.
  assert (P2 : 2 ^ (K + 1) = 2 * 2 ^ K) by (rewrite Z.pow_add_r; lia).
  assert (R : 0 <= mr < 2 ^ (K + 1)) by lia.
  pose proof (Zdigits2_lt mr (K + 1)) as D2.
  pose proof (Zdigits2_nonneg mr) as D3.
  set (n2 := Z.max 0 (Z.max (Zdigits2 mr + (e + n1) - 53) (-1074) - (e + n1))) in *.
  assert (N2 : 0 <= n2 <= K + 1) by lia.
  pose proof (div_pow2_le mr n2) as Q2.
  destruct (mr / 2 ^ n2) as [|p|p] eqn:E.
  - left. reflexivity.
  - right. exists p, (e + n1 + n2).
    replace (e + n1 + n2 <=? emax - prec) with true
      by (symmetry; apply Z.leb_le; unfold emax, prec; lia).
    split; [reflexivity|]. lia.
  - lia.
Qed.

Lemma float_mul_bounded s1 s2 K1 K2 lo1 hi1 lo2 hi2 x y :
  bounded_float s1 K1 lo1 hi1 x -> bounded_float s2 K2 lo2 hi2 y ->
  0 <= K1 -> 0 <= K2 -> -1074 <= lo1 + lo2 ->
  hi1 + hi2 + 2 * (K1 + K2) + 1 <= 971 ->
  bounded_float (xorb s1 s2) (K1 + K2 + 1) (lo1 + lo2)
    (hi1 + hi2 + 2 * (K1 + K2) + 1) (float_mul x y).
Proof.
  intros [->|(m1 & e1 & -> & M1 & E1)] [->|(m2 & e2 & -> & M2 & E2)] H1 H2 Hlo Hhi;
    try (left; reflexivity).
  unfold float_mul. cbn [SFmul].
  assert (P : 0 <= Z.pos (m1 * m2) < 2 ^ (K1 + K2)).
  { rewrite Pos2Z.inj_mul, Z.pow_add_r by lia. nia. }
  destruct (binary_round_aux_bounded (xorb s1 s2) (Z.pos (m1 * m2)) (e1 + e2)
              loc_Exact (K1 + K2)) as [->|(m & e & -> & M & E)]; try lia.
  - left. reflexivity.
  - right. exists m, e. split; [reflexivity|]. lia.
Qed.


Lemma SFdiv_core_binary_spec m1 m2 :
  0 < m1 -> 0 < m2 ->
  let e' := Z.min (fexp prec emax (Zdigits2 m1 - Zdigits2 m2)) 0 in
  SFdiv_core_binary prec emax m1 0 m2 0
  = (m1 * 2 ^ (- e') / m2, e', new_location m2 (m1 * 2 ^ (- e') mod m2)).
Proof.
  intros H1 H2 e'. unfold SFdiv_core_binary.
  rewrite !Z.add_0_r, Z.sub_0_r. fold e'.
  assert (He : e' <= 0) by (subst e'; lia).
  replace (match 0 - e' with
           | 0 => m1
           | Z.pos _ => Z.shiftl m1 (0 - e')
           | Z.neg _ => 0
           end) with (m1 * 2 ^ (- e')).
  - unfold Z.div, Z.modulo.
    destruct (Z.div_eucl (m1 * 2 ^ (- e')) m2) as [q r]. reflexivity.
  - destruct (0 - e') as [|p|p] eqn:E; try lia.
    + replace (- e') with 0 by lia. lia.
    + rewrite <- E, Z.shiftl_mul_pow2 by lia. repeat f_equal; lia.
Qed.

(** The quotient of two integers below [2^64] is a finite float. *)
Lemma int_truediv_bounded a b :
  - 2 ^ 64 < a < 2 ^ 64 -> 0 < b < 2 ^ 64 ->
  exists x, int_truediv a b = Ok x
            /\ bounded_float (a <? 0) 181 (-116) 361 x.
Proof.
  intros Ha Hb. unfold int_truediv.
  replace (b =? 0) with false by (symmetry; apply Z.eqb_neq; lia).
  destruct b as [|pb|pb]; try lia. cbn [int_mantissa].
  assert (G : forall s pa, Z.pos pa < 2 ^ 64 ->
    bounded_float s 181 (-116) 361
      (SFdiv prec emax (S754_finite s pa 0) (S754_finite false pb 0))).
  { intros s pa Hpa. cbn [SFdiv].
    rewrite SFdiv_core_binary_spec by lia. rewrite fexp_eq.
    pose proof (Zdigits2_lt (Z.pos pa) 64) as D1.
    pose proof (Zdigits2_lt (Z.pos pb) 64) as D2.
    assert (D3 : 1 <= Zdigits2 (Z.pos pa)) by (simpl; lia).
    assert (D4 : 1 <= Zdigits2 (Z.pos pb)) by (simpl; lia).
    set (e' := Z.min (Z.max (Zdigits2 (Z.pos pa) - Zdigits2 (Z.pos pb) - 53)
                        (-1074)) 0).
    assert (E : -116 <= e' <= 0) by lia.
    assert (Q : 0 <= Z.pos pa * 2 ^ (- e') / Z.pos pb < 2 ^ 180).
    { assert (2 ^ (- e') <= 2 ^ 116) by (apply Z.pow_le_mono_r; lia).
      assert (0 < 2 ^ (- e')) by (apply Z.pow_pos_nonneg; lia).
      split; [apply Z.div_pos; nia|].
      apply Z.div_lt_upper_bound; [lia|].
      replace (2 ^ 180) with (2 ^ 64 * 2 ^ 116) by reflexivity. nia. }
    replace (xorb s false) with s by (destruct s; reflexivity).
    destruct (binary_round_aux_bounded s (Z.pos pa * 2 ^ (- e') / Z.pos pb) e'
                (new_location (Z.pos pb) (Z.pos pa * 2 ^ (- e') mod Z.pos pb))
                180) as [->|(m & e & -> & M & E')]; try lia.
    - left. reflexivity.
    - right. exists m, e. split; [reflexivity|]. lia. }
  destruct a as [|pa|pa]; cbn [int_mantissa].
  - exists (S754_zero false). split; [reflexivity|]. left. reflexivity.
  - destruct (G false pa ltac:(lia)) as [E|(m & e & E & B)];
      rewrite E; eexists; (split; [reflexivity|]).
    + left. reflexivity.
    + right. exists m, e. split; [reflexivity|exact B].
  - destruct (G true pa ltac:(lia)) as [E|(m & e & E & B)];
      rewrite E; eexists; (split; [reflexivity|]).
    + left. reflexivity.
    + right. exists m, e. split; [reflexivity|exact B].
Qed.

Lemma float_of_int_100 :
  float_of_int 100 = Ok (S754_finite false 7036874417766400 (-46)).
Proof. reflexivity. Qed.

Lemma float_of_int_20 :
  float_of_int 20 = Ok (S754_finite false 5629499534213120 (-48)).
Proof. reflexivity. Qed.

Lemma float_mul_int_100_bounded s x :
  bounded_float s 181 (-116) 361 x ->
  exists y, float_mul_int x 100 = Ok y
            /\ bounded_float s 235 (-162) 784 y.
Proof.
  intros B. unfold float_mul_int. rewrite float_of_int_100.
  eexists. split; [reflexivity|].
  replace s with (xorb s false) by (destruct s; reflexivity).
  apply (float_mul_bounded s false 181 53 (-116) 361 (-46) (-46)); try lia.
  - exact B.
  - right. eexists _, _. split; [reflexivity|]. split; [reflexivity|lia].
Qed.

Lemma int_mul_float_20_bounded s x :
  bounded_float s 181 (-116) 361 x ->
  exists y, int_mul_float 20 x = Ok y
            /\ bounded_float s 235 (-164) 782 y.
Proof.
  intros B. unfold int_mul_float. rewrite float_of_int_20.
  eexists. split; [reflexivity|].
  change s with (xorb false s).
  apply (float_mul_bounded false s 53 181 (-48) (-48) (-116) 361); try lia.
  - right. eexists _, _. split; [reflexivity|]. split; [reflexivity|lia].
  - exact B.
Qed.

Lemma int_of_float_bounded s K lo hi x :
  bounded_float s K lo hi x -> exists n, int_of_float x = Ok n.
Proof.
  intros [->|(m & e & -> & _)]; eexists; reflexivity.
Qed.

Lemma int_of_float_nonneg K lo hi x n :
  bounded_float false K lo hi x -> int_of_float x = Ok n -> 0 <= n.
Proof.
  intros [->|(m & e & -> & _)]; simpl; intros [= <-]; [lia|].
  apply Z.shiftl_nonneg. lia.
Qed.

Lemma min_float_int_between K lo hi x :
  bounded_float false K lo hi x ->
  num_between 0 100 (min_float_int x 100) = true.
Proof.
  intros [->|(m & e & -> & _)].
  - reflexivity.
  - unfold min_float_int, int_lt_float.
    destruct (float_cmp_int (S754_finite false m e) 100) as [[]|] eqn:C;
      try reflexivity; try discriminate;
      unfold num_between, float_le_int, int_le_float; rewrite C;
      rewrite andb_true_r; cbn [float_cmp_int cond_Zopp];
      (destruct (0 <=? e) eqn:E;
       [apply Z.leb_le in E;
        assert (G : Z.pos m * 2 ^ e > 0) by
          (assert (0 < 2 ^ e) by (apply Z.pow_pos_nonneg; lia); nia);
        rewrite G; reflexivity
       |reflexivity]).
Qed.

End float_facts.

(** ** The loop over the weeks *)

Ltac invert_statuses H :=
  repeat match type of H with
  | Forall2 _ (_ :: _) _ =>
      let s := fresh "s" in let I := fresh "I" in let k := fresh "sts" in
      apply Forall2_cons_inv_l in H as (s & k & I & H & ->)
  | Forall2 _ [] _ => apply Forall2_nil_inv_l in H as ->
  end.

Section loop_facts.
Import Py.

Lemma capped_percentage_ok c g :
  0 <= c < 2 ^ 64 -> 0 < g < 2 ^ 64 ->
  exists r, capped_percentage c g = Ok r /\ num_between 0 100 r = true.
Proof.
  intros Hc Hg. unfold capped_percentage.
  destruct (int_truediv_bounded c g) as (x & -> & Bx); [lia|lia|].
  replace (c <? 0) with false in Bx by (symmetry; apply Z.ltb_ge; lia).
  cbn [mbind result_bind bind].
  destruct (float_mul_int_100_bounded _ _ Bx) as (y & -> & By).
  cbn [mbind result_bind bind].
  eexists. split; [reflexivity|].
  eapply min_float_int_between. exact By.
Qed.

Lemma NoDup_range_length (l : list Z) a b :
  NoDup l -> (forall x, x ∈ l -> a <= x <= b) ->
  Z.of_nat (length l) <= Z.max 0 (b - a + 1).
Proof.
  intros N H.
  assert (S : l ⊆+ seqZ a (Z.max 0 (b - a + 1))).
  { apply NoDup_submseteq; [exact N|]. intros x Hx. apply H in Hx.
    apply elem_of_seqZ. lia. }
  apply submseteq_length in S. rewrite length_seqZ in S. lia.
Qed.

Lemma filter_length_mono {A} (P Q : A -> Prop) `{!forall x, Decision (P x)}
    `{!forall x, Decision (Q x)} (l : list A) :
  (forall x, P x -> Q x) -> (length (filter P l) <= length (filter Q l))%nat.
Proof.
  intros HPQ. induction l as [|x l IH]; [reflexivity|].
  rewrite !filter_cons. destruct (decide (P x)) as [p|p].
  - destruct (decide (Q x)) as [q|q]; [simpl; lia|]. destruct q. auto.
  - destruct (decide (Q x)); simpl; lia.
Qed.

Lemma week_iteration_spec wd today st tot w r :
  (if w_goal w >? 0 then
     capped_percentage
       (if w_start w >? today then 0
        else Z.of_nat (length (filter
               (fun d => w_start w <= d /\ d <= Z.min (w_end w) today) wd)))
       (w_goal w)
   else Ok (Int 0)) = Ok r ->
  exists s,
    App12.week_iteration wd today (st, tot) w
    = Ok (st ++ [s], tot + (if s_is_challenge s then s_written s else 0))
    /\ iteration_result wd today w s.
Proof.
  intros H. unfold App12.week_iteration. cbv zeta.
  rewrite sum_ones_length. unfold capped_percentage in H.
  exists {| s_name := w_name w; s_start := w_start w; s_end := w_end w;
            s_written :=
              (if w_start w >? today then 0
               else Z.of_nat (length (filter
                 (fun d => w_start w <= d /\ d <= Z.min (w_end w) today) wd)));
            s_goal := w_goal w; s_rate := r;
            s_is_current :=
              (if w_start w >? today then false
               else (w_start w <=? today) && (today <=? w_end w)
                    && negb (w_end w <? today));
            s_is_finished :=
              (if w_start w >? today then false else w_end w <? today);
            s_is_challenge := w_is_challenge w |}.
  split.
  - cbn [s_is_challenge s_written].
    destruct (w_start w >? today) eqn:E; rewrite H;
      cbn [mbind result_bind bind]; destruct (w_is_challenge w);
      repeat f_equal; lia.
  - unfold iteration_result. cbn [s_name s_start s_end s_written s_goal
      s_rate s_is_current s_is_finished s_is_challenge].
    unfold capped_percentage. rewrite H. tauto.
Qed.

Lemma for_weeks_spec wd today weeks :
  Z.of_nat (length wd) < 2 ^ 64 ->
  Forall (fun w => w_goal w < 2 ^ 64) weeks ->
  forall st tot,
  exists sts,
    App12.for_weeks wd today weeks (st, tot)
    = Ok (st ++ sts, tot + graded_total sts)
    /\ Forall2 (iteration_result wd today) weeks sts.
Proof.
  intros L. induction 1 as [|w weeks G F IH]; intros st tot.
  - exists []. simpl. rewrite app_nil_r, Z.add_0_r. split; [reflexivity|constructor].
  - set (count := if w_start w >? today then 0
        else Z.of_nat (length (filter
               (fun d => w_start w <= d /\ d <= Z.min (w_end w) today) wd))).
    assert (C : 0 <= count < 2 ^ 64).
    { subst count. destruct (w_start w >? today); [lia|].
      split; [lia|]. eapply Z.le_lt_trans; [|exact L].
      apply Nat2Z.inj_le, length_filter. }
    assert (R : exists r, (if w_goal w >? 0 then capped_percentage count (w_goal w)
                           else Ok (Int 0)) = Ok r).
    { destruct (w_goal w >? 0) eqn:E; [|eexists; reflexivity].
      destruct (capped_percentage_ok count (w_goal w)) as (r & Hr & _);
        [exact C|lia|]. exists r. exact Hr. }
    destruct R as [r R].
    destruct (week_iteration_spec wd today st tot w r R) as (s & Hs & Is).
    destruct (IH (st ++ [s]) (tot + (if s_is_challenge s then s_written s else 0)))
      as (sts & Hsts & Fs).
    exists (s :: sts). split.
    + cbn [App12.for_weeks]. rewrite Hs. cbn [mbind result_bind bind].
      rewrite Hsts. rewrite <- app_assoc. simpl. f_equal. f_equal. lia.
    + constructor; assumption.
Qed.


Lemma CHALLENGE_WEEKS_eq :
  App12.CHALLENGE_WEEKS = [
    {| w_name := "보너스 주차"; w_start := 739588; w_end := 739592;
       w_goal := 0; w_is_challenge := false |};
    {| w_name := "1주차"; w_start := 739593; w_end := 739599;
       w_goal := 5; w_is_challenge := true |};
    {| w_name := "2주차"; w_start := 739600; w_end := 739606;
       w_goal := 5; w_is_challenge := true |};
    {| w_name := "3주차"; w_start := 739607; w_end := 739613;
       w_goal := 5; w_is_challenge := true |};
    {| w_name := "4주차"; w_start := 739614; w_end := 739620;
       w_goal := 5; w_is_challenge := true |} ].
Proof. reflexivity. Qed.

Lemma CHALLENGE_START_DATE_eq : App12.CHALLENGE_START_DATE = 739588.
Proof. reflexivity. Qed.

Lemma CHALLENGE_END_DATE_eq : App12.CHALLENGE_END_DATE = 739620.
Proof. reflexivity. Qed.

Lemma written_days_length df :
  Z.of_nat (length (App12.written_days df)) <= 33.
Proof.
  pose proof (NoDup_range_length (App12.written_days df) 739588 739620
                (written_days_NoDup df)) as H.
  etransitivity; [apply H|reflexivity].
  intros x Hx. apply written_days_elem in Hx.
  rewrite CHALLENGE_START_DATE_eq, CHALLENGE_END_DATE_eq in Hx. tauto.
Qed.

Lemma week_count_le (wd : list Z) today a b :
  0 <= (if a >? today then 0
        else Z.of_nat (length (filter (fun d => a <= d /\ d <= Z.min b today) wd)))
    <= Z.of_nat (length (filter (fun d => a <= d /\ d <= b) wd)).
Proof.
  destruct (a >? today); [lia|]. split; [lia|].
  apply Nat2Z.inj_le, filter_length_mono. intros x. lia.
Qed.

Lemma disjoint_weeks_length (l : list Z) a1 b1 a2 b2 a3 b3 a4 b4 :
  b1 < a2 <= b2 -> b2 < a3 <= b3 -> b3 < a4 ->
  Z.of_nat (length (filter (fun d => a1 <= d /\ d <= b1) l))
  + Z.of_nat (length (filter (fun d => a2 <= d /\ d <= b2) l))
  + Z.of_nat (length (filter (fun d => a3 <= d /\ d <= b3) l))
  + Z.of_nat (length (filter (fun d => a4 <= d /\ d <= b4) l))
  <= Z.of_nat (length l).
Proof.
  intros H1 H2 H3. induction l as [|x l IH]; [reflexivity|].
  rewrite !filter_cons. repeat case_decide; cbn [length]; lia.
Qed.

(** The graded total counts each written day at most once. *)
Lemma graded_total_bounds wd today sts :
  Forall2 (iteration_result wd today) App12.CHALLENGE_WEEKS sts ->
  0 <= graded_total sts <= Z.of_nat (length wd).
Proof.
  rewrite CHALLENGE_WEEKS_eq. intros H. invert_statuses H.
  destruct I as (_ & _ & _ & _ & C0 & _).
  destruct I0 as (_ & _ & _ & _ & C1 & W1 & _).
  destruct I1 as (_ & _ & _ & _ & C2 & W2 & _).
  destruct I2 as (_ & _ & _ & _ & C3 & W3 & _).
  destruct I3 as (_ & _ & _ & _ & C4 & W4 & _).
  cbn [w_start w_end w_is_challenge] in *.
  unfold graded_total. cbn [foldr]. rewrite C0, C1, C2, C3, C4, W1, W2, W3, W4.
  pose proof (week_count_le wd today 739593 739599).
  pose proof (week_count_le wd today 739600 739606).
  pose proof (week_count_le wd today 739607 739613).
  pose proof (week_count_le wd today 739614 739620).
  pose proof (disjoint_weeks_length wd 739593 739599 739600 739606
                739607 739613 739614 739620) as D.
  specialize (D ltac:(lia) ltac:(lia) ltac:(lia)).
  unfold date_t in *.
  destruct (739593 >? today), (739600 >? today), (739607 >? today),
    (739614 >? today); lia.
Qed.

Lemma calculate_challenge_status_spec today df :
  exists sts rate,
    App12.calculate_challenge_status today df
    = Ok {| weekly_status := sts;
            overall_completion_rate := rate;
            total_written_challenge := graded_total sts;
            total_goal := App12.TOTAL_CHALLENGE_GOAL;
            written_dates_set := list_to_set (App12.written_days df);
            written_dates := App12.written_days df |}
    /\ Forall2 (iteration_result (App12.written_days df) today)
         App12.CHALLENGE_WEEKS sts
    /\ capped_percentage (graded_total sts) App12.TOTAL_CHALLENGE_GOAL = Ok rate
    /\ num_between 0 100 rate = true.
Proof.
  pose proof (written_days_length df) as L.
  destruct (for_weeks_spec (App12.written_days df) today App12.CHALLENGE_WEEKS)
    with (st := @nil week_status) (tot := 0) as (sts & Hs & F).
  { lia. }
  { rewrite CHALLENGE_WEEKS_eq. repeat constructor. }
  pose proof (graded_total_bounds _ _ _ F) as B.
  destruct (capped_percentage_ok (graded_total sts) App12.TOTAL_CHALLENGE_GOAL)
    as (rate & Hr & Hb).
  { lia. }
  { unfold App12.TOTAL_CHALLENGE_GOAL. lia. }
  exists sts, rate. split; [|tauto].
  unfold App12.calculate_challenge_status. cbv zeta. rewrite Hs.
  cbn [mbind result_bind bind app]. rewrite Z.add_0_l.
  unfold capped_percentage in Hr.
  destruct (int_truediv (graded_total sts) App12.TOTAL_CHALLENGE_GOAL)
    as [ratio|] eqn:E1; [|discriminate].
  cbn [mbind result_bind bind] in Hr |- *.
  destruct (float_mul_int ratio 100) as [percent|] eqn:E2; [|discriminate].
  cbn [mbind result_bind bind] in Hr |- *.
  injection Hr as <-. reflexivity.
Qed.

End loop_facts.

(** ** The claims *)

Section claims.
Import Py.

Lemma variants_agree today df :
  App2.calculate_challenge_status today df
  = App12.calculate_challenge_status today df.
Proof. reflexivity. Qed.

Lemma size_filter_list_to_set (P : Z -> Prop) `{!forall x, Decision (P x)}
    (l : list Z) :
  NoDup l -> size (filter P (list_to_set l : gset Z)) = length (filter P l).
Proof.
  intros N.
  assert (E : filter P (list_to_set l : gset Z) = list_to_set (filter P l)).
  { apply set_eq. intros x.
    rewrite elem_of_filter, !elem_of_list_to_set, list_elem_of_filter.
    reflexivity. }
  rewrite E. apply size_list_to_set, NoDup_filter, N.
Qed.

Lemma iteration_result_spec wd today w s :
  NoDup wd -> w_start w <= w_end w ->
  iteration_result wd today w s ->
  spec_week_status (list_to_set wd) today w s.
Proof.
  intros N O (_ & _ & _ & _ & _ & W & F & C & _).
  unfold spec_week_status, days_in_week.
  rewrite size_filter_list_to_set by exact N.
  rewrite W, F, C. clear W F C.
  destruct (Z.gtb_spec (w_start w) today) as [G|G].
  - rewrite decide_True by lia. split; [tauto|].
    split; [discriminate|lia].
  - rewrite decide_False by lia. split.
    + split; [reflexivity|]. split.
      * destruct (Z.ltb_spec (w_end w) today);
          [rewrite bool_decide_eq_true_2 by lia
          |rewrite bool_decide_eq_false_2 by lia]; reflexivity.
      * destruct (Z.ltb_spec (w_end w) today);
          [rewrite bool_decide_eq_false_2 by lia
          |rewrite bool_decide_eq_true_2 by lia].
        -- rewrite andb_false_r. reflexivity.
        -- rewrite (proj2 (Z.leb_le _ _)) by lia.
           rewrite (proj2 (Z.leb_le _ _)) by lia. reflexivity.
    + rewrite Z.ltb_lt. reflexivity.
Qed.

Lemma iteration_result_states wd today w s :
  iteration_result wd today w s ->
  ~ (s_is_current s = true /\ s_is_finished s = true)
  /\ (s_is_current s = true <-> w_start w <= today <= w_end w)
  /\ exactly_one (w_start w > today) (s_is_current s = true)
       (s_is_finished s = true).
Proof.
  intros (_ & _ & _ & _ & _ & _ & F & C & _). rewrite F, C. clear F C.
  unfold exactly_one.
  destruct (Z.gtb_spec (w_start w) today) as [G|G];
    [|destruct (Z.ltb_spec (w_end w) today) as [L|L];
      [rewrite andb_false_r
      |rewrite (proj2 (Z.leb_le _ _)), (proj2 (Z.leb_le _ _)) by lia;
       cbn [andb negb]]];
    intuition (try discriminate; try lia).
Qed.


Lemma calculate_challenge_status_result today df :
  exists r,
    App12.calculate_challenge_status today df = Ok r
    /\ App2.calculate_challenge_status today df = Ok r
    /\ written_dates r = App12.written_days df
    /\ written_dates_set r = list_to_set (written_dates r)
    /\ total_written_challenge r = graded_total (weekly_status r)
    /\ total_goal r = App12.TOTAL_CHALLENGE_GOAL
    /\ Forall2 (iteration_result (written_dates r) today)
         App12.CHALLENGE_WEEKS (weekly_status r)
    /\ capped_percentage (total_written_challenge r) (total_goal r)
       = Ok (overall_completion_rate r)
    /\ num_between 0 100 (overall_completion_rate r) = true.
Proof.
  destruct (calculate_challenge_status_spec today df)
    as (sts & rate & E & F & C & B).
  eexists. split; [exact E|]. rewrite variants_agree.
  split; [exact E|]. cbn. tauto.
Qed.

(** C1: for every frame of entries and every today, each week of the
    schedule gets the status of the spec's case split: a week that starts
    after today has count 0 and is neither current nor finished; another
    week counts the distinct written days between its start and
    min(end, today), is finished iff its end is before today and current
    iff today lies in it and it is not finished; in both cases finished
    holds iff the end is before today. *)
Theorem C1_week_case_split today df :
  exists r,
    App12.calculate_challenge_status today df = Ok r
    /\ App2.calculate_challenge_status today df = Ok r
    /\ Forall2 (spec_week_status (written_dates_set r) today)
         App12.CHALLENGE_WEEKS (weekly_status r).
Proof.
  destruct (calculate_challenge_status_result today df)
    as (r & E1 & E2 & W & S & _ & _ & F & _).
  exists r. split; [exact E1|]. split; [exact E2|].
  rewrite S. pose proof (written_days_NoDup df) as N. rewrite <- W in N.
  revert F. generalize (weekly_status r). rewrite CHALLENGE_WEEKS_eq.
  intros sts F. invert_statuses F.
  repeat (apply List.Forall2_cons;
          [apply iteration_result_spec; [exact N|cbn; lia|assumption]|]).
  apply List.Forall2_nil.
Qed.

(** C2: the written-day set is exactly the set of dates of the challenge
    window that carry an entry whose stripped text is not empty; a day whose
    entries are all whitespace is not in it, and every day of it occurs once
    in the list of written days the set is built from. *)
Theorem C2_written_day_set today df :
  exists r,
    App12.calculate_challenge_status today df = Ok r
    /\ App2.calculate_challenge_status today df = Ok r
    /\ (forall d, d ∈ written_dates_set r <->
          App12.CHALLENGE_START_DATE <= d <= App12.CHALLENGE_END_DATE
          /\ exists text, (d, text) ∈ df /\ strip text <> [])
    /\ (forall d,
          (forall text, (d, text) ∈ df ->
             Forall (fun c => isspace c = true) text) ->
          d ∉ written_dates_set r)
    /\ written_dates_set r = list_to_set (written_dates r)
    /\ NoDup (written_dates r).
Proof.
  destruct (calculate_challenge_status_result today df)
    as (r & E1 & E2 & W & S & _).
  exists r. split; [exact E1|]. split; [exact E2|].
  assert (M : forall d, d ∈ written_dates_set r <->
          App12.CHALLENGE_START_DATE <= d <= App12.CHALLENGE_END_DATE
          /\ exists text, (d, text) ∈ df /\ strip text <> []).
  { intros d. rewrite S, elem_of_list_to_set, W, written_days_elem.
    split; intros [H [text [H1 H2]]]; (split; [exact H|]); exists text;
      (split; [exact H1|]).
    - intros E. rewrite E in H2. discriminate.
    - destruct (strip text); [congruence|reflexivity]. }
  split; [exact M|]. split; [|split; [exact S|]].
  - intros d B H. apply M in H. destruct H as [_ [text [H1 H2]]].
    apply H2, strip_nil, B, H1.
  - rewrite W. apply written_days_NoDup.
Qed.


(** C9: in every week status current and finished never hold together,
    current is equivalent to start <= today <= end, and the week is in
    exactly one of the states not begun, current, finished. *)
Theorem C9_week_states_exclusive today df :
  exists r,
    App12.calculate_challenge_status today df = Ok r
    /\ App2.calculate_challenge_status today df = Ok r
    /\ Forall2 (fun w s =>
         ~ (s_is_current s = true /\ s_is_finished s = true)
         /\ (s_is_current s = true <-> w_start w <= today <= w_end w)
         /\ exactly_one (w_start w > today) (s_is_current s = true)
              (s_is_finished s = true))
         App12.CHALLENGE_WEEKS (weekly_status r).
Proof.
  destruct (calculate_challenge_status_result today df)
    as (r & E1 & E2 & _ & _ & _ & _ & F & _).
  exists r. split; [exact E1|]. split; [exact E2|].
  eapply Forall2_impl; [exact F|]. intros w s. apply iteration_result_states.
Qed.

(** C10: the graded total never exceeds the number of distinct written
    days. *)
Theorem C10_graded_total_le_written_days today df :
  exists r,
    App12.calculate_challenge_status today df = Ok r
    /\ App2.calculate_challenge_status today df = Ok r
    /\ total_written_challenge r <= Z.of_nat (size (written_dates_set r)).
Proof.
  destruct (calculate_challenge_status_result today df)
    as (r & E1 & E2 & W & S & T & _ & F & _).
  exists r. split; [exact E1|]. split; [exact E2|].
  rewrite S, T, size_list_to_set by (rewrite W; apply written_days_NoDup).
  apply (graded_total_bounds _ _ _ F).
Qed.


Ltac eval_comparisons :=
  rewrite ?Z.gtb_ltb;
  repeat first
    [ rewrite (proj2 (Z.ltb_lt _ _)) by lia
    | rewrite (proj2 (Z.ltb_ge _ _)) by lia
    | rewrite (proj2 (Z.leb_le _ _)) by lia
    | rewrite (proj2 (Z.leb_gt _ _)) by lia ].

(** C7: exactly one week is current when today lies in the challenge
    window and none when today is before its start or after its end. *)
Theorem C7_one_current_week today df :
  exists r,
    App12.calculate_challenge_status today df = Ok r
    /\ App2.calculate_challenge_status today df = Ok r
    /\ current_weeks (weekly_status r)
       = if bool_decide (App12.CHALLENGE_START_DATE <= today
                         <= App12.CHALLENGE_END_DATE)
         then 1%nat else 0%nat.
Proof.
  destruct (calculate_challenge_status_result today df)
    as (r & E1 & E2 & _ & _ & _ & _ & F & _).
  exists r. split; [exact E1|]. split; [exact E2|].
  revert F. generalize (weekly_status r). rewrite CHALLENGE_WEEKS_eq.
  intros sts F. invert_statuses F.
  destruct I as (_ & _ & _ & _ & _ & _ & _ & C0 & _).
  destruct I0 as (_ & _ & _ & _ & _ & _ & _ & C1 & _).
  destruct I1 as (_ & _ & _ & _ & _ & _ & _ & C2 & _).
  destruct I2 as (_ & _ & _ & _ & _ & _ & _ & C3 & _).
  destruct I3 as (_ & _ & _ & _ & _ & _ & _ & C4 & _).
  cbn [w_start w_end] in *.
  rewrite CHALLENGE_START_DATE_eq, CHALLENGE_END_DATE_eq.
  unfold current_weeks. rewrite !filter_cons, filter_nil.
  rewrite C0, C1, C2, C3, C4. clear.
  assert (R : today < 739588 \/ 739588 <= today <= 739592
              \/ 739593 <= today <= 739599 \/ 739600 <= today <= 739606
              \/ 739607 <= today <= 739613 \/ 739614 <= today <= 739620
              \/ 739620 < today) by lia.
  destruct R as [R|[R|[R|[R|[R|[R|R]]]]]];
    eval_comparisons; cbn [andb negb];
    first [rewrite bool_decide_eq_true_2 by lia
          |rewrite bool_decide_eq_false_2 by lia];
    repeat case_decide; try discriminate; try congruence; reflexivity.
Qed.

Lemma iteration_result_rate wd today w s :
  Z.of_nat (length wd) < 2 ^ 64 -> 0 <= w_goal w < 2 ^ 64 ->
  iteration_result wd today w s ->
  num_between 0 100 (s_rate s) = true
  /\ (s_goal s = 0 -> s_rate s = Int 0)
  /\ (s_goal s <> 0 ->
      capped_percentage (s_written s) (s_goal s) = Ok (s_rate s)).
Proof.
  intros L G (_ & _ & _ & -> & _ & W & _ & _ & R).
  destruct (Z.gtb_spec (w_goal w) 0) as [P|P].
  - assert (C : 0 <= s_written s < 2 ^ 64).
    { rewrite W. destruct (w_start w >? today); [lia|].
      split; [lia|]. eapply Z.le_lt_trans; [|exact L].
      apply Nat2Z.inj_le, length_filter. }
    destruct (capped_percentage_ok (s_written s) (w_goal w)) as (x & Hx & B);
      [exact C|lia|].
    rewrite Hx in R. injection R as <-.
    split; [exact B|]. split; [lia|]. intros _. exact Hx.
  - injection R as <-. split; [reflexivity|]. split; [reflexivity|]. lia.
Qed.

(** C6: every per-week rate and the overall completion rate lie in
    [0, 100]; a week's rate is 0 when its goal is 0 and otherwise
    min(writtenCount / goal * 100, 100), which clamps an over-achieved week
    (7 of 5) to 100. *)
Theorem C6_rates_within_0_100 today df :
  exists r,
    App12.calculate_challenge_status today df = Ok r
    /\ App2.calculate_challenge_status today df = Ok r
    /\ Forall (fun s =>
         num_between 0 100 (s_rate s) = true
         /\ (s_goal s = 0 -> s_rate s = Int 0)
         /\ (s_goal s <> 0 ->
             capped_percentage (s_written s) (s_goal s) = Ok (s_rate s)))
         (weekly_status r)
    /\ num_between 0 100 (overall_completion_rate r) = true
    /\ capped_percentage 7 5 = Ok (Int 100).
Proof.
  destruct (calculate_challenge_status_result today df)
    as (r & E1 & E2 & W & _ & _ & _ & F & _ & B).
  exists r. split; [exact E1|]. split; [exact E2|].
  split; [|split; [exact B|reflexivity]].
  pose proof (written_days_length df) as L. rewrite <- W in L.
  eapply Forall2_Forall_r; [exact F|].
  rewrite CHALLENGE_WEEKS_eq.
  repeat (apply List.Forall_cons;
          [intros s; apply iteration_result_rate; [lia|cbn; lia]|]).
  apply List.Forall_nil.
Qed.

(** C3: the overall total adds up the written days of the graded weeks
    only, the total goal is the constant 20 and the completion rate is
    min(total / 20 * 100, 100); on the entries of 12/9, 12/10, 12/11 and
    12/16 with today 12/17 the first week has 3 written days, is finished
    and has rate 60.0, the second has 1, is current and has rate 20.0, the
    graded total is 4 and the completion rate 20.0. *)
Theorem C3_graded_total_and_scenario :
  (forall today df, exists r,
     App12.calculate_challenge_status today df = Ok r
     /\ App2.calculate_challenge_status today df = Ok r
     /\ total_written_challenge r = graded_total (weekly_status r)
     /\ total_goal r = 20
     /\ capped_percentage (total_written_challenge r) 20
        = Ok (overall_completion_rate r))
  /\ exists r bonus w1 w2 w3 w4,
       App12.calculate_challenge_status (date 2025 12 17) scenario_df = Ok r
       /\ App2.calculate_challenge_status (date 2025 12 17) scenario_df = Ok r
       /\ written_dates_set r
          = list_to_set [date 2025 12 9; date 2025 12 10; date 2025 12 11;
                         date 2025 12 16]
       /\ weekly_status r = [bonus; w1; w2; w3; w4]
       /\ s_is_challenge bonus = false
       /\ s_written w1 = 3 /\ s_is_finished w1 = true /\ is_float 60 (s_rate w1)
       /\ s_written w2 = 1 /\ s_is_current w2 = true /\ is_float 20 (s_rate w2)
       /\ total_written_challenge r = 4
       /\ is_float 20 (overall_completion_rate r).
Proof.
  split.
  - intros today df.
    destruct (calculate_challenge_status_result today df)
      as (r & E1 & E2 & _ & _ & T & G & _ & C & _).
    exists r. rewrite G in C. tauto.
  - assert (E : exists r,
        App12.calculate_challenge_status (date 2025 12 17) scenario_df = Ok r
        /\ written_dates r = [739594; 739595; 739596; 739601]
        /\ (fun s => (s_written s, s_is_current s, s_is_finished s,
                      s_is_challenge s, s_rate s)) <$> weekly_status r
           = [(0, false, true, false, Int 0);
              (3, false, true, true,
               Float (S754_finite false 8444249301319680 (-47)));
              (1, true, false, true,
               Float (S754_finite false 5629499534213120 (-48)));
              (0, false, false, true, Float (S754_zero false));
              (0, false, false, true, Float (S754_zero false))]
        /\ total_written_challenge r = 4
        /\ overall_completion_rate r
           = Float (S754_finite false 5629499534213120 (-48))).
    { destruct (calculate_challenge_status_result (date 2025 12 17) scenario_df)
        as (r & E1 & _).
      exists r. split; [exact E1|].
      assert (V : App12.calculate_challenge_status (date 2025 12 17) scenario_df
                  = Ok r) by exact E1.
      revert V. clear. intros V.
      assert (P : forall {A} (f : challenge_status -> A),
                match App12.calculate_challenge_status (date 2025 12 17)
                        scenario_df with
                | Ok r' => Some (f r')
                | Raise _ => None
                end = Some (f r)).
      { intros A f. rewrite V. reflexivity. }
      split; [|split; [|split]].
      - pose proof (P _ written_dates) as H. vm_compute in H.
        injection H as H. symmetry. exact H.
      - pose proof (P _ (fun r => (fun s => (s_written s, s_is_current s,
          s_is_finished s, s_is_challenge s, s_rate s)) <$> weekly_status r)) as H.
        vm_compute in H. injection H as H. symmetry. exact H.
      - pose proof (P _ total_written_challenge) as H. vm_compute in H.
        injection H as H. symmetry. exact H.
      - pose proof (P _ overall_completion_rate) as H. vm_compute in H.
        injection H as H. symmetry. exact H. }
    destruct E as (r & E & W & S & T & O).
    destruct (calculate_challenge_status_result (date 2025 12 17) scenario_df)
      as (r' & E1 & E2 & _ & D & _).
    assert (r' = r) by congruence. subst r'.
    destruct (weekly_status r) as [|bonus [|w1 [|w2 [|w3 [|w4 [|]]]]]] eqn:L;
      try discriminate S.
    injection S as; intros.
    exists r, bonus, w1, w2, w3, w4.
    split; [exact E|]. split; [exact E2|].
    split; [rewrite D, W; reflexivity|].
    split; [exact L|].
    repeat split; try assumption;
      (eexists; split; [|eassumption]; reflexivity).
Qed.

Lemma App12_get_motivation_message_eq today total_written total_goal :
  App12.get_motivation_message today total_written total_goal =
  if total_written >=? total_goal then Ok (App12.msg_achieved total_goal)
  else
    let elapsed := today - 739593 + 1 in
    ratio ← int_truediv (if elapsed <? 0 then 0 else elapsed) 28;
    scaled ← int_mul_float 20 ratio;
    expected ← int_of_float scaled;
    if total_written >=? Z.max 0 expected then
      Ok (App12.msg_on_pace (Z.max 0 expected) (total_written - Z.max 0 expected))
    else Ok (App12.msg_behind (Z.max 0 expected - total_written)).
Proof. reflexivity. Qed.

Lemma App2_get_motivation_message_eq today total_written total_goal :
  App2.get_motivation_message today total_written total_goal =
  if total_written >=? total_goal then Ok (App2.msg_achieved total_goal)
  else
    ratio ← int_truediv (today - 739588 + 1) 33;
    scaled ← int_mul_float total_goal ratio;
    expected ← int_of_float scaled;
    if total_written >=? expected then
      Ok (App2.msg_on_pace expected (total_written - expected))
    else Ok (App2.msg_behind (expected - total_written)).
Proof. reflexivity. Qed.

Lemma valid_date_elapsed today a :
  valid_date today -> 1 <= a <= 3652059 -> - 2 ^ 64 < today - a + 1 < 2 ^ 64.
Proof. unfold valid_date, MINORDINAL, MAXORDINAL. lia. Qed.

Lemma App12_get_motivation_message_returns today total_written total_goal :
  valid_date today ->
  returns (App12.get_motivation_message today total_written total_goal).
Proof.
  intros V. rewrite App12_get_motivation_message_eq. cbv zeta.
  destruct (total_written >=? total_goal); [eexists; reflexivity|].
  pose proof (valid_date_elapsed today 739593 V ltac:(lia)) as E.
  set (elapsed := if today - 739593 + 1 <? 0 then 0 else today - 739593 + 1).
  assert (E' : - 2 ^ 64 < elapsed < 2 ^ 64).
  { subst elapsed. destruct (today - 739593 + 1 <? 0); lia. }
  destruct (int_truediv_bounded elapsed 28) as (x & -> & Bx); [lia|lia|].
  cbn [mbind result_bind bind].
  destruct (int_mul_float_20_bounded _ _ Bx) as (y & -> & By).
  cbn [mbind result_bind bind].
  destruct (int_of_float_bounded _ _ _ _ _ By) as (n & ->).
  cbn [mbind result_bind bind].
  destruct (total_written >=? Z.max 0 n); eexists; reflexivity.
Qed.

Lemma App2_get_motivation_message_returns today total_written :
  valid_date today ->
  returns (App2.get_motivation_message today total_written
             App2.TOTAL_CHALLENGE_GOAL).
Proof.
  intros V. rewrite App2_get_motivation_message_eq.
  destruct (total_written >=? App2.TOTAL_CHALLENGE_GOAL); [eexists; reflexivity|].
  pose proof (valid_date_elapsed today 739588 V ltac:(lia)) as E.
  destruct (int_truediv_bounded (today - 739588 + 1) 33) as (x & -> & Bx);
    [lia|lia|].
  cbn [mbind result_bind bind].
  change App2.TOTAL_CHALLENGE_GOAL with 20.
  destruct (int_mul_float_20_bounded _ _ Bx) as (y & -> & By).
  cbn [mbind result_bind bind].
  destruct (int_of_float_bounded _ _ _ _ _ By) as (n & ->).
  cbn [mbind result_bind bind].
  destruct (total_written >=? n); eexists; reflexivity.
Qed.


(** C4: before the challenge starts app2.py computes a negative number of
    elapsed days and a negative expected goal, which it does not clamp: on
    2025-11-30 with nothing written it reports an expected goal of -1 and a
    surplus of 1, where app12.py reports 0 and 0. *)
Theorem C4_pacing_not_clamped_in_app2 :
  App2.get_motivation_message (date 2025 11 30) 0 App2.TOTAL_CHALLENGE_GOAL
  = Ok (App2.msg_on_pace (-1) 1)
  /\ App12.get_motivation_message (date 2025 11 30) 0 App12.TOTAL_CHALLENGE_GOAL
     = Ok (App12.msg_on_pace 0 0)
  /\ App2.msg_on_pace (-1) 1 <> App2.msg_on_pace 0 0.
Proof.
  split; [vm_compute; reflexivity|].
  split; [vm_compute; reflexivity|].
  vm_compute. discriminate.
Qed.

End claims.

(** * Further properties of the code *)

(** ** The statistics *)

Section statistics_facts.
Import Py.

(** Two strictly ascending lists with the same elements are equal. *)
Lemma sorted_lt_ext (l k : list Z) :
  StronglySorted Z.lt l -> StronglySorted Z.lt k ->
  (forall x, x ∈ l <-> x ∈ k) -> l = k.
Proof.
  intros Sl. revert k. induction Sl as [|a l Sl IH Fa]; intros k Sk E.
  - destruct k as [|b k]; [reflexivity|].
    exfalso. apply (not_elem_of_nil b), E. left.
  - destruct k as [|b k].
    { exfalso. apply (not_elem_of_nil a), E. left. }
    apply StronglySorted_inv in Sk. destruct Sk as [Sk Fb].
    rewrite Forall_forall in Fa, Fb.
    assert (a = b).
    { assert (Ha : a ∈ b :: k) by (apply E; left).
      assert (Hb : b ∈ a :: l) by (apply E; left).
      apply elem_of_cons in Ha. apply elem_of_cons in Hb.
      destruct Ha as [Ha|Ha]; [exact Ha|]. destruct Hb as [Hb|Hb]; [lia|].
      apply Fa in Hb. apply Fb in Ha. lia. }
    subst b. f_equal. apply IH; [exact Sk|].
    intros x. split; intros Hx.
    + assert (H : x ∈ a :: k) by (apply E; right; exact Hx).
      apply elem_of_cons in H. destruct H as [->|H]; [|exact H].
      apply Fa in Hx. lia.
    + assert (H : x ∈ a :: l) by (apply E; right; exact Hx).
      apply elem_of_cons in H. destruct H as [->|H]; [|exact H].
      apply Fb in Hx. lia.
Qed.

(** The written days depend only on which days carry a non-blank entry. *)
Lemma written_days_ext df df' :
  (forall d, (exists s, (d, s) ∈ df /\ nonempty (strip s) = true)
             <-> (exists s, (d, s) ∈ df' /\ nonempty (strip s) = true)) ->
  App12.written_days df = App12.written_days df'.
Proof.
  intros E. apply sorted_lt_ext; try apply written_days_sorted.
  intros x. rewrite !written_days_elem, (E x). reflexivity.
Qed.

Lemma calculate_challenge_status_ext today df df' :
  App12.written_days df = App12.written_days df' ->
  App12.calculate_challenge_status today df
  = App12.calculate_challenge_status today df'.
Proof.
  intros E. unfold App12.calculate_challenge_status. rewrite E. reflexivity.
Qed.

(** X1: the statistics do not depend on the order of the rows of the
    sheet. *)
Theorem row_order_is_irrelevant today df df' :
  df ≡ₚ df' ->
  App12.calculate_challenge_status today df
  = App12.calculate_challenge_status today df'
  /\ App2.calculate_challenge_status today df
     = App2.calculate_challenge_status today df'.
Proof.
  intros P.
  assert (E : App12.calculate_challenge_status today df
              = App12.calculate_challenge_status today df').
  { apply calculate_challenge_status_ext, written_days_ext.
    intros d. split; intros [s [H1 H2]]; exists s; (split; [|exact H2]).
    - rewrite <- P. exact H1.
    - rewrite P. exact H1. }
  split; [exact E|]. rewrite !variants_agree. exact E.
Qed.

Lemma row_order_is_irrelevant_witness :
  App12.calculate_challenge_status (date 2025 12 17)
    [(date 2025 12 9, str_of "a"); (date 2025 12 16, str_of "b")]
  = App12.calculate_challenge_status (date 2025 12 17)
    [(date 2025 12 16, str_of "b"); (date 2025 12 9, str_of "a")].
Proof.
  apply (row_order_is_irrelevant (date 2025 12 17)
           [(date 2025 12 9, str_of "a"); (date 2025 12 16, str_of "b")]
           [(date 2025 12 16, str_of "b"); (date 2025 12 9, str_of "a")]).
  apply perm_swap.
Defined.


Lemma iteration_result_written_bounds wd today w s :
  NoDup wd -> iteration_result wd today w s ->
  0 <= s_written s <= Z.max 0 (Z.min (w_end w) today - w_start w + 1).
Proof.
  intros N (_ & _ & _ & _ & _ & W & _). rewrite W.
  destruct (w_start w >? today); [lia|]. split; [lia|].
  apply NoDup_range_length.
  - apply NoDup_filter, N.
  - intros x Hx. apply list_elem_of_filter in Hx. lia.
Qed.

Lemma week_count_closed (wd : list Z) today a b :
  (if a >? today then 0
   else Z.of_nat (length (filter (fun d => a <= d /\ d <= Z.min b today) wd)))
  = Z.of_nat (length (filter (fun d => a <= d /\ d <= Z.min b today) wd)).
Proof.
  destruct (Z.gtb_spec a today) as [G|G]; [|reflexivity].
  induction wd as [|x wd IH]; [reflexivity|].
  rewrite filter_cons. destruct (decide (a <= x /\ x <= Z.min b today)); [lia|].
  exact IH.
Qed.

Lemma four_weeks_length (l : list Z) today a1 b1 a2 b2 a3 b3 a4 b4 :
  a1 <= b1 -> b1 + 1 = a2 -> a2 <= b2 -> b2 + 1 = a3 -> a3 <= b3 ->
  b3 + 1 = a4 -> a4 <= b4 ->
  Z.of_nat (length (filter (fun d => a1 <= d /\ d <= Z.min b1 today) l))
  + (Z.of_nat (length (filter (fun d => a2 <= d /\ d <= Z.min b2 today) l))
  + (Z.of_nat (length (filter (fun d => a3 <= d /\ d <= Z.min b3 today) l))
  + (Z.of_nat (length (filter (fun d => a4 <= d /\ d <= Z.min b4 today) l))
  + 0)))
  = Z.of_nat (length (filter (fun d => a1 <= d /\ d <= Z.min b4 today) l)).
Proof.
  intros. induction l as [|x l IH]; [reflexivity|].
  rewrite !filter_cons. repeat case_decide; cbn [length]; lia.
Qed.

(** The graded total is the number of written days from the first day of
    the first graded week to today, the last day of the challenge at most. *)
Lemma graded_total_closed wd today sts :
  Forall2 (iteration_result wd today) App12.CHALLENGE_WEEKS sts ->
  graded_total sts
  = Z.of_nat (length (filter
      (fun d => 739593 <= d /\ d <= Z.min 739620 today) wd)).
Proof.
  rewrite CHALLENGE_WEEKS_eq. intros H. invert_statuses H.
  destruct I as (_ & _ & _ & _ & C0 & _).
  destruct I0 as (_ & _ & _ & _ & C1 & W1 & _).
  destruct I1 as (_ & _ & _ & _ & C2 & W2 & _).
  destruct I2 as (_ & _ & _ & _ & C3 & W3 & _).
  destruct I3 as (_ & _ & _ & _ & C4 & W4 & _).
  cbn [w_start w_end w_is_challenge] in *.
  unfold graded_total. cbn [foldr]. rewrite C0, C1, C2, C3, C4, W1, W2, W3, W4.
  rewrite !week_count_closed. rewrite Z.add_0_l.
  apply four_weeks_length; lia.
Qed.


Lemma calculate_challenge_status_total today df :
  exists r,
    App12.calculate_challenge_status today df = Ok r
    /\ App2.calculate_challenge_status today df = Ok r
    /\ written_dates r = App12.written_days df
    /\ written_dates_set r = list_to_set (App12.written_days df)
    /\ Forall2 (iteration_result (App12.written_days df) today)
         App12.CHALLENGE_WEEKS (weekly_status r)
    /\ total_written_challenge r
       = Z.of_nat (size (filter
           (fun d => 739593 <= d /\ d <= Z.min 739620 today)
           (written_dates_set r))).
Proof.
  destruct (calculate_challenge_status_result today df)
    as (r & E1 & E2 & W & S & T & _ & F & _).
  exists r. rewrite W in S, F.
  split; [exact E1|]. split; [exact E2|]. split; [exact W|].
  split; [exact S|]. split; [exact F|].
  rewrite T, S, size_filter_list_to_set by apply written_days_NoDup.
  apply graded_total_closed. exact F.
Qed.

(** X2: the graded total is the number of written days from the first day
    of the first graded week up to today (the last day of the challenge at
    most), so an entry dated after today is not counted; it is at most 28,
    and a week's count is at most 7 and at most the days of the week that
    have begun. *)
Theorem graded_total_counts_days_up_to_today today df :
  exists r,
    App12.calculate_challenge_status today df = Ok r
    /\ App2.calculate_challenge_status today df = Ok r
    /\ total_written_challenge r
       = Z.of_nat (size (filter
           (fun d => date 2025 12 8 <= d
                     /\ d <= Z.min App12.CHALLENGE_END_DATE today)
           (written_dates_set r)))
    /\ 0 <= total_written_challenge r <= 28
    /\ Forall (fun s =>
         0 <= s_written s <= 7
         /\ s_written s <= Z.max 0 (today - s_start s + 1))
         (weekly_status r).
Proof.
  destruct (calculate_challenge_status_total today df)
    as (r & E1 & E2 & W & S & F & T).
  exists r. split; [exact E1|]. split; [exact E2|].
  split; [exact T|]. split.
  - pose proof (calculate_challenge_status_result today df)
      as (r' & E1' & _ & W' & _ & T' & _ & F' & _).
    assert (r' = r) by congruence. subst r'.
    rewrite T', (graded_total_closed _ _ _ F'). split; [lia|].
    etransitivity.
    + apply (NoDup_range_length _ 739593 739620).
      * apply NoDup_filter. rewrite W'. apply written_days_NoDup.
      * intros x Hx. apply list_elem_of_filter in Hx. lia.
    + reflexivity.
  - pose proof (written_days_NoDup df) as N.
    eapply Forall2_Forall_r; [exact F|].
    rewrite CHALLENGE_WEEKS_eq.
    repeat (apply List.Forall_cons;
            [intros s I;
             pose proof (iteration_result_written_bounds _ _ _ _ N I) as B;
             destruct I as (_ & -> & _); cbn [w_start w_end] in *; lia|]).
    apply List.Forall_nil.
Qed.

Lemma Forall2_same_left {A B C} (P : A -> B -> Prop) (P' : A -> C -> Prop)
    (Q : B -> C -> Prop) l k k' :
  (forall x y y', P x y -> P' x y' -> Q y y') ->
  Forall2 P l k -> Forall2 P' l k' -> Forall2 Q k k'.
Proof.
  intros H F. revert k'. induction F as [|x y l k Hxy F IH]; intros k' F'.
  - apply Forall2_nil_inv_l in F'. subst. constructor.
  - apply Forall2_cons_inv_l in F' as (y' & k'' & Hxy' & F' & ->).
    constructor; [eapply H; eassumption|apply IH; exact F'].
Qed.

Lemma iteration_result_later wd today today' w s s' :
  today <= today' ->
  iteration_result wd today w s -> iteration_result wd today' w s' ->
  s_written s <= s_written s'
  /\ (s_is_finished s = true ->
      s_is_finished s' = true /\ s_written s' = s_written s).
Proof.
  intros L (_ & _ & _ & _ & _ & W & F & _) (_ & _ & _ & _ & _ & W' & F' & _).
  rewrite W, W', F, F'. rewrite !week_count_closed. split.
  - apply Nat2Z.inj_le, filter_length_mono. intros x. lia.
  - destruct (Z.gtb_spec (w_start w) today) as [G|G]; [discriminate|].
    intros E. apply Z.ltb_lt in E.
    rewrite (proj2 (Z.ltb_lt _ _)) by lia.
    destruct (Z.gtb_spec (w_start w) today') as [G'|G']; [lia|].
    split; [reflexivity|].
    rewrite !Z.min_l by lia. reflexivity.
Qed.

(** X3: as the days pass the progress never goes down: with the same
    entries and a later today every week's count and the graded total are at
    least what they were, and a finished week stays finished with the same
    count. *)
Theorem progress_never_decreases_with_time today today' df :
  today <= today' ->
  exists r r',
    App12.calculate_challenge_status today df = Ok r
    /\ App12.calculate_challenge_status today' df = Ok r'
    /\ App2.calculate_challenge_status today df = Ok r
    /\ App2.calculate_challenge_status today' df = Ok r'
    /\ written_dates_set r' = written_dates_set r
    /\ total_written_challenge r <= total_written_challenge r'
    /\ Forall2 (fun s s' =>
         s_written s <= s_written s'
         /\ (s_is_finished s = true ->
             s_is_finished s' = true /\ s_written s' = s_written s))
         (weekly_status r) (weekly_status r').
Proof.
  intros L.
  destruct (calculate_challenge_status_total today df)
    as (r & E1 & E2 & W & S & F & T).
  destruct (calculate_challenge_status_total today' df)
    as (r' & E1' & E2' & W' & S' & F' & T').
  exists r, r'. repeat (split; [assumption|]).
  split; [congruence|]. split.
  - rewrite T, T', S, S'.
    rewrite !size_filter_list_to_set by apply written_days_NoDup.
    apply Nat2Z.inj_le, filter_length_mono. intros x. lia.
  - eapply Forall2_same_left; [|exact F|exact F'].
    intros w s s'. apply iteration_result_later. exact L.
Qed.

Lemma progress_never_decreases_with_time_witness :
  exists r r',
    App12.calculate_challenge_status (date 2025 12 10) scenario_df = Ok r
    /\ App12.calculate_challenge_status (date 2025 12 17) scenario_df = Ok r'
    /\ total_written_challenge r <= total_written_challenge r'.
Proof.
  assert (L : date 2025 12 10 <= date 2025 12 17).
  { change (739595 <= 739602). lia. }
  destruct (progress_never_decreases_with_time _ _ scenario_df L)
    as (r & r' & H1 & H2 & _ & _ & _ & H3 & _).
  exists r, r'. auto.
Defined.


Lemma written_days_set_app df d text :
  (list_to_set (App12.written_days (df ++ [(d, text)])) : gset Z)
  = if decide (App12.CHALLENGE_START_DATE <= d <= App12.CHALLENGE_END_DATE
               /\ strip text <> [])
    then {[d]} ∪ list_to_set (App12.written_days df)
    else list_to_set (App12.written_days df).
Proof.
  assert (N : forall s : str, nonempty (strip s) = true <-> strip s <> []).
  { intros s. destruct (strip s); simpl; split; intros H;
      first [discriminate|reflexivity|exfalso; apply H; reflexivity]. }
  apply set_eq. intros x.
  rewrite elem_of_list_to_set, written_days_elem.
  destruct (decide _) as [[Hd Ht]|Hn].
  - rewrite elem_of_union, elem_of_singleton, elem_of_list_to_set,
      written_days_elem.
    split.
    + intros [Hx [s [Hs Hb]]]. apply elem_of_app in Hs.
      destruct Hs as [Hs|Hs]; [right; eauto|].
      apply list_elem_of_singleton in Hs. injection Hs as -> ->. left. reflexivity.
    + intros [->|[Hx [s [Hs Hb]]]].
      * split; [exact Hd|]. exists text. split; [|apply N; exact Ht].
        apply elem_of_app. right. left.
      * split; [exact Hx|]. exists s. split; [|exact Hb].
        apply elem_of_app. left. exact Hs.
  - rewrite elem_of_list_to_set, written_days_elem. split.
    + intros [Hx [s [Hs Hb]]]. apply elem_of_app in Hs.
      destruct Hs as [Hs|Hs]; [eauto|].
      apply list_elem_of_singleton in Hs. injection Hs as -> ->.
      exfalso. apply Hn. split; [exact Hx|]. apply N. exact Hb.
    + intros [Hx [s [Hs Hb]]]. split; [exact Hx|]. exists s.
      split; [|exact Hb]. apply elem_of_app. left. exact Hs.
Qed.

Lemma size_filter_insert (P : Z -> Prop) `{!forall x, Decision (P x)}
    (X : gset Z) d :
  (size (filter P X) <= size (filter P ({[d]} ∪ X)) <= S (size (filter P X)))%nat.
Proof.
  split.
  - apply subseteq_size. intros x. rewrite !elem_of_filter, elem_of_union.
    tauto.
  - transitivity (size ({[d]} ∪ filter P X)).
    + apply subseteq_size. intros x.
      rewrite elem_of_filter, !elem_of_union, elem_of_filter. tauto.
    + rewrite size_union_alt, size_singleton.
      assert (size (filter P X ∖ {[d]}) <= size (filter P X))%nat; [|lia].
      apply subseteq_size. intros x. rewrite elem_of_difference. tauto.
Qed.

(** X4: what one more row does to the statistics: an entry whose date is
    in the challenge window and whose text is not blank adds its day to the
    written days, any other entry changes nothing; in both cases no other
    day is touched and the graded total stays or goes up by one. *)
Theorem one_more_entry_adds_at_most_its_day today df d text :
  exists r r',
    App12.calculate_challenge_status today df = Ok r
    /\ App12.calculate_challenge_status today (df ++ [(d, text)]) = Ok r'
    /\ App2.calculate_challenge_status today df = Ok r
    /\ App2.calculate_challenge_status today (df ++ [(d, text)]) = Ok r'
    /\ written_dates_set r'
       = (if decide (App12.CHALLENGE_START_DATE <= d
                     <= App12.CHALLENGE_END_DATE /\ strip text <> [])
          then {[d]} ∪ written_dates_set r
          else written_dates_set r)
    /\ total_written_challenge r <= total_written_challenge r'
       <= total_written_challenge r + 1.
Proof.
  destruct (calculate_challenge_status_total today df)
    as (r & E1 & E2 & W & S & F & T).
  destruct (calculate_challenge_status_total today (df ++ [(d, text)]))
    as (r' & E1' & E2' & W' & S' & F' & T').
  exists r, r'. repeat (split; [assumption|]).
  assert (A : written_dates_set r'
       = (if decide (App12.CHALLENGE_START_DATE <= d
                     <= App12.CHALLENGE_END_DATE /\ strip text <> [])
          then {[d]} ∪ written_dates_set r
          else written_dates_set r)).
  { rewrite S, S'. apply written_days_set_app. }
  split; [exact A|]. rewrite T, T', A.
  destruct (decide _); [|lia].
  pose proof (size_filter_insert
    (fun x => 739593 <= x /\ x <= Z.min 739620 today) (written_dates_set r) d)
    as [H1 H2].
  split; [apply Nat2Z.inj_le, H1|].
  etransitivity; [apply Nat2Z.inj_le, H2|].
  rewrite Nat2Z.inj_succ. lia.
Qed.


Lemma rate_table (expected : Z -> result num) goal n :
  forallb (fun c => bool_decide (capped_percentage c goal = expected c))
    (seqZ 0 n) = true ->
  forall c, 0 <= c < n -> capped_percentage c goal = expected c.
Proof.
  intros T c Hc. rewrite forallb_forall in T.
  specialize (T c). apply bool_decide_eq_true_1 in T; [exact T|].
  apply list_elem_of_In, elem_of_seqZ. lia.
Qed.

Lemma weekly_rate_exact c :
  0 <= c < 8 -> capped_percentage c 5 = exact_rate c 5.
Proof.
  apply (rate_table (fun c => exact_rate c 5)). vm_compute. reflexivity.
Qed.

Lemma overall_rate_exact c :
  0 <= c < 29 ->
  capped_percentage c 20
  = if c =? 11 then Ok (Float (S754_finite false 7740561859543041 (-47)))
    else exact_rate c 20.
Proof.
  apply (rate_table (fun c =>
    if c =? 11 then Ok (Float (S754_finite false 7740561859543041 (-47)))
    else exact_rate c 20)).
  vm_compute. reflexivity.
Qed.

Lemma graded_total_le_28 wd today sts :
  NoDup wd ->
  Forall2 (iteration_result wd today) App12.CHALLENGE_WEEKS sts ->
  0 <= graded_total sts <= 28.
Proof.
  intros N F. rewrite (graded_total_closed _ _ _ F). split; [lia|].
  etransitivity.
  - apply (NoDup_range_length _ 739593 739620).
    + apply NoDup_filter, N.
    + intros x Hx. apply list_elem_of_filter in Hx. lia.
  - reflexivity.
Qed.

Lemma exact_rate_value c g k v :
  0 < g -> 100 = k * g -> exact_rate c g = Ok v ->
  if c <=? g then is_float (k * c) v else v = Int 100.
Proof.
  intros Hg Hk. unfold exact_rate.
  replace (100 * c / g) with (k * c)
    by (rewrite Hk; apply Z.div_unique with 0; lia).
  destruct (c <=? g).
  - destruct (float_of_int (k * c)) as [x|] eqn:E; [|discriminate].
    intros [= <-]. exists x. auto.
  - intros [= <-]. reflexivity.
Qed.

(** X5: the rounding of the rates: a graded week's rate is exactly the
    float 20 * written while written <= 5 and the integer 100 beyond, the
    bonus week's rate is the integer 0, and the overall rate is exactly the
    float 5 * total while total <= 20 and the integer 100 beyond, except
    for total = 11, where 11 / 20 * 100 rounds to 55.00000000000001. *)
Theorem rates_are_exact_but_for_eleven today df :
  exists r,
    App12.calculate_challenge_status today df = Ok r
    /\ App2.calculate_challenge_status today df = Ok r
    /\ Forall (fun s =>
         if s_is_challenge s then
           if s_written s <=? 5 then is_float (20 * s_written s) (s_rate s)
           else s_rate s = Int 100
         else s_rate s = Int 0)
         (weekly_status r)
    /\ (if total_written_challenge r =? 11
        then overall_completion_rate r
             = Float (S754_finite false 7740561859543041 (-47))
             /\ is_float 55 (Float (S754_finite false 7740561859543040 (-47)))
        else if total_written_challenge r <=? 20
        then is_float (5 * total_written_challenge r)
               (overall_completion_rate r)
        else overall_completion_rate r = Int 100).
Proof.
  destruct (calculate_challenge_status_result today df)
    as (r & E1 & E2 & W & _ & T & G & F & C & _).
  exists r. split; [exact E1|]. split; [exact E2|]. split.
  - pose proof (written_days_NoDup df) as N. rewrite <- W in N.
    eapply Forall2_Forall_r; [exact F|].
    rewrite CHALLENGE_WEEKS_eq.
    apply List.Forall_cons.
    { intros s (_ & _ & _ & _ & -> & _ & _ & _ & R). cbn in R |- *.
      congruence. }
    repeat (apply List.Forall_cons;
            [intros s I;
             pose proof (iteration_result_written_bounds _ _ _ _ N I) as B;
             destruct I as (_ & _ & _ & _ & -> & _ & _ & _ & R);
             cbn [w_start w_end w_goal w_is_challenge] in *;
             change (5 >? 0) with true in R; cbv iota in R;
             rewrite weekly_rate_exact in R by lia;
             apply (exact_rate_value _ 5 20); [lia|lia|exact R]|]).
    apply List.Forall_nil.
  - pose proof (written_days_NoDup df) as N. rewrite <- W in N.
    pose proof (graded_total_le_28 _ _ _ N F) as B.
    rewrite <- T in B. rewrite G in C.
    change App12.TOTAL_CHALLENGE_GOAL with 20 in C.
    rewrite overall_rate_exact in C by lia.
    destruct (total_written_challenge r =? 11).
    + split; [congruence|]. eexists. split; reflexivity.
    + apply (exact_rate_value _ 20 5); [lia|lia|exact C].
Qed.

End statistics_facts.

(** ** The progress card *)

Section bar_facts.
Import Py.

Lemma bar_table goal n :
  forallb (bar_check goal) (seqZ 0 n) = true ->
  forall c, 0 <= c < n ->
  exists p, capped_percentage c goal = Ok p
    /\ num_ge_int p 100 = (goal <=? c)
    /\ format_1f p = exact_percent c goal.
Proof.
  intros T c Hc. rewrite forallb_forall in T.
  specialize (T c). unfold bar_check in T.
  destruct (capped_percentage c goal) as [p|e].
  - exists p. split; [reflexivity|].
    apply andb_prop in T; [|apply list_elem_of_In, elem_of_seqZ; lia].
    destruct T as [T1 T2].
    apply bool_decide_eq_true_1 in T1, T2. auto.
  - discriminate T. apply list_elem_of_In, elem_of_seqZ; lia.
Qed.

Lemma weekly_bar_table c :
  0 <= c < 8 ->
  exists p, capped_percentage c 5 = Ok p
    /\ num_ge_int p 100 = (5 <=? c)
    /\ format_1f p = exact_percent c 5.
Proof. apply bar_table. vm_compute. reflexivity. Qed.

Lemma total_bar_table c :
  0 <= c < 29 ->
  exists p, capped_percentage c 20 = Ok p
    /\ num_ge_int p 100 = (20 <=? c)
    /\ format_1f p = exact_percent c 20.
Proof. apply bar_table. vm_compute. reflexivity. Qed.

End bar_facts.

Section card_facts.
Import Py.

Lemma render_gradient_bar12_drawn label v g cur p :
  capped_percentage v g = Ok p ->
  num_ge_int p 100 = (g <=? v) ->
  format_1f p = exact_percent v g ->
  App12.render_gradient_bar label v g true cur
  = Ok (drawn_bar12 label v g p cur).
Proof.
  unfold capped_percentage, App12.render_gradient_bar.
  destruct (int_truediv v g) as [x|]; [|discriminate].
  cbn [mbind result_bind bind].
  destruct (float_mul_int x 100) as [y|]; [|discriminate].
  cbn [mbind result_bind bind]. intros [= ->] G T.
  rewrite G, T. unfold drawn_bar12, bar_text.
  destruct (g <=? v); [reflexivity|]. destruct cur; reflexivity.
Qed.

Lemma render_gradient_bar2_drawn label v g p :
  capped_percentage v g = Ok p ->
  num_ge_int p 100 = (g <=? v) ->
  format_1f p = exact_percent v g ->
  App2.render_gradient_bar label v g = Ok (drawn_bar2 label v g p).
Proof.
  unfold capped_percentage, App2.render_gradient_bar.
  destruct (int_truediv v g) as [x|]; [|discriminate].
  cbn [mbind result_bind bind].
  destruct (float_mul_int x 100) as [y|]; [|discriminate].
  cbn [mbind result_bind bind]. intros [= ->] G T.
  rewrite G, T. unfold drawn_bar2, bar_text.
  destruct (g <=? v); reflexivity.
Qed.

Lemma render_gradient_bar_zero label v c cur :
  App12.render_gradient_bar label v 0 c cur = Raise ZeroDivisionError
  /\ App2.render_gradient_bar label v 0 = Raise ZeroDivisionError.
Proof. split; reflexivity. Qed.

(** A graded week of the schedule, as the loop records it. *)
Lemma graded_week_facts wd today w s :
  NoDup wd -> w_is_challenge w = true -> w_goal w = 5 ->
  w_end w - w_start w = 6 ->
  iteration_result wd today w s ->
  s_is_challenge s = true /\ s_goal s = 5 /\ 0 <= s_written s < 8
  /\ capped_percentage (s_written s) 5 = Ok (s_rate s).
Proof.
  intros N C G L I.
  pose proof (iteration_result_written_bounds _ _ _ _ N I) as B.
  destruct I as (_ & _ & _ & Eg & Ec & _ & _ & _ & R).
  rewrite G in R. change (5 >? 0) with true in R. cbv iota in R.
  rewrite Ec, Eg. repeat split; try assumption; lia.
Qed.

Lemma render_week12_drawn wd today w s :
  NoDup wd -> w_goal w = (if w_is_challenge w then 5 else 0) ->
  w_end w - w_start w = 6 \/ w_is_challenge w = false ->
  iteration_result wd today w s ->
  App12.render_week today s = Ok (drawn_week12 today s).
Proof.
  intros N G L I. unfold App12.render_week, drawn_week12.
  destruct (w_is_challenge w) eqn:C.
  - destruct L as [L|]; [|discriminate].
    destruct (graded_week_facts _ _ _ _ N C G L I) as (-> & Eg & B & R).
    rewrite Eg.
    destruct (weekly_bar_table _ B) as (p & Ep & Hp & Tp).
    rewrite R in Ep. injection Ep as <-.
    unfold label_mark12.
    rewrite (render_gradient_bar12_drawn _ _ _ _ _ R Hp Tp). reflexivity.
  - destruct I as (_ & _ & _ & _ & -> & _). rewrite C. reflexivity.
Qed.

Lemma render_week2_drawn wd today w s :
  NoDup wd -> w_goal w = (if w_is_challenge w then 5 else 0) ->
  w_end w - w_start w = 6 \/ w_is_challenge w = false ->
  iteration_result wd today w s ->
  App2.render_week today s = Ok (drawn_week2 today s).
Proof.
  intros N G L I. unfold App2.render_week, drawn_week2.
  assert (M : (let week_label :=
                 if s_start s >? today then App2.week_label s +:+ " (예정)"
                 else App2.week_label s in
               if s_is_current s then week_label +:+ " (현재 주차)"
               else week_label)
              = label_mark2 today s (App2.week_label s)).
  { unfold label_mark2. cbv zeta.
    destruct I as (_ & -> & _ & _ & _ & _ & _ & -> & _).
    destruct (w_start w >? today); reflexivity. }
  cbv zeta in M |- *. rewrite M. clear M.
  destruct (w_is_challenge w) eqn:C.
  - destruct L as [L|]; [|discriminate].
    destruct (graded_week_facts _ _ _ _ N C G L I) as (-> & Eg & B & R).
    rewrite Eg.
    destruct (weekly_bar_table _ B) as (p & Ep & Hp & Tp).
    rewrite R in Ep. injection Ep as <-.
    rewrite (render_gradient_bar2_drawn _ _ _ _ R Hp Tp). reflexivity.
  - destruct I as (_ & _ & _ & _ & -> & _). rewrite C. reflexivity.
Qed.

Lemma mapM_Ok {A B} (f : A -> result B) (g : A -> B) (l : list A) :
  Forall (fun x => f x = Ok (g x)) l -> mapM f l = Ok (g <$> l).
Proof.
  induction 1 as [|x l E _ IH]; [reflexivity|].
  cbn [mapM fmap list_fmap]. rewrite E. cbn [mbind result_bind bind].
  rewrite IH. reflexivity.
Qed.

Lemma schedule_weeks :
  Forall (fun w => w_goal w = (if w_is_challenge w then 5 else 0)
                   /\ (w_end w - w_start w = 6 \/ w_is_challenge w = false))
    App12.CHALLENGE_WEEKS.
Proof.
  rewrite CHALLENGE_WEEKS_eq.
  repeat (apply List.Forall_cons;
          [split; [reflexivity|first [left; reflexivity|right; reflexivity]]|]).
  apply List.Forall_nil.
Qed.

Lemma Forall2_Forall_r {A B} (R : A -> B -> Prop) (P : A -> Prop)
    (Q : B -> Prop) l k :
  (forall a b, P a -> R a b -> Q b) ->
  Forall P l -> Forall2 R l k -> Forall Q k.
Proof.
  intros H F G. induction G as [|a b l k r _ IH]; [constructor|].
  apply List.Forall_cons_iff in F as [Pa F].
  constructor; [exact (H _ _ Pa r)|exact (IH F)].
Qed.

Lemma progress_card_spec today df :
  valid_date today ->
  exists r msg,
    App12.calculate_challenge_status today df = Ok r
    /\ 0 <= total_written_challenge r < 29
    /\ App12.get_motivation_message today (total_written_challenge r) 20
       = Ok msg
    /\ App12.progress_card today df
       = Ok (drawn_bar12 (App12.total_label 20) (total_written_challenge r)
               20 (overall_completion_rate r) false,
             msg, drawn_week12 today <$> weekly_status r)
    /\ App2.progress_card today df
       = Ok (drawn_bar2 (App2.total_label 20) (total_written_challenge r)
               20 (overall_completion_rate r),
             drawn_week2 today <$> weekly_status r).
Proof.
  intros V.
  destruct (calculate_challenge_status_result today df)
    as (r & E1 & E2 & W & S & T & G & F & C & _).
  pose proof (written_days_NoDup df) as N. rewrite <- W in N.
  pose proof (graded_total_le_28 _ _ _ N F) as B. rewrite <- T in B.
  destruct (App12_get_motivation_message_returns today
              (total_written_challenge r) 20 V) as (msg & M).
  exists r, msg. split; [exact E1|]. split; [lia|]. split; [exact M|].
  change App12.TOTAL_CHALLENGE_GOAL with 20 in G. rewrite G in C.
  destruct (total_bar_table (total_written_challenge r)) as (p & Ep & Hp & Tp);
    [lia|].
  rewrite C in Ep. injection Ep as <-.
  split.
  - unfold App12.progress_card. rewrite E1. cbn [mbind result_bind bind].
    rewrite G.
    rewrite (render_gradient_bar12_drawn _ _ _ false _ C Hp Tp).
    cbn [mbind result_bind bind]. rewrite M. cbn [mbind result_bind bind].
    rewrite (mapM_Ok _ (drawn_week12 today)); [reflexivity|].
    eapply Forall2_Forall_r; [|exact schedule_weeks|exact F].
    intros w s [Hg Hl] I. eapply render_week12_drawn; eassumption.
  - unfold App2.progress_card. rewrite E2. cbn [mbind result_bind bind].
    rewrite G.
    rewrite (render_gradient_bar2_drawn _ _ _ _ C Hp Tp).
    cbn [mbind result_bind bind].
    rewrite (mapM_Ok _ (drawn_week2 today)); [reflexivity|].
    eapply Forall2_Forall_r; [|exact schedule_weeks|exact F].
    intros w s [Hg Hl] I. eapply render_week2_drawn; eassumption.
Qed.

End card_facts.

Section card_theorems.
Import Py.

Lemma Forall2_fmap_diag {A B} (R : A -> B -> Prop) (f : A -> B) l :
  Forall (fun x => R x (f x)) l -> Forall2 R l (f <$> l).
Proof.
  induction 1; cbn [fmap list_fmap]; [apply List.Forall2_nil|].
  apply List.Forall2_cons; assumption.
Qed.

(** Every status of the result with the week of the schedule it records. *)
Lemma statuses_of_schedule today df r :
  App12.calculate_challenge_status today df = Ok r ->
  Forall (fun s => exists w,
            iteration_result (written_dates r) today w s
            /\ w_goal w = (if w_is_challenge w then 5 else 0)
            /\ (w_end w - w_start w = 6 \/ w_is_challenge w = false)
            /\ w_start w <= w_end w)
    (weekly_status r)
  /\ NoDup (written_dates r).
Proof.
  intros E.
  destruct (calculate_challenge_status_result today df)
    as (r' & E1 & _ & W & _ & _ & _ & F & _).
  rewrite E in E1. injection E1 as <-.
  pose proof (written_days_NoDup df) as N. rewrite <- W in N.
  split; [|exact N].
  eapply Forall2_Forall_r; [| |exact F].
  - intros w s P I. exists w. split; [exact I|exact P].
  - rewrite CHALLENGE_WEEKS_eq.
    repeat (apply List.Forall_cons;
            [split; [reflexivity|];
             split; [first [left; reflexivity|right; reflexivity]|cbn; lia]|]).
    apply List.Forall_nil.
Qed.

(** X6: the progress card never divides by zero.  render_gradient_bar
    divides by its max_value without a test and raises ZeroDivisionError
    when it is 0; the participant's view calls it for the total, whose goal
    is 20, and for the graded weeks only, and draws the bonus week, whose
    goal is 0, as text.  Each bar's width is the rate that
    calculate_challenge_status reported. *)
Theorem progress_card_never_divides_by_zero today df :
  valid_date today ->
  (forall label value c cur,
     App12.render_gradient_bar label value 0 c cur = Raise ZeroDivisionError)
  /\ (forall label value,
        App2.render_gradient_bar label value 0 = Raise ZeroDivisionError)
  /\ exists r total12 msg weeks12 total2 weeks2,
       App12.calculate_challenge_status today df = Ok r
       /\ App12.progress_card today df = Ok (total12, msg, weeks12)
       /\ App2.progress_card today df = Ok (total2, weeks2)
       /\ b_percentage total12 = overall_completion_rate r
       /\ b_percentage total2 = overall_completion_rate r
       /\ Forall2 shows_rate (weekly_status r) weeks12
       /\ Forall2 shows_rate (weekly_status r) weeks2.
Proof.
  intros V. split; [reflexivity|]. split; [reflexivity|].
  destruct (progress_card_spec today df V) as (r & msg & E & _ & _ & C1 & C2).
  destruct (statuses_of_schedule _ _ _ E) as [S N].
  eexists r, _, msg, _, _, _. split; [exact E|].
  split; [exact C1|]. split; [exact C2|].
  split; [reflexivity|]. split; [reflexivity|].
  split; apply Forall2_fmap_diag; (eapply Forall_impl; [exact S|]);
    intros s (w & I & G & L & _);
    pose proof I as (_ & _ & _ & Eg & Ec & _ & _ & _ & R);
    unfold drawn_week12, drawn_week2, shows_rate; rewrite Ec, Eg, G;
    destruct (w_is_challenge w); cbn; auto with lia.
Qed.

Lemma progress_card_never_divides_by_zero_witness :
  valid_date (date 2025 12 17)
  /\ exists r total12 msg weeks12,
       App12.calculate_challenge_status (date 2025 12 17) scenario_df = Ok r
       /\ App12.progress_card (date 2025 12 17) scenario_df
          = Ok (total12, msg, weeks12)
       /\ Forall2 shows_rate (weekly_status r) weeks12.
Proof.
  assert (V : valid_date (date 2025 12 17)).
  { change (1 <= 739602 <= 3652059). lia. }
  split; [exact V|].
  destruct (progress_card_never_divides_by_zero (date 2025 12 17) scenario_df V)
    as (_ & _ & r & total12 & msg & weeks12 & _ & _ & E & C & _ & _ & _ & F & _).
  exists r, total12, msg, weeks12. auto.
Defined.

Lemma styles_distinct :
  success_style12 <> current_style12 /\ success_style12 <> plain_style12
  /\ current_style12 <> plain_style12 /\ success_style2 <> plain_style2.
Proof. repeat split; discriminate. Qed.

Lemma drawn_bar12_styled label written goal rate cur :
  styled12 written goal cur (drawn_bar12 label written goal rate cur).
Proof.
  destruct styles_distinct as (D1 & D2 & D3 & _).
  unfold styled12, drawn_bar12. cbn [b_style].
  destruct (Z.leb_spec goal written); [|destruct cur];
    repeat split; intros; try lia; try congruence;
    try (exfalso; intuition congruence); intuition (try lia; try congruence).
Qed.

Lemma drawn_bar2_styled label written goal rate :
  styled2 written goal (drawn_bar2 label written goal rate).
Proof.
  destruct styles_distinct as (_ & _ & _ & D).
  unfold styled2, drawn_bar2. cbn [b_style].
  destruct (Z.leb_spec goal written);
    repeat split; intros; try lia; try congruence.
Qed.

(** X7: the style of a bar tells whether the goal is reached.  The code
    decides it by comparing the float percentage with 100; on every frame
    and date this is the comparison of the written days with the goal: the
    bar of a graded week has the success style exactly when the week has 5
    written days or more, the bar of the total exactly from 20 on; app12.py
    gives the accent style to the current week below its goal and never to
    the total. *)
Theorem bar_style_tells_goal_reached today df :
  valid_date today ->
  exists r total12 msg weeks12 total2 weeks2,
    App12.calculate_challenge_status today df = Ok r
    /\ App12.progress_card today df = Ok (total12, msg, weeks12)
    /\ App2.progress_card today df = Ok (total2, weeks2)
    /\ styled12 (total_written_challenge r) 20 false total12
    /\ styled2 (total_written_challenge r) 20 total2
    /\ Forall2 (fun s blk => forall b, bar_of blk = Some b ->
                  styled12 (s_written s) (s_goal s) (s_is_current s) b)
         (weekly_status r) weeks12
    /\ Forall2 (fun s blk => forall b, bar_of blk = Some b ->
                  styled2 (s_written s) (s_goal s) b)
         (weekly_status r) weeks2.
Proof.
  intros V.
  destruct (progress_card_spec today df V) as (r & msg & E & _ & _ & C1 & C2).
  destruct (statuses_of_schedule _ _ _ E) as [S N].
  eexists r, _, msg, _, _, _. split; [exact E|].
  split; [exact C1|]. split; [exact C2|].
  split; [apply drawn_bar12_styled|]. split; [apply drawn_bar2_styled|].
  split; apply Forall2_fmap_diag; (eapply Forall_impl; [exact S|]);
    intros s (w & I & G & L & _) b;
    pose proof I as (_ & _ & _ & Eg & Ec & _ & _ & _ & R);
    unfold drawn_week12, drawn_week2; rewrite Ec, Eg, G;
    (destruct (w_is_challenge w); cbn [bar_of]; [|discriminate]);
    intros [= <-]; [apply drawn_bar12_styled|apply drawn_bar2_styled].
Qed.

Lemma bar_style_tells_goal_reached_witness :
  valid_date (date 2025 12 17)
  /\ exists r total12 msg weeks12,
       App12.calculate_challenge_status (date 2025 12 17) scenario_df = Ok r
       /\ App12.progress_card (date 2025 12 17) scenario_df
          = Ok (total12, msg, weeks12)
       /\ styled12 (total_written_challenge r) 20 false total12.
Proof.
  assert (V : valid_date (date 2025 12 17)).
  { change (1 <= 739602 <= 3652059). lia. }
  split; [exact V|].
  destruct (bar_style_tells_goal_reached (date 2025 12 17) scenario_df V)
    as (r & total12 & msg & weeks12 & _ & _ & E & C & _ & T & _).
  exists r, total12, msg, weeks12. auto.
Defined.

Lemma status_flags wd today w s :
  w_start w <= w_end w -> iteration_result wd today w s ->
  (s_start s >? today) = bool_decide (today < s_start s)
  /\ s_is_current s = bool_decide (s_start s <= today <= s_end s).
Proof.
  intros O (_ & -> & -> & _ & _ & _ & _ & -> & _).
  destruct (Z.gtb_spec (w_start w) today).
  - rewrite bool_decide_eq_true_2, bool_decide_eq_false_2 by lia. auto.
  - rewrite bool_decide_eq_false_2 by lia. split; [reflexivity|].
    destruct (Z.ltb_spec (w_end w) today).
    + rewrite andb_false_r, bool_decide_eq_false_2 by lia. reflexivity.
    + rewrite bool_decide_eq_true_2 by lia.
      rewrite (proj2 (Z.leb_le _ _)), (proj2 (Z.leb_le _ _)) by lia.
      reflexivity.
Qed.

Lemma label_mark12_marked wd today w s label :
  w_start w <= w_end w -> iteration_result wd today w s ->
  label_mark12 today s label = marked today s "**" "**" label.
Proof.
  intros O I. destruct (status_flags _ _ _ _ O I) as [F C].
  unfold label_mark12, marked. rewrite F, C.
  assert (s_start s <= s_end s)
    by (destruct I as (_ & -> & -> & _); exact O).
  repeat case_bool_decide; repeat case_decide; try lia; reflexivity.
Qed.

Lemma label_mark2_marked wd today w s label :
  w_start w <= w_end w -> iteration_result wd today w s ->
  label_mark2 today s label = marked today s "" "" label.
Proof.
  intros O I. destruct (status_flags _ _ _ _ O I) as [F C].
  unfold label_mark2, marked. rewrite F, C.
  assert (s_start s <= s_end s)
    by (destruct I as (_ & -> & -> & _); exact O).
  repeat case_bool_decide; repeat case_decide; try lia; reflexivity.
Qed.

(** X8: the progress card prints every percentage exactly.  The text of a
    bar and the rate of the header are the float rate formatted with one
    decimal; on every frame and date this is the integer percentage
    100 * written / goal, capped at 100, followed by [.0]: the rounding
    error of the rate of 11 days out of 20, the float 55.00000000000001,
    is not printed. *)
Theorem printed_percentages_are_exact today df :
  valid_date today ->
  exists r total12 msg weeks12 total2 weeks2,
    App12.calculate_challenge_status today df = Ok r
    /\ App12.progress_card today df = Ok (total12, msg, weeks12)
    /\ App2.progress_card today df = Ok (total2, weeks2)
    /\ App12.overall_rate_text today df
       = Ok (exact_percent (total_written_challenge r) 20 +:+ "%")
    /\ App2.overall_rate_text today df
       = Ok (exact_percent (total_written_challenge r) 20 +:+ "%")
    /\ b_text total12 = bar_text (total_written_challenge r) 20
    /\ b_text total2 = bar_text (total_written_challenge r) 20
    /\ Forall2 (fun s blk => forall b, bar_of blk = Some b ->
                  b_text b = bar_text (s_written s) (s_goal s))
         (weekly_status r) weeks12
    /\ Forall2 (fun s blk => forall b, bar_of blk = Some b ->
                  b_text b = bar_text (s_written s) (s_goal s))
         (weekly_status r) weeks2
    /\ (total_written_challenge r = 11 ->
        overall_completion_rate r
        = Float (S754_finite false 7740561859543041 (-47))
        /\ App12.overall_rate_text today df = Ok "55.0%").
Proof.
  intros V.
  destruct (progress_card_spec today df V) as (r & msg & E & B & _ & C1 & C2).
  destruct (statuses_of_schedule _ _ _ E) as [S N].
  destruct (calculate_challenge_status_result today df)
    as (r' & E1 & E2 & _ & _ & _ & G & _ & C & _).
  rewrite E in E1. injection E1 as <-.
  change App12.TOTAL_CHALLENGE_GOAL with 20 in G. rewrite G in C.
  destruct (total_bar_table _ B) as (p & Ep & _ & Tp).
  rewrite C in Ep. injection Ep as <-.
  assert (T : App12.overall_rate_text today df
              = Ok (exact_percent (total_written_challenge r) 20 +:+ "%")).
  { unfold App12.overall_rate_text. rewrite E. cbn [mbind result_bind bind].
    rewrite Tp. reflexivity. }
  eexists r, _, msg, _, _, _. split; [exact E|].
  split; [exact C1|]. split; [exact C2|]. split; [exact T|].
  split; [exact T|]. split; [reflexivity|]. split; [reflexivity|].
  split; [|split];
    [apply Forall2_fmap_diag; (eapply Forall_impl; [exact S|]);
     intros s (w & I & Gw & L & _) b;
     pose proof I as (_ & _ & _ & Eg & Ec & _);
     unfold drawn_week12, drawn_week2; rewrite Ec;
     (destruct (w_is_challenge w); cbn [bar_of]; [|discriminate]);
     intros [= <-]; reflexivity..|].
  intros T11. rewrite T, T11. split; [|reflexivity].
  rewrite T11 in C. revert C. generalize (overall_completion_rate r).
  intros rate C. vm_compute in C. injection C as <-. reflexivity.
Qed.

Lemma printed_percentages_are_exact_witness :
  valid_date (date 2025 12 17)
  /\ exists r,
       App12.calculate_challenge_status (date 2025 12 17) scenario_df = Ok r
       /\ App12.overall_rate_text (date 2025 12 17) scenario_df
          = Ok (exact_percent (total_written_challenge r) 20 +:+ "%").
Proof.
  assert (V : valid_date (date 2025 12 17)).
  { change (1 <= 739602 <= 3652059). lia. }
  split; [exact V|].
  destruct (printed_percentages_are_exact (date 2025 12 17) scenario_df V)
    as (r & _ & _ & _ & _ & _ & E & _ & _ & T & _).
  exists r. auto.
Defined.

(** X9: the mark of a week's label follows today's date.  A bar's label
    ends in the mark of a coming week before the week starts, carries the
    mark of the current week from its first to its last day and no mark
    afterwards; app2.py adds the two marks by two separate tests, which
    never both hold.  The variants differ on the bonus week: app2.py marks
    its line of text like a bar's label, app12.py never marks it, and
    app12.py sets the label of the current week in bold. *)
Theorem week_labels_follow_the_date today df :
  valid_date today ->
  exists r total12 msg weeks12 total2 weeks2,
    App12.calculate_challenge_status today df = Ok r
    /\ App12.progress_card today df = Ok (total12, msg, weeks12)
    /\ App2.progress_card today df = Ok (total2, weeks2)
    /\ Forall2 (labelled12 today) (weekly_status r) weeks12
    /\ Forall2 (labelled2 today) (weekly_status r) weeks2.
Proof.
  intros V.
  destruct (progress_card_spec today df V) as (r & msg & E & _ & _ & C1 & C2).
  destruct (statuses_of_schedule _ _ _ E) as [S N].
  eexists r, _, msg, _, _, _. split; [exact E|].
  split; [exact C1|]. split; [exact C2|].
  split; apply Forall2_fmap_diag; (eapply Forall_impl; [exact S|]);
    intros s (w & I & _ & _ & O);
    unfold drawn_week12, drawn_week2, labelled12, labelled2;
    destruct (s_is_challenge s); cbn [drawn_bar12 drawn_bar2 b_label];
    first [reflexivity
          |eapply label_mark12_marked; eassumption
          |erewrite label_mark2_marked by eassumption; reflexivity].
Qed.

Lemma week_labels_follow_the_date_witness :
  valid_date (date 2025 12 17)
  /\ exists r weeks2,
       App12.calculate_challenge_status (date 2025 12 17) scenario_df = Ok r
       /\ Forall2 (labelled2 (date 2025 12 17)) (weekly_status r) weeks2.
Proof.
  assert (V : valid_date (date 2025 12 17)).
  { change (1 <= 739602 <= 3652059). lia. }
  split; [exact V|].
  destruct (week_labels_follow_the_date (date 2025 12 17) scenario_df V)
    as (r & _ & _ & _ & _ & weeks2 & E & _ & _ & _ & L).
  exists r, weeks2. auto.
Defined.

End card_theorems.

(** ** The calendar *)

Section calendar_facts.
Import Py.

Lemma strftime_ymd_window_inj a b :
  739588 <= a <= 739620 -> 739588 <= b <= 739620 ->
  strftime_ymd a = strftime_ymd b -> a = b.
Proof.
  intros Ha Hb E.
  assert (T : distinct_day_texts (seqZ 739588 33) = true)
    by (vm_compute; reflexivity).
  unfold distinct_day_texts in T. rewrite forallb_forall in T.
  specialize (T a). rewrite forallb_forall in T.
  specialize (T ltac:(apply list_elem_of_In, elem_of_seqZ; lia) b
                ltac:(apply list_elem_of_In, elem_of_seqZ; lia)).
  rewrite bool_decide_eq_true_2 in T by exact E.
  apply Z.eqb_eq, T.
Qed.

Lemma written_text_test (W : gset Z) d :
  (forall x, x ∈ W -> 739588 <= x <= 739620) -> 739588 <= d <= 739620 ->
  bool_decide (strftime_ymd d ∈ strftime_ymd <$> elements W)
  = bool_decide (d ∈ W).
Proof.
  intros HW Hd. apply bool_decide_ext. rewrite list_elem_of_fmap. split.
  - intros (x & E & Hx). apply elem_of_elements in Hx.
    rewrite (strftime_ymd_window_inj d x Hd (HW x Hx) E). exact Hx.
  - intros Hx. exists d. split; [reflexivity|]. apply elem_of_elements, Hx.
Qed.

Lemma day_contents_elem d df c :
  c ∈ App12.day_contents d df
  <-> c <> [] /\ exists text, (d, text) ∈ df /\ c = strip text.
Proof.
  unfold App12.day_contents, Pd.texts_on.
  rewrite list_elem_of_filter, list_elem_of_fmap.
  setoid_rewrite list_elem_of_fmap. setoid_rewrite list_elem_of_filter.
  split.
  - intros (Hn & text & -> & [d' t] & -> & <- & Hin).
    split; [intros Hc; rewrite Hc in Hn; discriminate|].
    exists t. auto.
  - intros (Hn & text & Hin & ->). split; [destruct (strip text); [congruence|reflexivity]|].
    exists text. split; [reflexivity|]. exists (d, text). auto.
Qed.

Lemma day_contents_written today df r d :
  App12.calculate_challenge_status today df = Ok r ->
  (d ∈ written_dates_set r
   <-> 739588 <= d <= 739620 /\ App12.day_contents d df <> []).
Proof.
  intros E.
  destruct (calculate_challenge_status_result today df)
    as (r' & E1 & _ & W & S & _).
  rewrite E in E1. injection E1 as <-.
  rewrite S, W, elem_of_list_to_set, written_days_elem.
  rewrite CHALLENGE_START_DATE_eq, CHALLENGE_END_DATE_eq.
  apply and_iff_compat_l. split.
  - intros (s & Hin & Hn) Hc.
    assert (M : strip s ∈ App12.day_contents d df).
    { apply day_contents_elem.
      split; [intros Hs; rewrite Hs in Hn; discriminate|].
      exists s. auto. }
    rewrite Hc in M. apply elem_of_nil in M. exact M.
  - intros Hc. destruct (App12.day_contents d df) as [|c l] eqn:D;
      [congruence|].
    assert (M : c ∈ App12.day_contents d df) by (rewrite D; left).
    apply day_contents_elem in M as (Hn & text & Hin & ->).
    exists text. split; [exact Hin|].
    destruct (strip text); [congruence|reflexivity].
Qed.

Lemma fold_insert_other {V} (key : Z -> string) (val : Z -> V) l
    (m0 : gmap string V) k :
  (forall x, x ∈ l -> key x <> k) ->
  fold_left (fun m x => <[key x := val x]> m) l m0 !! k = m0 !! k.
Proof.
  revert m0. induction l as [|x l IH]; intros m0 H; [reflexivity|].
  cbn [fold_left]. rewrite IH by (intros y Hy; apply H; right; exact Hy).
  apply lookup_insert_ne, H. left.
Qed.

Lemma fold_insert_lookup {V} (key : Z -> string) (val : Z -> V) l
    (m0 : gmap string V) d :
  (forall a b, a ∈ l -> b ∈ l -> key a = key b -> a = b) -> d ∈ l ->
  fold_left (fun m x => <[key x := val x]> m) l m0 !! key d = Some (val d).
Proof.
  revert m0. induction l as [|x l IH]; intros m0 I Hd.
  - apply elem_of_nil in Hd. contradiction.
  - cbn [fold_left]. destruct (decide (d ∈ l)) as [Hl|Hl].
    + apply IH; [|exact Hl]. intros a b Ha Hb. apply I; right; assumption.
    + apply elem_of_cons in Hd as [->|Hd]; [|contradiction].
      rewrite fold_insert_other; [apply lookup_insert_eq|].
      intros y Hy E. apply Hl.
      rewrite <- (I y x ltac:(right; exact Hy) ltac:(left) E). exact Hy.
Qed.

Lemma fold_insert_keys {V} (key : Z -> string) (val : Z -> V) l
    (m0 : gmap string V) k :
  is_Some (fold_left (fun m x => <[key x := val x]> m) l m0 !! k) ->
  is_Some (m0 !! k) \/ exists x, x ∈ l /\ k = key x.
Proof.
  revert m0. induction l as [|x l IH]; intros m0 H; [left; exact H|].
  cbn [fold_left] in H. apply IH in H as [H|(y & Hy & ->)].
  - destruct (decide (key x = k)) as [<-|N].
    + right. exists x. split; [left|reflexivity].
    + rewrite lookup_insert_ne in H by exact N. left. exact H.
  - right. exists y. split; [right; exact Hy|reflexivity].
Qed.

Lemma calendar_data_lookup W df d :
  739588 <= d <= 739620 ->
  App12.calendar_data W df !! strftime_ymd d
  = Some {| dd_is_written := bool_decide (d ∈ W);
            dd_contents := App12.day_contents d df |}.
Proof.
  intros Hd. unfold App12.calendar_data, Pd.date_range.
  rewrite CHALLENGE_START_DATE_eq, CHALLENGE_END_DATE_eq.
  apply (fold_insert_lookup strftime_ymd
           (fun day_date =>
              {| dd_is_written := bool_decide (day_date ∈ W);
                 dd_contents := App12.day_contents day_date df |})).
  - intros a b Ha Hb. apply elem_of_seqZ in Ha, Hb.
    apply strftime_ymd_window_inj; lia.
  - apply elem_of_seqZ. lia.
Qed.

Lemma calendar_data_keys W df k :
  is_Some (App12.calendar_data W df !! k) ->
  exists d, 739588 <= d <= 739620 /\ k = strftime_ymd d.
Proof.
  unfold App12.calendar_data, Pd.date_range.
  rewrite CHALLENGE_START_DATE_eq, CHALLENGE_END_DATE_eq.
  intros H.
  apply (fold_insert_keys strftime_ymd
           (fun day_date =>
              {| dd_is_written := bool_decide (day_date ∈ W);
                 dd_contents := App12.day_contents day_date df |}))
    in H as [H|(x & Hx & ->)].
  - rewrite lookup_empty in H. destruct H as [? H]. discriminate H.
  - exists x. apply elem_of_seqZ in Hx. split; [lia|reflexivity].
Qed.

Lemma calendar_cell_is_day W today df d :
  is_day_cell (App12.calendar_cell W today df d) = true.
Proof.
  unfold App12.calendar_cell.
  destruct (d <? today); [reflexivity|]. destruct (d =? today); reflexivity.
Qed.

Lemma row_scan_app k l1 l2 :
  row_scan k (l1 ++ l2) = row_scan k l1 ≫= fun k' => row_scan k' l2.
Proof.
  revert k. induction l1 as [|c l1 IH]; intros k; [reflexivity|].
  destruct c; cbn [app row_scan]; try apply IH.
  destruct (k =? 7)%nat; [apply IH|reflexivity].
Qed.

Lemma row_scan_empty k n :
  row_scan k (replicate n empty_cell) = Some (k + n)%nat.
Proof.
  revert k. induction n as [|n IH]; intros k; cbn [replicate row_scan].
  - f_equal. lia.
  - rewrite IH. f_equal. lia.
Qed.

Lemma calendar_while_scan W today df sw end_date n :
  0 <= sw < 7 -> end_date < MAXORDINAL ->
  forall fuel html cd dc,
    (n < fuel)%nat -> 0 < cd -> Z.of_nat n = end_date - cd + 1 ->
    exists L,
      App12.calendar_while fuel W today df sw end_date html cd dc
      = Some (Ok (html ++ L, dc + Z.of_nat n))
      /\ day_cells L = App12.calendar_cell W today df <$> seqZ cd (Z.of_nat n)
      /\ forall k, open_row sw dc k ->
           exists k', row_scan k L = Some k'
                      /\ (open_row sw (dc + Z.of_nat n) k').
Proof.
  intros Hsw Hend. induction n as [|n IH]; intros fuel html cd dc Hf Hcd Hn.
  - destruct fuel as [|fuel]; [lia|]. exists [].
    cbn [App12.calendar_while].
    replace (cd <=? end_date) with false by (symmetry; apply Z.leb_gt; lia).
    rewrite app_nil_r, Z.add_0_r. split; [reflexivity|].
    split; [reflexivity|]. intros k Hk. exists k. split; [reflexivity|].
    exact Hk.
  - destruct fuel as [|fuel]; [lia|].
    cbn [App12.calendar_while].
    replace (cd <=? end_date) with true by (symmetry; apply Z.leb_le; lia).
    unfold date_add_days.
    replace ((0 <? cd + 1) && (cd + 1 <=? MAXORDINAL)) with true
      by (symmetry; apply andb_true_intro; split;
          [apply Z.ltb_lt|apply Z.leb_le]; lia).
    set (brk := (dc mod 7 =? 0) && (dc >? sw)).
    assert (Hc : forall j, row_scan j [App12.calendar_cell W today df cd]
                           = Some (Datatypes.S j)).
    { intros j. unfold App12.calendar_cell.
      destruct (cd <? today); [reflexivity|].
      destruct (cd =? today); reflexivity. }
    pose proof (calendar_cell_is_day W today df cd) as Hday.
    remember (App12.calendar_cell W today df cd) as c eqn:Heqc.
    destruct (IH fuel ((if brk then html ++ [row_break] else html) ++ [c])
                (cd + 1) (dc + 1)) as (L & E & D & Sc); [lia|lia|lia|].
    exists ((if brk then [row_break] else []) ++ c :: L).
    split; [|split].
    + rewrite E. do 2 f_equal. f_equal.
      * destruct brk; rewrite <- ?app_assoc; reflexivity.
      * lia.
    + replace (Z.of_nat (Datatypes.S n)) with (Z.succ (Z.of_nat n)) by lia.
      rewrite seqZ_cons by lia. rewrite Z.pred_succ. cbn [fmap list_fmap].
      rewrite <- Heqc. unfold day_cells in *.
      assert (F : filter (fun c => is_day_cell c = true)
                    (if brk then [row_break] else []) = []).
      { destruct brk; [|reflexivity].
        rewrite filter_cons_False by discriminate. reflexivity. }
      rewrite filter_app, F, app_nil_l.
      rewrite filter_cons_True by exact Hday.
      rewrite D. reflexivity.
    + intros k Hk.
      assert (C : exists k1, row_scan k ((if brk then [row_break] else []) ++ [c])
                             = Some k1 /\ open_row sw (dc + 1) k1).
      { rewrite row_scan_app. subst brk.
        destruct Hk as [[-> Hk]|[Hlt Hk]].
        - replace (sw >? sw) with false
            by (symmetry; rewrite Z.gtb_ltb; apply Z.ltb_irrefl).
          rewrite andb_false_r. change (row_scan k []) with (Some k).
          cbn [mbind option_bind]. rewrite Hc.
          eexists. split; [reflexivity|].
          right. split; [lia|].
          replace (sw + 1 - 1) with sw by lia.
          rewrite Z.mod_small by lia. lia.
        - replace (dc >? sw) with true by (symmetry; apply Z.gtb_lt; lia).
          rewrite andb_true_r.
          destruct (Z.eqb_spec (dc mod 7) 0) as [Z0|Z0].
          + assert (K : k = 7%nat).
            { revert Hk Z0. Z.div_mod_to_equations. lia. }
            subst k. change (row_scan 7 [row_break]) with (Some 0%nat).
            cbn [mbind option_bind]. rewrite Hc.
            eexists. split; [reflexivity|].
            right. split; [lia|].
            replace (dc + 1 - 1) with dc by lia. rewrite Z0. reflexivity.
          + change (row_scan k []) with (Some k).
            cbn [mbind option_bind]. rewrite Hc.
            eexists. split; [reflexivity|]. right. split; [lia|].
            replace (dc + 1 - 1) with dc by lia.
            revert Hk Z0. Z.div_mod_to_equations. lia. }
      destruct C as (k1 & C1 & C2). destruct (Sc k1 C2) as (k' & S1 & S2).
      exists k'. split.
      * change (c :: L) with ([c] ++ L). rewrite app_assoc, row_scan_app, C1.
        exact S1.
      * replace (dc + Z.of_nat (Datatypes.S n)) with (dc + 1 + Z.of_nat n)
          by lia. exact S2.
Qed.

Lemma row_scan_rows k html :
  row_scan k html = Some 7%nat ->
  exists r rs, rows html = r :: rs /\ (k + length r = 7)%nat
               /\ Forall (fun r => length r = 7%nat) rs.
Proof.
  revert k. induction html as [|c html IH]; intros k H.
  - injection H as ->. exists [], []. repeat split. apply List.Forall_nil.
  - destruct c; cbn [row_scan] in H.
    + apply IH in H as (r & rs & E & L & F). exists (empty_cell :: r), rs.
      cbn [rows]. rewrite E. repeat split; [cbn [length]; lia|exact F].
    + destruct (Nat.eqb_spec k 7) as [K|]; [|discriminate].
      apply IH in H as (r & rs & E & L & F). exists [], (r :: rs).
      cbn [rows]. rewrite E. repeat split; [cbn [length]; lia|].
      apply List.Forall_cons; [exact L|exact F].
    + apply IH in H as (r & rs & E & L & F).
      eexists (_ :: r), rs.
      cbn [rows]. rewrite E. repeat split; [cbn [length]; lia|exact F].
Qed.

Lemma day_cells_empty n : day_cells (replicate n empty_cell) = [].
Proof.
  induction n as [|n IH]; [reflexivity|]. cbn [replicate]. unfold day_cells.
  rewrite filter_cons_False by discriminate. exact IH.
Qed.

Lemma calendar_table_scan W today df start_date end_date :
  valid_date start_date -> start_date <= end_date < MAXORDINAL ->
  exists html,
    App12.calendar_table W today df start_date end_date = Some (Ok html)
    /\ row_scan 0 html = Some 7%nat
    /\ day_cells html
       = App12.calendar_cell W today df <$> Pd.date_range start_date end_date.
Proof.
  intros [V _] O. unfold MINORDINAL in V. unfold App12.calendar_table.
  set (sw := (weekday start_date + 1) mod 7).
  assert (Hsw : 0 <= sw < 7) by (apply Z.mod_pos_bound; lia).
  set (n := Z.to_nat (end_date - start_date + 1)).
  destruct (calendar_while_scan W today df sw end_date n Hsw (proj2 O)
              (S n) (replicate (Z.to_nat sw) empty_cell) start_date sw)
    as (L & E & D & Sc); [lia|lia|lia|].
  cbv zeta. rewrite E.
  destruct (Sc (Z.to_nat sw)) as (k' & S1 & [[S2 _]|[_ S2]]);
    [left; lia|lia|].
  set (dc := sw + Z.of_nat n) in *.
  assert (R : row_scan 0 (replicate (Z.to_nat sw) empty_cell ++ L) = Some k').
  { rewrite row_scan_app, row_scan_empty. exact S1. }
  assert (Dd : day_cells (replicate (Z.to_nat sw) empty_cell ++ L)
               = App12.calendar_cell W today df
                 <$> Pd.date_range start_date end_date).
  { unfold day_cells in *. rewrite filter_app.
    fold (day_cells (replicate (Z.to_nat sw) empty_cell)).
    rewrite day_cells_empty, app_nil_l, D. unfold Pd.date_range.
    do 2 f_equal. lia. }
  destruct (Z.ltb_spec (7 - dc mod 7) 7) as [P|P].
  - eexists. split; [reflexivity|]. split.
    + rewrite row_scan_app, R. cbn [mbind option_bind].
      rewrite row_scan_empty. f_equal.
      revert S2 P. Z.div_mod_to_equations. lia.
    + unfold day_cells in *. rewrite filter_app.
      fold (day_cells (replicate (Z.to_nat (7 - dc mod 7)) empty_cell)).
      rewrite day_cells_empty, app_nil_r. exact Dd.
  - eexists. split; [reflexivity|]. split; [|exact Dd].
    rewrite R. f_equal. revert S2 P. Z.div_mod_to_equations. lia.
Qed.

Lemma calendar_variants_agree :
  App2.calendar_data = App12.calendar_data
  /\ App2.calendar_cell = App12.calendar_cell
  /\ App2.calendar_table = App12.calendar_table
  /\ App2.is_written_today = App12.is_written_today
  /\ App2.CHALLENGE_START_DATE = App12.CHALLENGE_START_DATE
  /\ App2.CHALLENGE_END_DATE = App12.CHALLENGE_END_DATE.
Proof. repeat split; reflexivity. Qed.

Lemma render_table_calendar_variants_agree W today df :
  App2.render_table_calendar W today df
  = App12.render_table_calendar W today df.
Proof.
  destruct calendar_variants_agree as (D & _ & T & _ & S & E).
  unfold App2.render_table_calendar, App12.render_table_calendar.
  rewrite D, T, S, E. reflexivity.
Qed.

Lemma render_table_calendar_returns W today df :
  exists html,
    App12.render_table_calendar W today df
    = Some (Ok (App12.calendar_data W df, html))
    /\ App12.calendar_table W today df App12.CHALLENGE_START_DATE
         App12.CHALLENGE_END_DATE = Some (Ok html).
Proof.
  destruct (calendar_table_scan W today df App12.CHALLENGE_START_DATE
              App12.CHALLENGE_END_DATE) as (html & E & _).
  - rewrite CHALLENGE_START_DATE_eq. unfold valid_date, MINORDINAL, MAXORDINAL.
    lia.
  - rewrite CHALLENGE_START_DATE_eq, CHALLENGE_END_DATE_eq.
    unfold MAXORDINAL. lia.
  - exists html. unfold App12.render_table_calendar. rewrite E. auto.
Qed.

(** X10: the data of the pop-up agree with the written days.  For the
    set of written days that calculate_challenge_status returns,
    render_table_calendar returns, and its dictionary has exactly one key
    per day of the window; a day's flag is_written is set exactly when its
    list of contents is not empty, so the two tests of the pop-up's script
    always agree; the contents are the stripped texts of the day's rows
    that are not blank, in the order of the sheet. *)
Theorem calendar_data_agrees_with_the_written_days today df :
  exists r html,
    App12.calculate_challenge_status today df = Ok r
    /\ App12.render_table_calendar (written_dates_set r) today df
       = Some (Ok (App12.calendar_data (written_dates_set r) df, html))
    /\ App2.render_table_calendar (written_dates_set r) today df
       = Some (Ok (App12.calendar_data (written_dates_set r) df, html))
    /\ (forall d,
          App12.CHALLENGE_START_DATE <= d <= App12.CHALLENGE_END_DATE ->
          App12.calendar_data (written_dates_set r) df !! strftime_ymd d
          = Some {| dd_is_written :=
                      bool_decide (App12.day_contents d df <> []);
                    dd_contents := App12.day_contents d df |})
    /\ (forall key,
          is_Some (App12.calendar_data (written_dates_set r) df !! key) ->
          exists d,
            App12.CHALLENGE_START_DATE <= d <= App12.CHALLENGE_END_DATE
            /\ key = strftime_ymd d)
    /\ (forall d,
          App12.day_contents d df
          = filter (fun c => c <> [])
              (strip <$> (snd <$> filter (fun row => row.1 = d) df))).
Proof.
  destruct (calculate_challenge_status_result today df) as (r & E & _).
  destruct (render_table_calendar_returns (written_dates_set r) today df)
    as (html & R & _).
  exists r, html. split; [exact E|]. split; [exact R|].
  split; [rewrite render_table_calendar_variants_agree; exact R|].
  rewrite CHALLENGE_START_DATE_eq, CHALLENGE_END_DATE_eq.
  split; [|split].
  - intros d Hd. rewrite calendar_data_lookup by exact Hd. do 2 f_equal.
    apply bool_decide_ext. rewrite (day_contents_written today df r d E).
    tauto.
  - apply calendar_data_keys.
  - intros d. unfold App12.day_contents, Pd.texts_on. apply list_filter_iff.
    intros c. destruct c; [split; [discriminate|congruence]|].
    split; [discriminate|reflexivity].
Qed.

(** X11: what the cell of a day shows.  For the set of written days that
    calculate_challenge_status returns and a day of the window, the cell
    is marked future exactly after today, complete exactly for a written
    day up to today, missed exactly for an unwritten day before today and
    encourage exactly for today unwritten; it opens the pop-up exactly up
    to today.  A written day always shows its first entry, cut to ten
    characters between quotes when it is longer, so the label of a
    completed day is never shown, and a written day after today shows its
    entry in a cell that cannot be opened. *)
Theorem calendar_cell_shows_the_first_entry today df d :
  App12.CHALLENGE_START_DATE <= d <= App12.CHALLENGE_END_DATE ->
  exists r cls content,
    App12.calculate_challenge_status today df = Ok r
    /\ App12.calendar_cell (written_dates_set r) today df d
       = day_cell cls (strftime_ymd d)
           (if d <=? today then "showModal('" +:+ strftime_ymd d +:+ "');"
            else "")
           (day_of d) content
    /\ App2.calendar_cell (written_dates_set r) today df d
       = App12.calendar_cell (written_dates_set r) today df d
    /\ (cls = "future" <-> today < d)
    /\ (cls = "complete" <-> d <= today /\ d ∈ written_dates_set r)
    /\ (cls = "missed" <-> d < today /\ d ∉ written_dates_set r)
    /\ (cls = "encourage" <-> d = today /\ d ∉ written_dates_set r)
    /\ (d ∈ written_dates_set r ->
        exists first rest,
          App12.day_contents d df = first :: rest
          /\ content = preview first)
    /\ (d ∉ written_dates_set r ->
        content = if d <? today then lit "미작성"
                  else if d =? today then lit "오늘의 메모"
                  else []).
Proof.
  rewrite CHALLENGE_START_DATE_eq, CHALLENGE_END_DATE_eq. intros Hd.
  destruct (calculate_challenge_status_result today df) as (r & E & _).
  pose proof (day_contents_written today df r) as DW.
  assert (T : bool_decide (strftime_ymd d
                           ∈ strftime_ymd <$> elements (written_dates_set r))
              = bool_decide (d ∈ written_dates_set r)).
  { apply written_text_test; [|exact Hd]. intros x Hx.
    apply (DW x E) in Hx. tauto. }
  exists r.
  assert (X : exists cls content,
    App12.calendar_cell (written_dates_set r) today df d
    = day_cell cls (strftime_ymd d)
        (if d <=? today then "showModal('" +:+ strftime_ymd d +:+ "');"
         else "")
        (day_of d) content
    /\ (cls = "future" <-> today < d)
    /\ (cls = "complete" <-> d <= today /\ d ∈ written_dates_set r)
    /\ (cls = "missed" <-> d < today /\ d ∉ written_dates_set r)
    /\ (cls = "encourage" <-> d = today /\ d ∉ written_dates_set r)
    /\ (d ∈ written_dates_set r ->
        exists first rest,
          App12.day_contents d df = first :: rest
          /\ content = preview first)
    /\ (d ∉ written_dates_set r ->
        content = if d <? today then lit "미작성"
                  else if d =? today then lit "오늘의 메모"
                  else [])).
  { unfold App12.calendar_cell. rewrite T. clear T.
    destruct (decide (d ∈ written_dates_set r)) as [Hw|Hw].
    - rewrite bool_decide_eq_true_2 by exact Hw.
      destruct (proj1 (DW d E) Hw) as [_ Hc].
      destruct (App12.day_contents d df) as [|first rest] eqn:C;
        [congruence|].
      destruct (Z.ltb_spec d today) as [L|L];
        [|destruct (Z.eqb_spec d today) as [Q|Q]];
        (eexists _, _; split; [reflexivity|];
         repeat split; try discriminate; try lia; try tauto;
         try (intros; exfalso; tauto);
         try (intros _; exists first, rest; split; reflexivity)).
    - rewrite bool_decide_eq_false_2 by exact Hw.
      destruct (Z.ltb_spec d today) as [L|L];
        [|destruct (Z.eqb_spec d today) as [Q|Q]];
        (eexists _, _; split; [reflexivity|];
         repeat split; try discriminate; try lia; try tauto;
         try (intros; exfalso; tauto)). }
  destruct X as (cls & content & X1 & X2).
  exists cls, content. split; [exact E|]. split; [exact X1|].
  split; [reflexivity|exact X2].
Qed.

Lemma calendar_cell_shows_the_first_entry_witness :
  App12.CHALLENGE_START_DATE <= date 2025 12 9 <= App12.CHALLENGE_END_DATE
  /\ exists r cls content,
       App12.calculate_challenge_status (date 2025 12 17) scenario_df = Ok r
       /\ (cls = "complete"
           <-> date 2025 12 9 <= date 2025 12 17
               /\ date 2025 12 9 ∈ written_dates_set r)
       /\ (date 2025 12 9 ∈ written_dates_set r ->
           exists first rest,
             App12.day_contents (date 2025 12 9) scenario_df = first :: rest
             /\ content = preview first).
Proof.
  assert (W : App12.CHALLENGE_START_DATE <= date 2025 12 9
              <= App12.CHALLENGE_END_DATE).
  { rewrite CHALLENGE_START_DATE_eq, CHALLENGE_END_DATE_eq.
    change (739588 <= 739594 <= 739620). lia. }
  split; [exact W|].
  destruct (calendar_cell_shows_the_first_entry (date 2025 12 17) scenario_df
              (date 2025 12 9) W)
    as (r & cls & content & E & _ & _ & _ & C & _ & _ & F & _).
  exists r, cls, content. auto.
Defined.

(** X12: the table of the calendar has full rows.  For every first and
    last day with the first not after the last, and the last before
    date.max, the loop ends and the table body it writes consists of rows
    of exactly seven cells; the cells of the days are those of the days
    from the first to the last, one each, in order. *)
Theorem calendar_rows_have_seven_cells W today df start_date end_date :
  valid_date start_date -> start_date <= end_date < MAXORDINAL ->
  exists html,
    App12.calendar_table W today df start_date end_date = Some (Ok html)
    /\ App2.calendar_table W today df start_date end_date = Some (Ok html)
    /\ Forall (fun row => length row = 7%nat) (rows html)
    /\ day_cells html
       = App12.calendar_cell W today df <$> Pd.date_range start_date end_date
    /\ length (day_cells html) = Z.to_nat (end_date - start_date + 1).
Proof.
  intros V O.
  destruct (calendar_table_scan W today df start_date end_date V O)
    as (html & E & S & D).
  exists html. split; [exact E|]. split; [exact E|].
  split; [|split; [exact D|]].
  - apply row_scan_rows in S as (r & rs & -> & L & F).
    apply List.Forall_cons; [exact L|exact F].
  - rewrite D, length_fmap. unfold Pd.date_range. apply length_seqZ.
Qed.

Lemma calendar_rows_have_seven_cells_witness :
  valid_date App12.CHALLENGE_START_DATE
  /\ App12.CHALLENGE_START_DATE <= App12.CHALLENGE_END_DATE < MAXORDINAL
  /\ exists html,
       App12.calendar_table ∅ (date 2025 12 17) scenario_df
         App12.CHALLENGE_START_DATE App12.CHALLENGE_END_DATE = Some (Ok html)
       /\ Forall (fun row => length row = 7%nat) (rows html)
       /\ length (day_cells html) = 33%nat.
Proof.
  assert (V : valid_date App12.CHALLENGE_START_DATE).
  { rewrite CHALLENGE_START_DATE_eq. unfold valid_date, MINORDINAL, MAXORDINAL.
    lia. }
  assert (O : App12.CHALLENGE_START_DATE <= App12.CHALLENGE_END_DATE
              < MAXORDINAL).
  { rewrite CHALLENGE_START_DATE_eq, CHALLENGE_END_DATE_eq.
    unfold MAXORDINAL. lia. }
  split; [exact V|]. split; [exact O|].
  destruct (calendar_rows_have_seven_cells ∅ (date 2025 12 17) scenario_df
              App12.CHALLENGE_START_DATE App12.CHALLENGE_END_DATE V O)
    as (html & E & _ & R & _ & L).
  exists html. split; [exact E|]. split; [exact R|].
  rewrite L, CHALLENGE_START_DATE_eq, CHALLENGE_END_DATE_eq. reflexivity.
Defined.

(** X13: the organiser's mark of today agrees with the written days.
    is_written_today holds exactly when a row of today has a text that is
    not blank; when today is a day of the window this is the membership of
    today in the set of written days, and the calendar marks today's cell
    complete; outside the window the set never contains today, whatever
    the mark says. *)
Theorem is_written_today_agrees_with_the_written_days today df :
  exists r,
    App12.calculate_challenge_status today df = Ok r
    /\ App2.is_written_today today df = App12.is_written_today today df
    /\ (App12.is_written_today today df = true
        <-> exists text, (today, text) ∈ df /\ strip text <> [])
    /\ (today ∈ written_dates_set r
        <-> App12.CHALLENGE_START_DATE <= today <= App12.CHALLENGE_END_DATE
            /\ App12.is_written_today today df = true).
Proof.
  destruct (calculate_challenge_status_result today df)
    as (r & E & _ & W & S & _).
  exists r. split; [exact E|]. split; [reflexivity|].
  assert (A : App12.is_written_today today df = true
              <-> exists text, (today, text) ∈ df
                               /\ nonempty (strip text) = true).
  { unfold App12.is_written_today, Pd.any_nonblank, Pd.texts_on.
    rewrite existsb_exists. split.
    - intros (s & Hin & Hn). apply list_elem_of_In in Hin.
      apply list_elem_of_fmap in Hin as ([d t] & -> & Hin).
      apply list_elem_of_filter in Hin as [<- Hin]. exists t. auto.
    - intros (text & Hin & Hn). exists text. split; [|exact Hn].
      apply list_elem_of_In, list_elem_of_fmap. exists (today, text).
      split; [reflexivity|]. apply list_elem_of_filter. auto. }
  split.
  - rewrite A. split; intros (text & Hin & Hn); exists text;
      (split; [exact Hin|]); destruct (strip text);
      first [discriminate|congruence|reflexivity].
  - rewrite S, W, elem_of_list_to_set, written_days_elem, A. reflexivity.
Qed.

End calendar_facts.

(** ** The pacing message *)

Section pacing_facts.
Import Py.

Lemma Zdigits2_unique m k : 0 < k -> 2 ^ (k - 1) <= m < 2 ^ k -> Zdigits2 m = k.
Proof.
  intros Hk H. assert (0 < 2 ^ (k - 1)) by (apply Z.pow_pos_nonneg; lia).
  rewrite Zdigits2_log2 by lia.
  rewrite (Z.log2_unique m (k - 1)); [lia|lia|].
  replace (Z.succ (k - 1)) with k by lia. exact H.
Qed.

Lemma pow2_split k n : 0 <= n <= k -> 2 ^ k = 2 ^ (k - n) * 2 ^ n.
Proof. intros H. rewrite <- Z.pow_add_r by lia. f_equal. lia. Qed.

Lemma div_pow2_range m k n :
  0 <= n -> n < k -> 2 ^ (k - 1) <= m < 2 ^ k ->
  2 ^ (k - 1 - n) <= m / 2 ^ n < 2 ^ (k - n).
Proof.
  intros Hn Hk H. assert (P : 0 < 2 ^ n) by (apply Z.pow_pos_nonneg; lia).
  split.
  - apply Z.div_le_lower_bound; [exact P|].
    rewrite Z.mul_comm, <- pow2_split by lia. lia.
  - apply Z.div_lt_upper_bound; [exact P|].
    rewrite Z.mul_comm, <- pow2_split by lia. lia.
Qed.

(** Rounding a mantissa of [k >= 53] digits to nearest even, in the normal
    range: the result is within one unit in the last place of the input,
    and equal to it when the input is representable. *)
Lemma binary_round_aux_faithful s m e k l :
  53 <= k -> 2 ^ (k - 1) <= m < 2 ^ k ->
  -1074 <= e + k - 53 -> e + k - 52 <= 971 ->
  exists mx ex,
    binary_round_aux prec emax s m e l = S754_finite s mx ex
    /\ e + (k - 53) <= ex <= e + (k - 53) + 1
    /\ 2 ^ 52 <= Z.pos mx < 2 ^ 53
    /\ m - 2 ^ (k - 53) < Z.pos mx * 2 ^ (ex - e) <= m + 2 ^ (k - 53)
    /\ (l = loc_Exact -> m mod 2 ^ (k - 53) = 0 -> Z.pos mx * 2 ^ (ex - e) = m).
Proof.
  intros Hk Hm Hlo Hhi.
  assert (M0 : 0 < 2 ^ (k - 1)) by (apply Z.pow_pos_nonneg; lia).
  destruct (binary_round_aux_spec s m e l) as (mr & B & X & ->); [lia|].
  rewrite !fexp_eq in *. rewrite (Zdigits2_unique m k) in * by lia.
  set (n := k - 53) in *.
  replace (Z.max 0 (Z.max (k + e - 53) (-1074) - e)) with n in * by lia.
  assert (Pn : 0 < 2 ^ n) by (apply Z.pow_pos_nonneg; lia).
  pose proof (div_pow2_range m k n ltac:(lia) ltac:(lia) Hm) as Q.
  replace (k - 1 - n) with 52 in Q by lia. replace (k - n) with 53 in Q by lia.
  pose proof (Z.div_mod m (2 ^ n) ltac:(lia)) as DM.
  pose proof (Z.mod_pos_bound m (2 ^ n) Pn) as MB.
  assert (C : mr < 2 ^ 53 \/ mr = 2 ^ 53) by lia.
  destruct C as [C|C].
  - rewrite (Zdigits2_unique mr 53) by lia.
    replace (Z.max 0 (Z.max (53 + (e + n) - 53) (-1074) - (e + n))) with 0 by lia.
    rewrite Z.div_1_r, Z.add_0_r. destruct mr as [|p|p]; try lia.
    replace (e + n <=? emax - prec) with true
      by (symmetry; apply Z.leb_le; unfold emax, prec; lia).
    exists p, (e + n). split; [reflexivity|]. split; [lia|]. split; [lia|].
    replace (e + n - e) with n by lia. split; [nia|].
    intros L D. pose proof (X L D) as XE. nia.
  - rewrite (Zdigits2_unique mr 54) by lia.
    replace (Z.max 0 (Z.max (54 + (e + n) - 53) (-1074) - (e + n))) with 1 by lia.
    rewrite C. change (2 ^ 53 / 2 ^ 1) with (Z.pos 4503599627370496).
    replace (e + n + 1 <=? emax - prec) with true
      by (symmetry; apply Z.leb_le; unfold emax, prec; lia).
    exists 4503599627370496%positive, (e + n + 1).
    split; [reflexivity|]. split; [lia|]. split; [lia|].
    replace (e + n + 1 - e) with (n + 1) by lia.
    rewrite Z.pow_add_r by lia. change (2 ^ 1) with 2.
    split; [nia|]. intros L D. rewrite (X L D) in C. nia.
Qed.


Lemma Zdigits2_bounds m : 0 < m -> 2 ^ (Zdigits2 m - 1) <= m < 2 ^ Zdigits2 m.
Proof.
  intros H. rewrite Zdigits2_log2 by lia.
  replace (Z.log2 m + 1 - 1) with (Z.log2 m) by lia.
  apply Z.log2_spec. exact H.
Qed.

Lemma new_location_0 b : new_location b 0 = loc_Exact.
Proof.
  unfold new_location, new_location_even, new_location_odd.
  destruct (Z.even b); reflexivity.
Qed.


(** The quotient of an integer below [2^22] by 28 or 33: a 53-bit
    mantissa [mx] with exponent [ex]; at the scale [2^t] of the quotient of
    [a * C] by [b] it is within two units of that quotient, and it is the
    quotient when [4 * a] is a multiple of [b]. *)
Lemma SFdiv_faithful s pa pb d2 :
  Z.pos pa < 2 ^ 22 ->
  (Z.pos pb = 28 /\ d2 = 5) \/ (Z.pos pb = 33 /\ d2 = 6) ->
  let a := Z.pos pa in
  let b := Z.pos pb in
  let d := Zdigits2 a in
  let G := 2 ^ (51 + d2 - d) in
  exists mx ex t,
    SFdiv prec emax (S754_finite s pa 0) (S754_finite false pb 0)
    = S754_finite s mx ex
    /\ ex = d - d2 - 53 + t /\ 0 <= t <= 2
    /\ 2 ^ 52 <= Z.pos mx < 2 ^ 53
    /\ 2 ^ 34 <= G
    /\ - 3 * b <= b * (Z.pos mx * 2 ^ t) - 4 * (a * G) <= 3 * b
    /\ ((4 * a) mod b = 0 ->
        b * (Z.pos mx * 2 ^ t) = 4 * (a * G) /\ Z.pos mx mod 8 = 0).
Proof.
  intros Ha Hb a b d G.
  pose proof (Zdigits2_bounds a ltac:(lia)) as Da. fold d in Da.
  assert (D1 : 1 <= d <= 22).
  { split; [destruct pa; cbn; lia|]. apply Zdigits2_lt; lia. }
  assert (Db : Zdigits2 b = d2 /\ 5 <= d2 <= 6
               /\ (2 ^ d2 = 32 /\ b = 28 \/ 2 ^ d2 = 64 /\ b = 33)).
  { subst b. destruct Hb as [[-> ->]|[-> ->]];
      (split; [reflexivity|]; split; [lia|]); [left|right];
      split; reflexivity. }
  destruct Db as (Db & D2 & B2).
  cbn [SFdiv]. rewrite SFdiv_core_binary_spec by lia.
  fold a b d. rewrite Db, fexp_eq.
  replace (Z.min (Z.max (d - d2 - 53) (-1074)) 0) with (d - d2 - 53) by lia.
  replace (- (d - d2 - 53)) with (53 + d2 - d) by lia.
  cbn [xorb]. replace (xorb s false) with s by (destruct s; reflexivity).
  set (e' := d - d2 - 53).
  (* the powers of two involved, as atoms *)
  set (G5 := 2 ^ (46 + d2 - d)).
  assert (PG5 : 0 < G5) by (apply Z.pow_pos_nonneg; lia).
  assert (EG : G = 32 * G5).
  { subst G G5. replace (51 + d2 - d) with (5 + (46 + d2 - d)) by lia.
    rewrite Z.pow_add_r by lia. reflexivity. }
  assert (EC : 2 ^ (53 + d2 - d) = 4 * G).
  { subst G. replace (53 + d2 - d) with (2 + (51 + d2 - d)) by lia.
    rewrite Z.pow_add_r by lia. reflexivity. }
  assert (G34 : 2 ^ 34 <= G).
  { subst G. apply Z.pow_le_mono_r; lia. }
  set (P := 2 ^ (d - 1)) in *.
  assert (PP : 0 < P) by (apply Z.pow_pos_nonneg; lia).
  assert (PG : P * G = 2 ^ 50 * 2 ^ d2).
  { subst P G. rewrite <- !Z.pow_add_r by lia. f_equal. lia. }
  assert (P2 : 2 ^ d = 2 * P).
  { subst P. replace d with (1 + (d - 1)) at 1 by lia.
    rewrite Z.pow_add_r by lia. reflexivity. }
  rewrite EC. rewrite P2 in Da.
  assert (AG1 : P * G <= a * G) by (apply Z.mul_le_mono_nonneg_r; lia).
  assert (AG2 : a * G < 2 * P * G) by (apply Z.mul_lt_mono_pos_r; lia).
  replace (a * (4 * G)) with (4 * (a * G)) by ring.
  set (AG := a * G) in *.
  set (q := 4 * AG / b). set (r := 4 * AG mod b).
  assert (Pb : 0 < b) by (subst b; lia).
  assert (DM : 4 * AG = b * q + r /\ 0 <= r < b).
  { split; [apply Z.div_mod; lia|apply Z.mod_pos_bound; exact Pb]. }
  clearbody q r.
  assert (Q : 2 ^ 52 <= q < 2 ^ 54).
  { clear - DM AG1 AG2 PG B2.
    destruct B2 as [[B2 Bb]|[B2 Bb]]; rewrite B2 in PG; rewrite Bb in DM;
      lia. }
  assert (K : exists k, (k = 53 \/ k = 54) /\ 2 ^ (k - 1) <= q < 2 ^ k).
  { clear - Q. destruct (Z_lt_le_dec q (2 ^ 53)); [exists 53|exists 54];
      (split; [lia|]).
    - change (53 - 1) with 52. lia.
    - change (54 - 1) with 53. lia. }
  destruct K as (k & Hk & Qk).
  destruct (binary_round_aux_faithful s q e' k (new_location b r))
    as (mx & ex & E & X1 & X2 & X3 & X4);
    [clear - Hk; lia|exact Qk|clear - Hk D1 D2; subst e'; lia
    |clear - Hk D1 D2; subst e'; lia|].
  assert (T : exists t, ex - e' = t /\ (t = 0 \/ t = 1 \/ t = 2)
                        /\ k - 53 <= t).
  { exists (ex - e'). clear - X1 Hk. lia. }
  destruct T as (t & Et & Ht & Hkt). rewrite Et in X3, X4.
  exists mx, ex, t. split; [exact E|].
  split; [clear - Et; subst e'; lia|].
  split; [clear - Ht; lia|]. split; [exact X2|]. split; [exact G34|].
  split.
  - set (X := Z.pos mx * 2 ^ t) in *. clearbody X.
    assert (X5 : -1 <= X - q <= 2).
    { clear - X3 Hk. destruct Hk as [-> | ->];
        [change (2 ^ (53 - 53)) with 1 in X3
        |change (2 ^ (54 - 53)) with 2 in X3]; lia. }
    assert (U1 : b * (X - q) <= b * 2)
      by (apply Z.mul_le_mono_nonneg_l; [clear - Pb|clear - X5]; lia).
    assert (U2 : b * (-1) <= b * (X - q))
      by (apply Z.mul_le_mono_nonneg_l; [clear - Pb|clear - X5]; lia).
    replace (b * X) with (b * (X - q) + b * q) by ring.
    clear - U1 U2 DM. lia.
  - intros M4.
    assert (J : 4 * a = b * (4 * a / b)).
    { apply Z.div_exact; [clear - Pb; lia|exact M4]. }
    set (j := 4 * a / b) in *. clearbody j.
    assert (AJ : 4 * AG = b * (j * G) + 0).
    { subst AG. replace (4 * (a * G)) with (4 * a * G) by ring.
      rewrite J. ring. }
    destruct DM as [DM Rb]. rewrite DM in AJ.
    apply Z.div_mod_unique in AJ;
      [|left; exact Rb|left; clear - Pb; lia].
    destruct AJ as [Qj R0].
    assert (Qe : q = 2 * (16 * (j * G5))).
    { rewrite Qj, EG. ring. }
    assert (L0 : new_location b r = loc_Exact)
      by (rewrite R0; apply new_location_0).
    assert (M0 : q mod 2 ^ (k - 53) = 0).
    { destruct Hk as [-> | ->].
      - change (2 ^ (53 - 53)) with 1. apply Z.mod_1_r.
      - change (2 ^ (54 - 53)) with 2. rewrite Qe, Z.mul_comm.
        apply Z.mod_mul. discriminate. }
    specialize (X4 L0 M0). split.
    + rewrite X4, DM, R0. ring.
    + rewrite Qe in X4. remember (j * G5) as JG eqn:HJG.
      clear - X4 Ht.
      destruct Ht as [->|[->| ->]];
        [change (2 ^ 0) with 1 in X4|change (2 ^ 1) with 2 in X4
        |change (2 ^ 2) with 4 in X4];
        Z.div_mod_to_equations; lia.
Qed.

(** The product of 20 and a float with a full mantissa: at the scale of
    the exact product it is within [2^53] of it, and it is the exact
    product when the mantissa is a multiple of 8. *)
Lemma float_mul_20_faithful s mx ex :
  2 ^ 52 <= Z.pos mx < 2 ^ 53 -> -100 <= ex <= 0 ->
  exists my ey u,
    float_mul (S754_finite false 5629499534213120 (-48)) (S754_finite s mx ex)
    = S754_finite s my ey
    /\ ey = ex - 48 + u /\ 52 <= u <= 54
    /\ - 2 ^ 53 <= Z.pos my * 2 ^ u - 5 * 2 ^ 50 * Z.pos mx <= 2 ^ 53
    /\ (Z.pos mx mod 8 = 0 -> Z.pos my * 2 ^ u = 5 * 2 ^ 50 * Z.pos mx).
Proof.
  intros Hm He. unfold float_mul. cbn [SFmul xorb].
  rewrite Pos2Z.inj_mul.
  change (Z.pos 5629499534213120) with (5 * 2 ^ 50).
  set (m2 := 5 * 2 ^ 50 * Z.pos mx).
  assert (M2 : 2 ^ 104 <= m2 < 2 ^ 106) by (subst m2; lia).
  assert (K : exists k, (k = 105 \/ k = 106) /\ 2 ^ (k - 1) <= m2 < 2 ^ k).
  { destruct (Z_lt_le_dec m2 (2 ^ 105)); [exists 105|exists 106];
      (split; [lia|]).
    - change (105 - 1) with 104. lia.
    - change (106 - 1) with 105. lia. }
  destruct K as (k & Hk & Mk).
  destruct (binary_round_aux_faithful s m2 (-48 + ex) k loc_Exact)
    as (my & ey & E & Y1 & Y2 & Y3 & Y4); [lia|exact Mk|lia|lia|].
  assert (U : exists u, ey - (-48 + ex) = u
                        /\ (u = 52 \/ u = 53 \/ u = 54) /\ k - 53 <= u)
    by (exists (ey - (-48 + ex)); lia).
  destruct U as (u & Eu & Hu & Hku). rewrite Eu in *.
  exists my, ey, u. split; [exact E|]. split; [lia|]. split; [lia|].
  split.
  - destruct Hk as [-> | ->];
      [change (2 ^ (105 - 53)) with (2 ^ 52) in Y3
      |change (2 ^ (106 - 53)) with (2 ^ 53) in Y3]; lia.
  - intros M8. apply Y4; [reflexivity|].
    assert (J : exists j, Z.pos mx = 8 * j).
    { exists (Z.pos mx / 8). pose proof (Z.div_mod (Z.pos mx) 8 ltac:(lia)).
      lia. }
    destruct J as (j & J). subst m2. rewrite J.
    destruct Hk as [-> | ->].
    + change (2 ^ (105 - 53)) with (2 ^ 52).
      replace (5 * 2 ^ 50 * (8 * j)) with (10 * j * 2 ^ 52) by lia.
      apply Z.mod_mul. lia.
    + change (2 ^ (106 - 53)) with (2 ^ 53).
      replace (5 * 2 ^ 50 * (8 * j)) with (5 * j * 2 ^ 53) by lia.
      apply Z.mod_mul. lia.
Qed.

Lemma quarter_exact a b F :
  b = 28 \/ b = 33 -> 20 * a = b * F -> (4 * a) mod b = 0.
Proof.
  intros [-> | ->] E; Z.div_mod_to_equations; lia.
Qed.

(** [int(20 * (a / b))] for [b] one of 28 and 33 and [0 < a < 2^22], in
    magnitude: the integer quotient of [20 * a] by [b]. *)
Lemma paced_goal_magnitude s pa pb :
  Z.pos pa < 2 ^ 22 -> Z.pos pb = 28 \/ Z.pos pb = 33 ->
  int_of_float
    (float_mul (S754_finite false 5629499534213120 (-48))
       (SFdiv prec emax (S754_finite s pa 0) (S754_finite false pb 0)))
  = Ok (cond_Zopp s (20 * Z.pos pa / Z.pos pb)).
Proof.
  intros Ha Hb.
  assert (Hb' : exists d2, (Z.pos pb = 28 /\ d2 = 5)
                           \/ (Z.pos pb = 33 /\ d2 = 6)).
  { destruct Hb; [exists 5|exists 6]; auto. }
  destruct Hb' as (d2 & Hb').
  assert (D2 : 5 <= d2 <= 6) by lia.
  destruct (SFdiv_faithful s pa pb d2 Ha Hb')
    as (mx & ex & t & -> & Eex & Ht & Mx & G34 & A1 & A2).
  set (a := Z.pos pa) in *. set (b := Z.pos pb) in *.
  set (d := Zdigits2 a) in *.
  assert (D1 : 1 <= d <= 22).
  { split; [subst d a; destruct pa; cbn; lia|]. apply Zdigits2_lt; lia. }
  destruct (float_mul_20_faithful s mx ex Mx ltac:(lia))
    as (my & ey & u & -> & Eey & Hu & B1 & B2).
  cbn [int_of_float]. f_equal. f_equal.
  rewrite Z.shiftl_div_pow2 by lia.
  set (Hy := 2 ^ (- ey)).
  assert (PH : 0 < Hy) by (apply Z.pow_pos_nonneg; lia).
  set (G := 2 ^ (51 + d2 - d)) in *.
  set (c := 2 ^ (u + t - 50)).
  assert (EG : G = c * Hy).
  { subst G c Hy. rewrite <- Z.pow_add_r by lia. f_equal. lia. }
  assert (H28 : 2 ^ 28 <= Hy).
  { subst Hy. apply Z.pow_le_mono_r; lia. }
  set (F := 20 * a / b). set (rho := 20 * a mod b).
  assert (DM : 20 * a = b * F + rho /\ 0 <= rho < b).
  { split; [apply Z.div_mod; lia|apply Z.mod_pos_bound; lia]. }
  destruct DM as [DM Rb].
  assert (E20 : 20 * (a * Hy) = b * (F * Hy) + rho * Hy).
  { replace (20 * (a * Hy)) with (20 * a * Hy) by ring. rewrite DM. ring. }
  assert (EA : a * G = c * (a * Hy)) by (rewrite EG; ring).
  assert (R1 : 0 <= rho * Hy) by (apply Z.mul_nonneg_nonneg; lia).
  assert (R2 : rho * Hy <= (b - 1) * Hy)
    by (apply Z.mul_le_mono_nonneg_r; lia).
  assert (R3 : 1 <= rho -> 1 * Hy <= rho * Hy)
    by (intros; apply Z.mul_le_mono_nonneg_r; lia).
  assert (X0 : rho = 0 ->
               b * (Z.pos mx * 2 ^ t) = 4 * (a * G)
               /\ Z.pos my * 2 ^ u = 5 * 2 ^ 50 * Z.pos mx).
  { intros R0. rewrite R0, Z.add_0_r in DM.
    destruct (A2 (quarter_exact a b F Hb DM)) as [A3 A4]. auto. }
  symmetry. apply (Z.div_unique _ _ _ (Z.pos my - Hy * F)); [|ring].
  left. replace (Hy * F) with (F * Hy) by ring.
  rewrite EA in A1, X0.
  assert (Hc : c = 2 ^ (u + t - 50)) by reflexivity.
  assert (HT : exists T, T = 2 ^ t) by eauto. destruct HT as (T & HT).
  assert (HU : exists U, U = 2 ^ u) by eauto. destruct HU as (U & HU).
  rewrite <- HT in A1, X0. rewrite <- HU in B1, X0.
  clearbody c Hy F rho a b.
  clear - Hb Ht Hu Hc HT HU A1 B1 X0 E20 R1 R2 R3 Rb H28 PH Mx.
  assert (Ct : t = 0 \/ t = 1 \/ t = 2) by lia.
  assert (Cu : u = 52 \/ u = 53 \/ u = 54) by lia.
  clear Ht Hu.
  destruct (Z.eq_dec rho 0) as [R0|R0].
  - destruct (X0 R0) as [X1 X2]. clear X0.
    destruct Hb as [-> | ->]; destruct Ct as [->|[->| ->]];
      destruct Cu as [->|[->| ->]];
      vm_compute in Hc, HT, HU; subst c T U; lia.
  - clear X0.
    destruct Hb as [-> | ->]; destruct Ct as [->|[->| ->]];
      destruct Cu as [->|[->| ->]];
      vm_compute in Hc, HT, HU; subst c T U; lia.
Qed.

(** [int(20 * (e / b))] for [b] one of 28 and 33 and [|e| < 2^22]: the
    quotient of [20 * e] by [b], truncated toward zero. *)
Lemma paced_goal e b :
  - 2 ^ 22 < e < 2 ^ 22 -> b = 28 \/ b = 33 ->
  (ratio ← int_truediv e b; scaled ← int_mul_float 20 ratio;
   int_of_float scaled) = Ok (Z.quot (20 * e) b).
Proof.
  intros He Hb. unfold int_truediv, int_mul_float.
  rewrite float_of_int_20. cbn [mbind result_bind bind].
  replace (b =? 0) with false by (symmetry; apply Z.eqb_neq; lia).
  destruct b as [|pb|pb]; try lia. cbn [int_mantissa].
  destruct e as [|pa|pa]; cbn [int_mantissa].
  - reflexivity.
  - pose proof (paced_goal_magnitude false pa pb ltac:(lia) Hb) as M.
    destruct (SFdiv prec emax (S754_finite false pa 0) (S754_finite false pb 0))
      as [| | |s m x] eqn:D;
      try (vm_compute in M; discriminate M).
    + cbn [mbind result_bind bind]. rewrite M. cbn [cond_Zopp]. f_equal.
      symmetry. apply Z.quot_div_nonneg; lia.
    + cbn [mbind result_bind bind]. rewrite M. cbn [cond_Zopp]. f_equal.
      symmetry. apply Z.quot_div_nonneg; lia.
  - pose proof (paced_goal_magnitude true pa pb ltac:(lia) Hb) as M.
    assert (Q : Z.quot (20 * Z.neg pa) (Z.pos pb)
                = - (20 * Z.pos pa / Z.pos pb)).
    { replace (20 * Z.neg pa) with (- (20 * Z.pos pa)) by lia.
      rewrite Z.quot_opp_l by lia. f_equal. apply Z.quot_div_nonneg; lia. }
    destruct (SFdiv prec emax (S754_finite true pa 0) (S754_finite false pb 0))
      as [| | |s m x] eqn:D;
      try (vm_compute in M; discriminate M).
    + cbn [mbind result_bind bind]. rewrite M, Q. reflexivity.
    + cbn [mbind result_bind bind]. rewrite M, Q. reflexivity.
Qed.

(** X14: the expected goal of app12.py is exact.  On every valid date the
    float computation int(20 * (elapsed / 28)) is the integer quotient of
    20 * elapsed by 28, where elapsed counts the days from 2025-12-08 to
    today, both included, and is 0 before: no rounding error of the
    division or of the product reaches the integer part.  The expected
    goal is not capped at the goal of 20 days: it reaches 20 on the last
    day of the challenge and exceeds it from the second day after. *)
Theorem app12_expected_goal_is_exact today total_written total_goal :
  valid_date today ->
  let elapsed := Z.max 0 (days_between today (date 2025 12 8) + 1) in
  let expected := 20 * elapsed / 28 in
  App12.get_motivation_message today total_written total_goal
  = Ok (if total_written >=? total_goal then App12.msg_achieved total_goal
        else if total_written >=? expected
             then App12.msg_on_pace expected (total_written - expected)
             else App12.msg_behind (expected - total_written))
  /\ (20 <= expected <-> App12.CHALLENGE_END_DATE <= today)
  /\ (20 < expected <-> App12.CHALLENGE_END_DATE + 2 <= today).
Proof.
  intros V. change (date 2025 12 8) with 739593.
  rewrite CHALLENGE_END_DATE_eq. unfold days_between. cbv zeta.
  set (elapsed := Z.max 0 (today - 739593 + 1)).
  assert (E : - 2 ^ 22 < elapsed < 2 ^ 22).
  { unfold valid_date, MINORDINAL, MAXORDINAL in V. lia. }
  split; [|split; subst elapsed; Z.div_mod_to_equations; lia].
  rewrite App12_get_motivation_message_eq. cbv zeta.
  destruct (total_written >=? total_goal); [reflexivity|].
  replace (if today - 739593 + 1 <? 0 then 0 else today - 739593 + 1)
    with elapsed
    by (subst elapsed; destruct (Z.ltb_spec (today - 739593 + 1) 0); lia).
  pose proof (paced_goal elapsed 28 E ltac:(left; reflexivity)) as P.
  destruct (int_truediv elapsed 28) as [x|]; [|discriminate P].
  cbn [mbind result_bind bind] in P |- *.
  destruct (int_mul_float 20 x) as [y|]; [|discriminate P].
  cbn [mbind result_bind bind] in P |- *. rewrite P.
  cbn [mbind result_bind bind].
  rewrite Z.quot_div_nonneg by lia.
  rewrite Z.max_r by (apply Z.div_pos; lia).
  destruct (total_written >=? 20 * elapsed / 28); reflexivity.
Qed.

Lemma app12_expected_goal_is_exact_witness :
  valid_date (date 2025 12 17)
  /\ App12.get_motivation_message (date 2025 12 17) 4 20
     = Ok (App12.msg_behind 3).
Proof.
  assert (V : valid_date (date 2025 12 17)).
  { change (1 <= 739602 <= 3652059). lia. }
  split; [exact V|].
  destruct (app12_expected_goal_is_exact (date 2025 12 17) 4 20 V) as [E _].
  rewrite E. reflexivity.
Defined.

(** X15: the expected goal of app2.py truncates toward zero.  On every
    valid date, with the goal of 20 days the views pass, the float
    computation int(20 * (elapsed / 33)) is the quotient of 20 * elapsed by
    33 truncated toward zero, where elapsed counts the days from
    2025-12-03 to today and is negative or zero before: the expected goal
    is negative from the third day before the start backwards, and like
    that of app12.py it is not capped at the goal. *)
Theorem app2_expected_goal_truncates today total_written :
  valid_date today ->
  let elapsed := days_between today App2.CHALLENGE_START_DATE + 1 in
  let expected := Z.quot (20 * elapsed) 33 in
  App2.get_motivation_message today total_written App2.TOTAL_CHALLENGE_GOAL
  = Ok (if total_written >=? 20 then App2.msg_achieved 20
        else if total_written >=? expected
             then App2.msg_on_pace expected (total_written - expected)
             else App2.msg_behind (expected - total_written))
  /\ (expected < 0 <-> today + 3 <= App2.CHALLENGE_START_DATE)
  /\ (20 <= expected <-> App2.CHALLENGE_END_DATE <= today)
  /\ (0 <= elapsed -> expected = 20 * elapsed / 33).
Proof.
  intros V.
  change App2.CHALLENGE_START_DATE with 739588.
  change App2.CHALLENGE_END_DATE with 739620.
  change App2.TOTAL_CHALLENGE_GOAL with 20.
  unfold days_between. cbv zeta.
  set (elapsed := today - 739588 + 1).
  assert (E : - 2 ^ 22 < elapsed < 2 ^ 22).
  { unfold valid_date, MINORDINAL, MAXORDINAL in V. lia. }
  split; [|split; [|split]].
  - rewrite App2_get_motivation_message_eq.
    destruct (total_written >=? 20); [reflexivity|]. fold elapsed.
    pose proof (paced_goal elapsed 33 E ltac:(right; reflexivity)) as P.
    destruct (int_truediv elapsed 33) as [x|]; [|discriminate P].
    cbn [mbind result_bind bind] in P |- *.
    destruct (int_mul_float 20 x) as [y|]; [|discriminate P].
    cbn [mbind result_bind bind] in P |- *. rewrite P.
    cbn [mbind result_bind bind].
    destruct (total_written >=? Z.quot (20 * elapsed) 33); reflexivity.
  - destruct (Z_lt_le_dec elapsed 0) as [N|N].
    + replace (20 * elapsed) with (- (20 * - elapsed)) by lia.
      rewrite Z.quot_opp_l, Z.quot_div_nonneg by lia.
      subst elapsed. Z.div_mod_to_equations. lia.
    + rewrite Z.quot_div_nonneg by lia.
      subst elapsed. Z.div_mod_to_equations. lia.
  - destruct (Z_lt_le_dec elapsed 0) as [N|N].
    + replace (20 * elapsed) with (- (20 * - elapsed)) by lia.
      rewrite Z.quot_opp_l, Z.quot_div_nonneg by lia.
      subst elapsed. Z.div_mod_to_equations. lia.
    + rewrite Z.quot_div_nonneg by lia.
      subst elapsed. Z.div_mod_to_equations. lia.
  - intros N. apply Z.quot_div_nonneg; lia.
Qed.

Lemma app2_expected_goal_truncates_witness :
  valid_date (date 2025 11 30)
  /\ App2.get_motivation_message (date 2025 11 30) 0
       App2.TOTAL_CHALLENGE_GOAL
     = Ok (App2.msg_on_pace (-1) 1).
Proof.
  assert (V : valid_date (date 2025 11 30)).
  { change (1 <= 739585 <= 3652059). lia. }
  split; [exact V|].
  destruct (app2_expected_goal_truncates (date 2025 11 30) 0 V) as [E _].
  rewrite E. reflexivity.
Defined.

End pacing_facts.

(** ** The organiser's table *)

Section table_facts.
Import Py.

Lemma rate_text_order t1 t2 :
  0 <= t1 < 29 -> 0 <= t2 < 29 ->
  str_lt (lit (exact_percent t1 20 +:+ "%")) (lit (exact_percent t2 20 +:+ "%"))
  = (text_rank t1 <? text_rank t2).
Proof.
  intros H1 H2.
  assert (T : forallb (fun a => forallb (rank_check a) (seqZ 0 29)) (seqZ 0 29)
              = true) by (vm_compute; reflexivity).
  rewrite forallb_forall in T. specialize (T t1).
  rewrite forallb_forall in T.
  specialize (T ltac:(apply list_elem_of_In, elem_of_seqZ; lia) t2
                ltac:(apply list_elem_of_In, elem_of_seqZ; lia)).
  apply Bool.eqb_prop in T. exact T.
Qed.

Lemma overall_rate_text_exact today df r :
  App12.calculate_challenge_status today df = Ok r ->
  0 <= total_written_challenge r < 29
  /\ format_1f (overall_completion_rate r)
     = exact_percent (total_written_challenge r) 20
  /\ total_goal r = 20.
Proof.
  intros E.
  destruct (calculate_challenge_status_result today df)
    as (r' & E1 & _ & W & _ & T & G & F & C & _).
  rewrite E in E1. injection E1 as <-.
  pose proof (written_days_NoDup df) as N. rewrite <- W in N.
  pose proof (graded_total_le_28 _ _ _ N F) as B. rewrite <- T in B.
  change App12.TOTAL_CHALLENGE_GOAL with 20 in G. rewrite G in C.
  destruct (total_bar_table (total_written_challenge r)) as (p & Ep & _ & Tp);
    [lia|].
  rewrite C in Ep. injection Ep as <-. split; [lia|]. split; [exact Tp|exact G].
Qed.

(** X16: the organiser's ranking by rate compares texts.  The column the
    ranking by the total rate sorts by holds the text of the rate, not the
    rate; for two members the order of these texts is that of the code
    points: it places 5.0% above 10.0% to 45.0% and above 100.0%, and
    100.0% between 10.0% and 15.0%.  The column of today's mark orders the
    mark of a member who has not written above that of one who has. *)
Theorem ranking_by_rate_compares_texts today df1 df2 :
  exists r1 r2 k1 k2,
    App12.calculate_challenge_status today df1 = Ok r1
    /\ App12.calculate_challenge_status today df2 = Ok r2
    /\ App12.overall_rate_text today df1 = Ok k1
    /\ App12.overall_rate_text today df2 = Ok k2
    /\ App2.overall_rate_text today df1 = Ok k1
    /\ App2.overall_rate_text today df2 = Ok k2
    /\ (str_lt (lit k1) (lit k2) = true
        <-> text_rank (total_written_challenge r1)
            < text_rank (total_written_challenge r2))
    /\ (total_written_challenge r1 = 1 ->
        2 <= total_written_challenge r2 <= 9
        \/ 20 <= total_written_challenge r2 ->
        str_lt (lit k2) (lit k1) = true)
    /\ str_lt (lit "✅") (lit "❌") = true.
Proof.
  destruct (calculate_challenge_status_result today df1) as (r1 & E1 & _).
  destruct (calculate_challenge_status_result today df2) as (r2 & E2 & _).
  destruct (overall_rate_text_exact _ _ _ E1) as (B1 & T1 & _).
  destruct (overall_rate_text_exact _ _ _ E2) as (B2 & T2 & _).
  exists r1, r2, (exact_percent (total_written_challenge r1) 20 +:+ "%"),
    (exact_percent (total_written_challenge r2) 20 +:+ "%").
  split; [exact E1|]. split; [exact E2|].
  assert (K : forall df r, App12.calculate_challenge_status today df = Ok r ->
                format_1f (overall_completion_rate r)
                = exact_percent (total_written_challenge r) 20 ->
                App12.overall_rate_text today df
                = Ok (exact_percent (total_written_challenge r) 20 +:+ "%")).
  { intros df r E T. unfold App12.overall_rate_text. rewrite E.
    cbn [mbind result_bind bind]. rewrite T. reflexivity. }
  split; [exact (K _ _ E1 T1)|]. split; [exact (K _ _ E2 T2)|].
  split; [exact (K _ _ E1 T1)|]. split; [exact (K _ _ E2 T2)|].
  split; [|split; [|reflexivity]].
  - rewrite rate_text_order by lia. apply Z.ltb_lt.
  - intros H1 H2. rewrite rate_text_order by lia. rewrite H1.
    apply Z.ltb_lt. unfold text_rank.
    repeat match goal with
           | |- context [?a =? ?b] => destruct (Z.eqb_spec a b)
           | |- context [?a <=? ?b] => destruct (Z.leb_spec a b)
           end; lia.
Qed.

(** X17: the columns of the organiser's table.  On every frame and date
    the row of a member has eight columns with distinct names, in this
    order: the member, today's mark, the total of written days under the
    name that quotes the goal of 20 days, the text of the total rate, and
    one column for each graded week; merging the weekly columns overwrites
    none of the first four.  The weekly columns hold the written days in
    app12.py and the rates in app2.py, and their names are the columns the
    ranking can be sorted by, so that every such column exists. *)
Theorem status_entry_columns member today df :
  exists r s0 s1 s2 s3 s4,
    App12.calculate_challenge_status today df = Ok r
    /\ weekly_status r = [s0; s1; s2; s3; s4]
    /\ App12.status_entry member today df
       = Ok [("참가자", text_value member);
             ("오늘 작성",
              text_value (if App12.is_written_today today df
                          then "✅" else "❌"));
             ("총 목표(20일)", int_value (total_written_challenge r));
             ("달성률",
              text_value (exact_percent (total_written_challenge r) 20
                          +:+ "%"));
             ("1주차", int_value (s_written s1));
             ("2주차", int_value (s_written s2));
             ("3주차", int_value (s_written s3));
             ("4주차", int_value (s_written s4))]
    /\ App2.status_entry member today df
       = Ok [("참가자", text_value member);
             ("오늘 작성",
              text_value (if App12.is_written_today today df
                          then "✅" else "❌"));
             ("총 목표(20일)", int_value (total_written_challenge r));
             ("달성률",
              text_value (exact_percent (total_written_challenge r) 20
                          +:+ "%"));
             ("1주차", num_value (s_rate s1));
             ("2주차", num_value (s_rate s2));
             ("3주차", num_value (s_rate s3));
             ("4주차", num_value (s_rate s4))]
    /\ App12.week_cols_for_sort = ["1주차"; "2주차"; "3주차"; "4주차"]
    /\ App2.week_cols_for_sort = ["1주차"; "2주차"; "3주차"; "4주차"].
Proof.
  destruct (calculate_challenge_status_result today df)
    as (r & E1 & E2 & _ & _ & _ & _ & F & _).
  destruct (overall_rate_text_exact _ _ _ E1) as (_ & T & G).
  revert F. rewrite CHALLENGE_WEEKS_eq. intros F.
  remember (weekly_status r) as sts eqn:W. invert_statuses F.
  destruct I as (N0 & _ & _ & _ & C0 & _).
  destruct I0 as (N1 & _ & _ & _ & C1 & _).
  destruct I1 as (N2 & _ & _ & _ & C2 & _).
  destruct I2 as (N3 & _ & _ & _ & C3 & _).
  destruct I3 as (N4 & _ & _ & _ & C4 & _).
  cbn [w_name w_is_challenge] in *.
  exists r, s, s0, s1, s2, s3. split; [exact E1|].
  split; [symmetry; exact W|].
  assert (F12 : filter (fun w => s_is_challenge w = true) [s; s0; s1; s2; s3]
                = [s0; s1; s2; s3]).
  { rewrite filter_cons_False by (rewrite C0; discriminate).
    rewrite !filter_cons_True by assumption. reflexivity. }
  split; [|split; [|split; reflexivity]].
  - unfold App12.status_entry. rewrite E1. cbn [mbind result_bind bind].
    rewrite <- W, G, T. unfold App12.weekly_rates. rewrite F12.
    cbn [fmap list_fmap]. rewrite N1, N2, N3, N4. reflexivity.
  - unfold App2.status_entry. rewrite E2. cbn [mbind result_bind bind].
    rewrite <- W, G, T. unfold App2.weekly_rates. rewrite F12.
    cbn [fmap list_fmap]. rewrite N1, N2, N3, N4. reflexivity.
Qed.

End table_facts.

(** ** The totality of the computation *)

Section goal_facts.
Import Py.










End goal_facts.
